(** * Session drafts: lifecycle and autosave

    A shallow embedding of the session lifecycle of the wellness-session
    application:

    - [Model]       backend/models/Session.js        (the Mongoose schema)
    - [Routes]      backend/routes/sessions.js       (request validation)
    - [Controller]  backend/controllers/sessionController.js
    - [Editor]      frontend/src/pages/SessionEditor.tsx

    The database collection is a finite map from document ids to documents.
    [Date.now()] is an explicit argument of every operation that reads the
    clock.  A JavaScript exception is a value of [Completion]; the
    controllers' [try]/[catch] turns it into a 500 response. *)

From stdpp Require Import gmap strings list fin_maps sorting.
From Stdlib Require Import ZArith Lia Ascii String.

Local Open Scope Z_scope.

(** ** JavaScript strings *)

Module Js.

(** [String.prototype.trim], on the ASCII white space characters. *)
Fixpoint trimStart (s : string) : string :=
  match s with
  | String a s' => if Ascii.is_space a then trimStart s' else s
  | EmptyString => EmptyString
  end.

Fixpoint trimEnd (s : string) : string :=
  match s with
  | String a s' =>
      match trimEnd s' with
      | EmptyString =>
          if Ascii.is_space a then EmptyString else String a EmptyString
      | r => String a r
      end
  | EmptyString => EmptyString
  end.

Definition trim (s : string) : string := trimEnd (trimStart s).

(** [s.split(sep)] for a one-character separator; [cur] is the piece being
    read, most recent character first. *)
Fixpoint split_go (sep : ascii) (cur : string) (s : string) : list string :=
  match s with
  | EmptyString => [String.rev cur]
  | String a s' =>
      if decide (a = sep) then String.rev cur :: split_go sep EmptyString s'
      else split_go sep (String a cur) s'
  end.

Definition split (sep : ascii) (s : string) : list string :=
  split_go sep EmptyString s.

(** [l.join(sep)] *)
Fixpoint join (sep : string) (l : list string) : string :=
  match l with
  | [] => EmptyString
  | [x] => x
  | x :: l' => x +:+ sep +:+ join sep l'
  end.

(** [s.repeat(n)] *)
Fixpoint repeat (s : string) (n : nat) : string :=
  match n with
  | O => EmptyString
  | S n' => s +:+ repeat s n'
  end.

(** [!s] for a string: only the empty string is falsy. *)
Definition is_empty (s : string) : bool :=
  match s with EmptyString => true | _ => false end.

Definition length (s : string) : Z := Z.of_nat (String.length s).

(** [String.prototype.toLowerCase], on the ASCII letters. *)
Definition lower (a : ascii) : ascii :=
  let n := N_of_ascii a in
  if ((65 <=? n) && (n <=? 90))%N then ascii_of_N (n + 32) else a.

Fixpoint toLowerCase (s : string) : string :=
  match s with
  | EmptyString => EmptyString
  | String a s' => String (lower a) (toLowerCase s')
  end.

(** The values a request body can carry in its [tags] field.  [JStr s]
    stands for any scalar that is not [null], [false] or [0]; it is falsy
    exactly when [s] is empty. *)
Inductive Value :=
| JUndefined
| JNull
| JFalse
| JZero
| JStr (s : string)
| JArr (l : list string).

Definition truthy (v : Value) : bool :=
  match v with
  | JUndefined | JNull | JFalse | JZero => false
  | JStr s => negb (is_empty s)
  | JArr _ => true
  end.

Definition isArray (v : Value) : bool :=
  match v with JArr _ => true | _ => false end.

(** What a function call leaves behind: a value, or a thrown exception. *)
Inductive Completion (A : Type) :=
| Returned (a : A)
| Thrown (message : string).
Arguments Returned {A} a.
Arguments Thrown {A} message.

End Js.

(** ** backend/models/Session.js *)

Module Model.

Definition ObjectId := positive.

Inductive Status := draft | published.

Record Session := {
  _id : ObjectId;
  user_id : ObjectId;
  title : string;
  tags : list string;
  json_file_url : string;
  status : Status;
  created_at : Z;
  updated_at : Z
}.

Global Instance Status_eq_dec : EqDecision Status.
Proof. solve_decision. Defined.

Global Instance Session_eq_dec : EqDecision Session.
Proof. solve_decision. Defined.

(** The collection behind [mongoose.model('Session', sessionSchema)]. *)
Abbreviation Collection := (gmap ObjectId Session).

(** The schema's setters: [trim: true] on [title], on every tag and on
    [json_file_url]. *)
Definition set_title (v : string) : string := Js.trim v.
Definition set_tags (v : list string) : list string := Js.trim <$> v.
Definition set_json_file_url (v : string) : string := Js.trim v.

(** The schema's validators, with the message each one raises. *)
Definition validate_title (v : string) : list string :=
  (if Js.is_empty v then ["Session title is required"] else []) ++
  (if 200 <? Js.length v then ["Title cannot exceed 200 characters"] else []).

Definition validate_tags (v : list string) : list string :=
  if forallb (fun t => Js.length t <=? 50) v then []
  else ["Tag cannot exceed 50 characters"].

Definition validate_json_file_url (v : string) : list string :=
  if Js.is_empty v then ["JSON file URL is required"] else [].

(** An update document: the paths it sets. *)
Record Update := {
  set_title_to : option string;
  set_tags_to : option (list string);
  set_json_file_url_to : option string;
  set_status_to : option Status;
  set_updated_at_to : option Z
}.

(** Casting an update runs the setters of the paths it mentions. *)
Definition cast (u : Update) : Update :=
  {| set_title_to := set_title <$> set_title_to u;
     set_tags_to := set_tags <$> set_tags_to u;
     set_json_file_url_to := set_json_file_url <$> set_json_file_url_to u;
     set_status_to := set_status_to u;
     set_updated_at_to := set_updated_at_to u |}.

(** [runValidators: true]: the validators of the paths the update sets.
    [status] is an enum path, and every [Status] is one of its values. *)
Definition validate_update (u : Update) : list string :=
  from_option validate_title [] (set_title_to u) ++
  from_option validate_tags [] (set_tags_to u) ++
  from_option validate_json_file_url [] (set_json_file_url_to u).

Definition apply_update (u : Update) (d : Session) : Session :=
  {| _id := _id d;
     user_id := user_id d;
     title := default (title d) (set_title_to u);
     tags := default (tags d) (set_tags_to u);
     json_file_url := default (json_file_url d) (set_json_file_url_to u);
     status := default (status d) (set_status_to u);
     created_at := created_at d;
     updated_at := default (updated_at d) (set_updated_at_to u) |}.

(** [Session.findOneAndUpdate({ _id, user_id }, update,
    { new: true, runValidators: true })]: throws when a validator fails,
    returns [null] ([None]) when no document matches the filter, and the
    updated document otherwise. *)
Definition findOneAndUpdate (id owner : ObjectId) (u : Update)
    (coll : Collection) : Js.Completion (option Session) * Collection :=
  let u' := cast u in
  match validate_update u' with
  | e :: _ => (Js.Thrown e, coll)
  | [] =>
      match coll !! id with
      | Some d =>
          if decide (user_id d = owner) then
            let d' := apply_update u' d in
            (Js.Returned (Some d'), <[id := d']> coll)
          else (Js.Returned None, coll)
      | None => (Js.Returned None, coll)
      end
  end.

(** [Session.findOne({ _id, user_id })] *)
Definition findOne (id owner : ObjectId) (coll : Collection)
    : option Session :=
  match coll !! id with
  | Some d => if decide (user_id d = owner) then Some d else None
  | None => None
  end.

(** The fields handed to [new Session({...})]. *)
Record Candidate := {
  c_user_id : ObjectId;
  c_title : string;
  c_tags : list string;
  c_json_file_url : string;
  c_status : Status
}.

(** [new Session(c)] followed by [save()]: the document gets an id no
    stored document has, [created_at] takes its default, the [pre('save')]
    hook stamps [updated_at], and [save] throws when a validator fails. *)
Definition create (c : Candidate) (now : Z) (coll : Collection)
    : Js.Completion Session * Collection :=
  let d := {| _id := fresh (dom coll);
              user_id := c_user_id c;
              title := set_title (c_title c);
              tags := set_tags (c_tags c);
              json_file_url := set_json_file_url (c_json_file_url c);
              status := c_status c;
              created_at := now;
              updated_at := now |} in
  match validate_title (title d) ++ validate_tags (tags d)
        ++ validate_json_file_url (json_file_url d) with
  | e :: _ => (Js.Thrown e, coll)
  | [] => (Js.Returned d, <[_id d := d]> coll)
  end.

End Model.

(** ** HTTP requests and responses *)

Module Http.

(** The body of [POST /my-sessions/save-draft].  [sessionId] is falsy
    ([None]) when the field is missing, [null] or the empty string. *)
Record Body := {
  title : string;
  tags : Js.Value;
  json_file_url : string;
  sessionId : option Model.ObjectId
}.

Inductive Response :=
| Json (message : string) (session : Model.Session)
| Status400 (message : string) (errors : list string)
| Status404 (message : string)
| Status500 (message : string).

(** The error kinds of the interface, read off a response. *)
Inductive Outcome := Success | ValidationError | NotFound | ServerError.

Definition outcome (r : Response) : Outcome :=
  match r with
  | Json _ _ => Success
  | Status400 _ _ => ValidationError
  | Status404 _ => NotFound
  | Status500 _ => ServerError
  end.

End Http.

(** ** backend/controllers/sessionController.js *)

Module Controller.
Import Model Http.

(** [tags || []] *)
Definition or_empty_array (v : Js.Value) : Js.Value :=
  if Js.truthy v then v else Js.JArr [].

(** Casting a value to the schema's [[String]] path; a scalar is wrapped
    into a one-element array. *)
Definition cast_tags (v : Js.Value) : list string :=
  match v with
  | Js.JArr l => l
  | Js.JStr s => [s]
  | _ => []
  end.

(** [getSessionById]: the response carries the session and no message. *)
Definition getSessionById (id user : ObjectId) (coll : Collection)
    : Response :=
  match findOne id user coll with
  | Some session => Json "" session
  | None => Status404 "Session not found"
  end.

(** [saveDraft]: [errors] is [validationResult(req)], [body] is [req.body]
    as the validation chain left it, [user] is [req.user._id]. *)
Definition saveDraft (errors : list string) (body : Body)
    (user : ObjectId) (now : Z) (coll : Collection)
    : Response * Collection :=
  match errors with
  | _ :: _ => (Status400 "Validation failed" errors, coll)
  | [] =>
      match sessionId body with
      | Some id =>
          let update :=
            {| set_title_to := Some (title body);
               set_tags_to := Some (cast_tags (or_empty_array (tags body)));
               set_json_file_url_to := Some (json_file_url body);
               set_status_to := None;
               set_updated_at_to := Some now |} in
          match findOneAndUpdate id user update coll with
          | (Js.Thrown _, coll') =>
              (Status500 "Server error saving draft", coll')
          | (Js.Returned None, coll') =>
              (Status404 "Session not found", coll')
          | (Js.Returned (Some session), coll') =>
              (Json "Draft saved successfully" session, coll')
          end
      | None =>
          let candidate :=
            {| c_user_id := user;
               c_title := title body;
               c_tags := cast_tags (or_empty_array (tags body));
               c_json_file_url := json_file_url body;
               c_status := draft |} in
          match create candidate now coll with
          | (Js.Thrown _, coll') =>
              (Status500 "Server error saving draft", coll')
          | (Js.Returned session, coll') =>
              (Json "Draft saved successfully" session, coll')
          end
      end
  end.

(** [publishSession]: the body carries [sessionId] only. *)
Definition publishSession (sessionId : option ObjectId)
    (user : ObjectId) (now : Z) (coll : Collection)
    : Response * Collection :=
  match sessionId with
  | None => (Status400 "Session ID is required" [], coll)
  | Some id =>
      let update :=
        {| set_title_to := None;
           set_tags_to := None;
           set_json_file_url_to := None;
           set_status_to := Some published;
           set_updated_at_to := Some now |} in
      match findOneAndUpdate id user update coll with
      | (Js.Thrown _, coll') =>
          (Status500 "Server error publishing session", coll')
      | (Js.Returned None, coll') =>
          (Status404 "Session not found", coll')
      | (Js.Returned (Some session), coll') =>
          (Json "Session published successfully" session, coll')
      end
  end.

End Controller.

(** ** backend/routes/sessions.js *)

Module Routes.
Import Model Http.

Section Validator.

(** [isURL] of the validator library: a parameter of the model. *)
Variable isURL : string -> bool.

(** [sessionValidation]: the three chains, run against the body.  The
    [trim()] sanitizers write the trimmed [title] and [json_file_url]
    back into the body; [optional()] skips the [tags] chain only when
    the field is [undefined]. *)
Definition sessionValidation (body : Body) : list string * Body :=
  let title' := Js.trim (title body) in
  let url' := Js.trim (json_file_url body) in
  let errors :=
    (if (1 <=? Js.length title') && (Js.length title' <=? 200) then []
     else ["Title is required and must be between 1-200 characters"]) ++
    (if Js.is_empty url' then ["JSON file URL is required"] else []) ++
    (if isURL url' then [] else ["JSON file URL must be a valid URL"]) ++
    (match tags body with
     | Js.JUndefined => []
     | v => if Js.isArray v then [] else ["Tags must be an array"]
     end) in
  (errors,
   {| title := title'; tags := tags body; json_file_url := url';
      sessionId := sessionId body |}).

(** [router.post('/my-sessions/save-draft', auth, sessionValidation,
    saveDraft)], past [auth], which supplies [user]. *)
Definition post_save_draft (body : Body) (user : ObjectId) (now : Z)
    (coll : Collection) : Response * Collection :=
  let '(errors, body') := sessionValidation body in
  Controller.saveDraft errors body' user now coll.

End Validator.

(** [router.post('/my-sessions/publish', auth, publishSession)] *)
Definition post_publish (sessionId : option ObjectId) (user : ObjectId)
    (now : Z) (coll : Collection) : Response * Collection :=
  Controller.publishSession sessionId user now coll.

End Routes.

(** ** frontend/src/pages/SessionEditor.tsx

    The component's [useState] cells, together with the timeout its debounce
    effect has pending.  A timeout remembers what its callback closed over:
    the [formData] of the render that armed it and the [currentSessionId]
    inside that render's [saveDraft].  Requests are answered at the instant
    they are sent, so an [await] is sequential composition; toasts are not
    modelled. *)

Module Editor.
Import Model.

Record FormData := {
  title : string;
  tags : string;
  json_file_url : string
}.

Record Timer := {
  fires_at : Z;
  data : FormData;
  closure_sessionId : option ObjectId
}.

Record State := {
  formData : FormData;
  currentSessionId : option ObjectId;
  loading : bool;
  saving : bool;
  publishing : bool;
  lastSaved : option Z;
  hasUnsavedChanges : bool;
  initialLoad : bool;
  timeoutId : option Timer;
  mounted : bool
}.

(** [useState] initial values, before any effect has run. *)
Definition initial : State :=
  {| formData := {| title := ""; tags := ""; json_file_url := "" |};
     currentSessionId := None;
     loading := false; saving := false; publishing := false;
     lastSaved := None;
     hasUnsavedChanges := false;
     initialLoad := true;
     timeoutId := None;
     mounted := true |}.

Definition setFormData (v : FormData) (s : State) : State :=
  {| formData := v; currentSessionId := currentSessionId s;
     loading := loading s; saving := saving s; publishing := publishing s;
     lastSaved := lastSaved s; hasUnsavedChanges := hasUnsavedChanges s;
     initialLoad := initialLoad s; timeoutId := timeoutId s;
     mounted := mounted s |}.

Definition setCurrentSessionId (v : option ObjectId) (s : State) : State :=
  {| formData := formData s; currentSessionId := v;
     loading := loading s; saving := saving s; publishing := publishing s;
     lastSaved := lastSaved s; hasUnsavedChanges := hasUnsavedChanges s;
     initialLoad := initialLoad s; timeoutId := timeoutId s;
     mounted := mounted s |}.

Definition setLoading (v : bool) (s : State) : State :=
  {| formData := formData s; currentSessionId := currentSessionId s;
     loading := v; saving := saving s; publishing := publishing s;
     lastSaved := lastSaved s; hasUnsavedChanges := hasUnsavedChanges s;
     initialLoad := initialLoad s; timeoutId := timeoutId s;
     mounted := mounted s |}.

Definition setSaving (v : bool) (s : State) : State :=
  {| formData := formData s; currentSessionId := currentSessionId s;
     loading := loading s; saving := v; publishing := publishing s;
     lastSaved := lastSaved s; hasUnsavedChanges := hasUnsavedChanges s;
     initialLoad := initialLoad s; timeoutId := timeoutId s;
     mounted := mounted s |}.

Definition setPublishing (v : bool) (s : State) : State :=
  {| formData := formData s; currentSessionId := currentSessionId s;
     loading := loading s; saving := saving s; publishing := v;
     lastSaved := lastSaved s; hasUnsavedChanges := hasUnsavedChanges s;
     initialLoad := initialLoad s; timeoutId := timeoutId s;
     mounted := mounted s |}.

Definition setLastSaved (v : option Z) (s : State) : State :=
  {| formData := formData s; currentSessionId := currentSessionId s;
     loading := loading s; saving := saving s; publishing := publishing s;
     lastSaved := v; hasUnsavedChanges := hasUnsavedChanges s;
     initialLoad := initialLoad s; timeoutId := timeoutId s;
     mounted := mounted s |}.

Definition setHasUnsavedChanges (v : bool) (s : State) : State :=
  {| formData := formData s; currentSessionId := currentSessionId s;
     loading := loading s; saving := saving s; publishing := publishing s;
     lastSaved := lastSaved s; hasUnsavedChanges := v;
     initialLoad := initialLoad s; timeoutId := timeoutId s;
     mounted := mounted s |}.

Definition setInitialLoad (v : bool) (s : State) : State :=
  {| formData := formData s; currentSessionId := currentSessionId s;
     loading := loading s; saving := saving s; publishing := publishing s;
     lastSaved := lastSaved s; hasUnsavedChanges := hasUnsavedChanges s;
     initialLoad := v; timeoutId := timeoutId s;
     mounted := mounted s |}.

(** [setTimeout] and [clearTimeout], on the one timeout the effect owns. *)
Definition setTimeout (v : option Timer) (s : State) : State :=
  {| formData := formData s; currentSessionId := currentSessionId s;
     loading := loading s; saving := saving s; publishing := publishing s;
     lastSaved := lastSaved s; hasUnsavedChanges := hasUnsavedChanges s;
     initialLoad := initialLoad s; timeoutId := v;
     mounted := mounted s |}.

Definition clearTimeout (s : State) : State := setTimeout None s.

(** [navigate('/my-sessions')]: the component unmounts and the effect's
    cleanup clears the timeout. *)
Definition navigate (s : State) : State :=
  {| formData := formData s; currentSessionId := currentSessionId s;
     loading := loading s; saving := saving s; publishing := publishing s;
     lastSaved := lastSaved s; hasUnsavedChanges := hasUnsavedChanges s;
     initialLoad := initialLoad s; timeoutId := None;
     mounted := false |}.

(** The quiet interval of the debounce effect, in milliseconds. *)
Definition quiet_interval : Z := 5000.

(** [!data.title.trim()] and [!data.json_file_url.trim()] *)
Definition no_title (d : FormData) : bool := Js.is_empty (Js.trim (title d)).
Definition no_url (d : FormData) : bool :=
  Js.is_empty (Js.trim (json_file_url d)).

(** The debounced auto-save effect, run after a render in which
    [formData], [saveDraft] or [initialLoad] changed: first the cleanup of
    its previous run, then its body. *)
Definition autosave_effect (now : Z) (s : State) : State :=
  let s := clearTimeout s in
  if initialLoad s || (no_title (formData s) && no_url (formData s)) then s
  else
    setTimeout
      (Some {| fires_at := now + quiet_interval;
               data := formData s;
               closure_sessionId := currentSessionId s |})
      (setHasUnsavedChanges true s).

Inductive Field := name_title | name_tags | name_json_file_url.

(** [handleChange]: [{ ...prev, [name]: value }] is a new object, so the
    effect always runs again. *)
Definition handleChange (name : Field) (value : string) (now : Z)
    (s : State) : State :=
  let prev := formData s in
  let next :=
    match name with
    | name_title =>
        {| title := value; tags := tags prev;
           json_file_url := json_file_url prev |}
    | name_tags =>
        {| title := title prev; tags := value;
           json_file_url := json_file_url prev |}
    | name_json_file_url =>
        {| title := title prev; tags := tags prev; json_file_url := value |}
    end in
  autosave_effect now (setFormData next s).

(** The body [saveDraft] posts:
    [data.tags.split(',').map(tag => tag.trim()).filter(tag => tag !== '')] *)
Definition payload (d : FormData) (sessionId : option ObjectId)
    : Http.Body :=
  {| Http.title := Js.trim (title d);
     Http.tags :=
       Js.JArr (List.filter (fun tag => negb (Js.is_empty tag))
                  (Js.trim <$> Js.split "," (tags d)));
     Http.json_file_url := Js.trim (json_file_url d);
     Http.sessionId := sessionId |}.

(** What the editor sends to the server. *)
Inductive Request :=
| GetSession (id : ObjectId)
| SaveDraft (body : Http.Body)
| Publish (sessionId : option ObjectId).

(** The editor, the server's collection, and the requests sent so far. *)
Record World := {
  editor : State;
  sessions : Collection;
  requests : list Request
}.

Definition with_editor (s : State) (w : World) : World :=
  {| editor := s; sessions := sessions w; requests := requests w |}.

Definition log (r : Request) (w : World) : World :=
  {| editor := editor w; sessions := sessions w;
     requests := requests w ++ [r] |}.

Section Client.

(** The validator library's [isURL] on the server, and the identity the
    [auth] middleware resolves the editor's requests to. *)
Variable isURL : string -> bool.
Variable user : ObjectId.

(** The effect that loads the session named in the route, followed by
    the render it causes; [sessionId] is [useParams().sessionId]. *)
Definition mount (sessionId : option ObjectId) (now : Z) (w : World)
    : World :=
  match sessionId with
  | Some id =>
      let w := log (GetSession id) w in
      let s := setLoading true (editor w) in
      match Controller.getSessionById id user (sessions w) with
      | Http.Json _ session =>
          let s :=
            setFormData
              {| title := Model.title session;
                 tags := Js.join ", " (Model.tags session);
                 json_file_url := Model.json_file_url session |} s in
          let s := setCurrentSessionId (Some (_id session)) s in
          let s := setLastSaved (Some (updated_at session)) s in
          let s := setInitialLoad false (setLoading false s) in
          with_editor (autosave_effect now s) w
      | _ =>
          let s := navigate s in
          with_editor (setInitialLoad false (setLoading false s)) w
      end
  | None =>
      with_editor (autosave_effect now (setInitialLoad false (editor w))) w
  end.

(** [saveDraft(data)], as the callback of the render in which
    [currentSessionId] was [sessionId].  A response other than 2xx makes
    [axios.post] throw; the [catch] logs it and the function returns
    normally.  When the call changes [currentSessionId], the next render
    has a new [saveDraft] and the auto-save effect runs again. *)
Definition saveDraft (sessionId : option ObjectId) (d : FormData)
    (now : Z) (w : World) : World :=
  if no_title d || no_url d then w
  else
    let body := payload d sessionId in
    let s := setSaving true (editor w) in
    let '(response, coll) :=
      Routes.post_save_draft isURL body user now (sessions w) in
    let s' :=
      match response with
      | Http.Json _ session =>
          let s :=
            match sessionId with
            | None => setCurrentSessionId (Some (_id session)) s
            | Some _ => s
            end in
          setHasUnsavedChanges false (setLastSaved (Some now) s)
      | _ => s
      end in
    let s' := setSaving false s' in
    let s' :=
      if decide (currentSessionId s' = currentSessionId (editor w))
      then s' else autosave_effect now s' in
    {| editor := s'; sessions := coll;
       requests := requests w ++ [SaveDraft body] |}.

(** [handleSaveDraft] *)
Definition handleSaveDraft (now : Z) (w : World) : World :=
  let s := editor w in
  if no_title (formData s) || no_url (formData s) then w
  else saveDraft (currentSessionId s) (formData s) now w.

(** [handlePublish]: [formData], [hasUnsavedChanges] and
    [currentSessionId] are those of the render in which the button was
    pressed. *)
Definition handlePublish (now : Z) (w : World) : World :=
  let s := editor w in
  if no_title (formData s) || no_url (formData s) then w
  else
    let w1 := with_editor (setPublishing true s) w in
    let w2 :=
      if hasUnsavedChanges s
      then saveDraft (currentSessionId s) (formData s) now w1
      else w1 in
    let '(response, coll) :=
      Routes.post_publish (currentSessionId s) user now (sessions w2) in
    let s2 :=
      match response with
      | Http.Json _ _ => navigate (editor w2)
      | _ => editor w2
      end in
    {| editor := setPublishing false s2; sessions := coll;
       requests := requests w2 ++ [Publish (currentSessionId s)] |}.

(** The pending timeout fires: [saveDraft(formData)] with the closure of
    the render that armed it. *)
Definition fire (w : World) : World :=
  match timeoutId (editor w) with
  | Some t =>
      saveDraft (closure_sessionId t) (data t) (fires_at t)
        (with_editor (clearTimeout (editor w)) w)
  | None => w
  end.

Definition due (t : Z) (w : World) : bool :=
  match timeoutId (editor w) with
  | Some tm => fires_at tm <=? t
  | None => false
  end.

(** Let the clock reach [t], firing what falls due on the way. *)
Fixpoint advance_fuel (fuel : nat) (t : Z) (w : World) : World :=
  match fuel with
  | O => w
  | S fuel' => if due t w then advance_fuel fuel' t (fire w) else w
  end.

(** A timeout armed by a firing falls due a quiet interval later, so
    this many firings reach [t]. *)
Definition firings (t : Z) (w : World) : nat :=
  match timeoutId (editor w) with
  | Some tm => Z.to_nat ((t - fires_at tm) / quiet_interval + 1)
  | None => O
  end.

Definition advance (t : Z) (w : World) : World :=
  advance_fuel (firings t w) t w.

(** What the user does, and when. *)
Inductive Event :=
| Change (name : Field) (value : string)
| ClickSaveDraft
| ClickPublish.

Definition handle (ev : Event) (now : Z) (w : World) : World :=
  match ev with
  | Change name value =>
      with_editor (handleChange name value now (editor w)) w
  | ClickSaveDraft => handleSaveDraft now w
  | ClickPublish => handlePublish now w
  end.

(** A timeline of events, each with the time it happens at. *)
Fixpoint run (evs : list (Z * Event)) (w : World) : World :=
  match evs with
  | [] => w
  | (t, ev) :: evs' => run evs' (handle ev t (advance t w))
  end.

End Client.

(** A burst of edits, [(t, name, value)] in order of arrival. *)
Definition Edit : Type := Z * Field * string.

Definition edit_events (es : list Edit) : list (Z * Event) :=
  (fun '(t, name, value) => (t, Change name value)) <$> es.

(** Every edit of [es] arrives less than a quiet interval after the one
    before it, the first of them after [t]. *)
Fixpoint within_quiet (t : Z) (es : list Edit) : Prop :=
  match es with
  | [] => True
  | (t', _, _) :: es' => t <= t' < t + quiet_interval /\ within_quiet t' es'
  end.

(** The editor right after an edit made at time [t], [sid] being the id it
    knows the session by: the load is over, and the timeout, if there is
    one, is the one that edit armed. *)
Definition settled (sid : option ObjectId) (t : Z) (s : State) : Prop :=
  initialLoad s = false /\
  currentSessionId s = sid /\
  timeoutId s =
    if no_title (formData s) && no_url (formData s) then None
    else Some {| fires_at := t + quiet_interval;
                 data := formData s;
                 closure_sessionId := sid |}.

Fixpoint last_time (t : Z) (es : list Edit) : Z :=
  match es with
  | [] => t
  | (t', _, _) :: es' => last_time t' es'
  end.

End Editor.

(** ** The operations of the interface, as calls against the collection *)

Module Api.
Import Model Http.

Inductive Call :=
| save_draft (body : Body) (identity : ObjectId) (now : Z)
| publish (sessionId : option ObjectId) (identity : ObjectId) (now : Z).

Section Validator.
Variable isURL : string -> bool.

Definition perform (c : Call) (coll : Collection)
    : Response * Collection :=
  match c with
  | save_draft body identity now =>
      Routes.post_save_draft isURL body identity now coll
  | publish sessionId identity now =>
      Routes.post_publish sessionId identity now coll
  end.

Definition perform_all (cs : list Call) (coll : Collection)
    : Collection :=
  foldl (fun coll c => (perform c coll).2) coll cs.

(** A request the route's validation chains accept. *)
Definition accepted (body : Body) : bool :=
  bool_decide ((Routes.sessionValidation isURL body).1 = []).

End Validator.

(** The tags a body's [tags] field is stored as. *)
Definition stored_tags (body : Body) : list string :=
  set_tags (Controller.cast_tags (Controller.or_empty_array (tags body))).

(** No tag of the body is longer than the schema's bound once trimmed. *)
Definition tags_within_bound (body : Body) : bool :=
  forallb (fun t => Js.length t <=? 50) (stored_tags body).

(** The revision an upsert of [body] at time [now] writes over [d]. *)
Definition revised (body : Body) (now : Z) (d : Session) : Session :=
  {| _id := _id d; user_id := user_id d;
     Model.title := Js.trim (title body);
     Model.tags := stored_tags body;
     Model.json_file_url := Js.trim (json_file_url body);
     status := status d; created_at := created_at d;
     updated_at := now |}.

(** The same fields, sent for the session [id]. *)
Definition for_session (id : ObjectId) (body : Body) : Body :=
  {| title := title body; tags := tags body;
     json_file_url := json_file_url body; sessionId := Some id |}.

(** The fields an upsert writes, as a tuple. *)
Definition content (d : Session)
    : string * list string * string * ObjectId :=
  (Model.title d, Model.tags d, Model.json_file_url d, user_id d).

End Api.

(** ** Sample data for running the model *)

Module Sample.
Import Model.

(** A stand-in for the validator library's [isURL], used only to run the
    model on concrete requests.  It follows the library's steps under its
    default options for ASCII URLs [protocol://]host[/path][?query][#fragment]
    whose host is a domain name: no white space or angle bracket; not a
    [mailto:]; fewer than 2083 characters; the protocol, when there is one,
    is http, https or ftp, and a URL without one does not start with [//];
    the host has at least two labels of letters, digits and inner hyphens,
    of at most 63 characters each, the last one at least two letters.
    Hosts with user info, a port, an IP address or a punycode top level,
    which the library also accepts, are outside of it and refused. *)
Fixpoint every (p : ascii -> bool) (s : string) : bool :=
  match s with
  | EmptyString => true
  | String a s' => p a && every p s'
  end.

Fixpoint skip (n : nat) (s : string) : string :=
  match n, s with
  | S n', String _ s' => skip n' s'
  | _, _ => s
  end.

(** [s.split(sep).shift()] *)
Fixpoint before (sep s : string) : string :=
  if String.prefix sep s then EmptyString
  else
    match s with
    | EmptyString => EmptyString
    | String a s' => String a (before sep s')
    end.

(** What follows the first [sep] in [s], when there is one. *)
Fixpoint after (sep s : string) : option string :=
  if String.prefix sep s then Some (skip (String.length sep) s)
  else
    match s with
    | EmptyString => None
    | String _ s' => after sep s'
    end.

Definition is_letter (a : ascii) : bool :=
  let n := N_of_ascii (Js.lower a) in ((97 <=? n) && (n <=? 122))%N.

Definition is_digit (a : ascii) : bool :=
  let n := N_of_ascii a in ((48 <=? n) && (n <=? 57))%N.

Definition hyphen : ascii := Ascii.ascii_of_N 45.

Definition plain (a : ascii) : bool :=
  negb (Ascii.is_space a) &&
  negb (bool_decide (a = Ascii.ascii_of_N 60)) &&
  negb (bool_decide (a = Ascii.ascii_of_N 62)).

Definition label (part : string) : bool :=
  negb (Js.is_empty part) &&
  (String.length part <=? 63)%nat &&
  every (fun a => is_letter a || is_digit a || bool_decide (a = hyphen)) part &&
  negb (String.prefix (String hyphen EmptyString) part) &&
  negb (String.prefix (String hyphen EmptyString) (String.rev part)).

Definition top_level (tld : string) : bool :=
  (2 <=? String.length tld)%nat && every is_letter tld.

Definition domain_name (host : string) : bool :=
  let parts := Js.split (Ascii.ascii_of_N 46) host in
  match last parts with
  | Some tld =>
      (2 <=? List.length parts)%nat && top_level tld && forallb label parts
  | None => false
  end.

Definition url_like (url : string) : bool :=
  if Js.is_empty url || negb (every plain url) ||
     String.prefix "mailto:" url || (2083 <=? String.length url)%nat
  then false
  else
    let url := before "?" (before "#" url) in
    match after "://" url with
    | Some rest =>
        bool_decide
          (Js.toLowerCase (before "://" url) ∈ ["http"; "https"; "ftp"]) &&
        domain_name (before "/" rest)
    | None =>
        negb (String.prefix "//" url) && domain_name (before "/" url)
    end.

Definition alice : ObjectId := 11%positive.
Definition bob : ObjectId := 12%positive.
Definition S1 : ObjectId := 1%positive.

Definition morning_flow : Session :=
  {| _id := S1; user_id := alice;
     title := "Morning Flow"; tags := ["yoga"];
     json_file_url := "https://example.com/y.json";
     status := draft; created_at := 0; updated_at := 0 |}.

Definition morning_flow_published : Session :=
  {| _id := S1; user_id := alice;
     title := "Morning Flow"; tags := ["yoga"];
     json_file_url := "https://example.com/y.json";
     status := published; created_at := 0; updated_at := 10 |}.

Definition one_draft : gmap ObjectId Session := {[ S1 := morning_flow ]}.
Definition one_published : gmap ObjectId Session :=
  {[ S1 := morning_flow_published ]}.

Definition request (t : string) (tg : Js.Value) (u : string)
    (id : option ObjectId) : Http.Body :=
  {| Http.title := t; Http.tags := tg; Http.json_file_url := u;
     Http.sessionId := id |}.

(** An editor that has just been opened, on a new session and on [S1]. *)
Definition blank : Editor.World :=
  {| Editor.editor := Editor.initial; Editor.sessions := ∅;
     Editor.requests := [] |}.

Definition new_session : Editor.World := Editor.mount alice None 0 blank.

Definition editing_S1 : Editor.World :=
  Editor.mount alice (Some S1) 0
    {| Editor.editor := Editor.initial; Editor.sessions := one_draft;
       Editor.requests := [] |}.

End Sample.

(** ** models/User.js *)

Module Users.

Record User := {
  email : string;
  password_hash : string;
  created_at : Z
}.

End Users.

(** ** backend/controllers/sessionController.js: the listings *)

Module Lists.
Import Model.

(** [Session.find(filter)]: the stored documents that match. *)
Definition find (filter : Session -> bool) (coll : Collection)
    : list Session :=
  List.filter filter (map_to_list coll).*2.

(** [.sort({ key: -1 })]: by descending key.  The order among documents
    with equal keys is the database's choice; here it is that of a merge
    sort, and no statement below depends on it. *)
Definition descending (key : Session -> Z) : relation Session :=
  fun a b => key b <= key a.

Global Instance descending_dec key a b : Decision (descending key a b) :=
  Z_le_dec (key b) (key a).

Definition sort_descending (key : Session -> Z) (l : list Session)
    : list Session :=
  merge_sort (descending key) l.

(** A session whose [user_id] has been populated with the owner's [email];
    [None] when no such user is stored. *)
Record Populated := {
  session : Session;
  author_email : option string
}.

(** [.populate('user_id', 'email')] *)
Definition populate (users : gmap ObjectId Users.User) (d : Session)
    : Populated :=
  {| session := d; author_email := Users.email <$> users !! user_id d |}.

(** [getPublishedSessions]: the [sessions] of the response. *)
Definition getPublishedSessions (users : gmap ObjectId Users.User)
    (coll : Collection) : list Populated :=
  populate users <$>
    sort_descending created_at
      (find (fun d => bool_decide (status d = published)) coll).

(** [getUserSessions]: the [sessions] of the response; [user] is
    [req.user._id]. *)
Definition getUserSessions (user : ObjectId) (coll : Collection)
    : list Session :=
  sort_descending updated_at
    (find (fun d => bool_decide (user_id d = user)) coll).

End Lists.

(** ** What the collection keeps *)

Module Store.
Import Model.

Section Validator.
Variable isURL : string -> bool.

(** A document as the schema and the route's validation let it be written:
    stored under its own id, title between 1 and 200 characters, no tag
    over 50, a URL the validator accepts, and all of them trimmed. *)
Definition well_formed (id : ObjectId) (d : Session) : Prop :=
  _id d = id /\
  1 <= Js.length (title d) <= 200 /\
  Forall (fun t => Js.length t <= 50) (tags d) /\
  Js.is_empty (json_file_url d) = false /\
  isURL (json_file_url d) = true /\
  Js.trim (title d) = title d /\
  Forall (fun t => Js.trim t = t) (tags d) /\
  Js.trim (json_file_url d) = json_file_url d.

Definition all_well_formed (coll : Collection) : Prop :=
  forall id d, coll !! id = Some d -> well_formed id d.

End Validator.

(** Every document is stored under its own id. *)
Definition coherent (coll : Collection) : Prop :=
  forall id d, coll !! id = Some d -> _id d = id.

Definition call_time (c : Api.Call) : Z :=
  match c with
  | Api.save_draft _ _ now => now
  | Api.publish _ _ now => now
  end.

(** The calls come in the order of their times, none of them before [t]. *)
Fixpoint chronological (t : Z) (cs : list Api.Call) : Prop :=
  match cs with
  | [] => True
  | c :: cs' => t <= call_time c /\ chronological (call_time c) cs'
  end.

(** The identity a call is made under. *)
Definition caller (c : Api.Call) : ObjectId :=
  match c with
  | Api.save_draft _ identity _ => identity
  | Api.publish _ identity _ => identity
  end.

(** A save-draft call that carries no session id. *)
Definition is_first_save (c : Api.Call) : bool :=
  match c with
  | Api.save_draft body _ _ => bool_decide (Http.sessionId body = None)
  | Api.publish _ _ _ => false
  end.

(** No document is newer than [t], and none was updated before it was
    created. *)
Definition timestamps_ordered (t : Z) (coll : Collection) : Prop :=
  forall id d, coll !! id = Some d ->
    created_at d <= updated_at d /\ updated_at d <= t.

End Store.

(** ** More of JavaScript's strings *)

Module Text.

(** [s.includes(String.fromCharCode(a))] *)
Fixpoint mentions (a : ascii) (s : string) : bool :=
  match s with
  | EmptyString => false
  | String b s' => bool_decide (b = a) || mentions a s'
  end.

(** [s.includes(sub)] *)
Fixpoint includes (s sub : string) : bool :=
  String.prefix sub s ||
  match s with
  | EmptyString => false
  | String _ s' => includes s' sub
  end.

(** A tag the editor's form shows and reads back unchanged: trimmed, not
    empty, and without a comma. *)
Definition plain_tag (t : string) : bool :=
  bool_decide (Js.trim t = t) && negb (Js.is_empty t) && negb (mentions "," t).

End Text.

(** ** frontend/src/pages/MySessions.tsx and Dashboard.tsx: the filters

    Both pages keep the sessions they fetched and derive the list they show
    from it.  [toLowerCase] is a parameter. *)

Module Pages.
Import Model.

Section Search.
Variable toLowerCase : string -> string.

(** The search predicate of both pages: the term occurs in the title or in
    one of the tags, letter case aside. *)
Definition matches (searchTerm : string) (session : Session) : bool :=
  Text.includes (toLowerCase (title session)) (toLowerCase searchTerm) ||
  existsb
    (fun tag => Text.includes (toLowerCase tag) (toLowerCase searchTerm))
    (tags session).

(** [if (searchTerm) filtered = filtered.filter(...)] *)
Definition search (searchTerm : string) (sessions : list Session)
    : list Session :=
  if Js.is_empty searchTerm then sessions
  else List.filter (matches searchTerm) sessions.

(** MySessions: ['all' | 'draft' | 'published'] *)
Inductive StatusFilter := all | only (s : Status).

(** MySessions: the effect that computes [filteredSessions]. *)
Definition mySessions_filtered (sessions : list Session)
    (searchTerm : string) (statusFilter : StatusFilter) : list Session :=
  let filtered := search searchTerm sessions in
  match statusFilter with
  | all => filtered
  | only st =>
      List.filter (fun session => bool_decide (status session = st)) filtered
  end.

(** Dashboard: the effect that computes [filteredSessions]. *)
Definition dashboard_filtered (sessions : list Session)
    (searchTerm selectedTag : string) : list Session :=
  let filtered := search searchTerm sessions in
  if Js.is_empty selectedTag then filtered
  else
    List.filter (fun session => bool_decide (selectedTag ∈ tags session))
      filtered.

End Search.

(** MySessions: the two counters of the statistics cards. *)
Definition draftCount (sessions : list Session) : nat :=
  List.length
    (List.filter (fun s => bool_decide (status s = draft)) sessions).

Definition publishedCount (sessions : list Session) : nat :=
  List.length
    (List.filter (fun s => bool_decide (status s = published)) sessions).

(** Dashboard: [Array.from(new Set(sessions.flatMap(s => s.tags))).sort()].
    The set keeps one copy of every tag and the sort orders them by their
    code units, so which copy is kept does not show. *)
Definition allTags (sessions : list Session) : list string :=
  merge_sort String.le (remove_dups (flat_map tags sessions)).

End Pages.

(** ** frontend/src/context/AuthContext.tsx

    The provider's [useState] cells together with what it keeps outside
    React: the two [localStorage] items and the default [Authorization]
    header of [axios].  The type of users and its JSON encoding are
    parameters: [parse] is [JSON.parse], which throws or returns a value,
    [None] being [null], which the [user] cell takes for no user.  A
    response is the [{ token, user }] of a 2xx answer, or [None] when
    [axios.post] throws. *)

Module Auth.

Section Provider.
Variable User : Type.
Variable stringify : User -> string.
Variable parse : string -> Js.Completion (option User).

Record State := {
  user : option User;
  token : option string;
  loading : bool;
  stored_token : option string;
  stored_user : option string;
  authorization : option string
}.

(** A page load: fresh React state and no default header, over whatever
    [localStorage] holds. *)
Definition page_load (storedToken storedUser : option string) : State :=
  {| user := None; token := None; loading := true;
     stored_token := storedToken; stored_user := storedUser;
     authorization := None |}.

(** [`Bearer ${token}`] *)
Definition bearer (t : string) : string := "Bearer " +:+ t.

(** [storedToken && storedUser], for items that may be missing. *)
Definition present (item : option string) : bool :=
  match item with
  | Some v => negb (Js.is_empty v)
  | None => false
  end.

(** The effect that initializes the state from [localStorage]; it throws
    when the stored user does not parse. *)
Definition initialize (s : State) : Js.Completion State :=
  match stored_token s, stored_user s with
  | Some storedToken, Some storedUser =>
      if present (Some storedToken) && present (Some storedUser) then
        match parse storedUser with
        | Js.Returned u =>
            Js.Returned
              {| user := u; token := Some storedToken; loading := false;
                 stored_token := stored_token s;
                 stored_user := stored_user s;
                 authorization := Some (bearer storedToken) |}
        | Js.Thrown m => Js.Thrown m
        end
      else
        Js.Returned
          {| user := user s; token := token s; loading := false;
             stored_token := stored_token s; stored_user := stored_user s;
             authorization := authorization s |}
  | _, _ =>
      Js.Returned
        {| user := user s; token := token s; loading := false;
           stored_token := stored_token s; stored_user := stored_user s;
           authorization := authorization s |}
  end.

(** [login] and [register] run the same code on the response of their
    request. *)
Definition signed_in (response : option (string * User)) (s : State)
    : bool * State :=
  match response with
  | Some (newToken, newUser) =>
      (true,
       {| user := Some newUser; token := Some newToken; loading := loading s;
          stored_token := Some newToken;
          stored_user := Some (stringify newUser);
          authorization := Some (bearer newToken) |})
  | None => (false, s)
  end.

Definition login := signed_in.
Definition register := signed_in.

Definition logout (s : State) : State :=
  {| user := None; token := None; loading := loading s;
     stored_token := None; stored_user := None;
     authorization := None |}.

Inductive Action :=
| Login (response : option (string * User))
| Register (response : option (string * User))
| Logout.

Definition act (s : State) (a : Action) : State :=
  match a with
  | Login response => (login response s).2
  | Register response => (register response s).2
  | Logout => logout s
  end.

(** The header, the token and the stored token tell the same story, and a
    user is known only when a token is. *)
Definition consistent (s : State) : Prop :=
  authorization s = bearer <$> token s /\
  (is_Some (user s) -> is_Some (token s)) /\
  (forall t, token s = Some t -> stored_token s = Some t).

End Provider.

Arguments user {User} _.
Arguments token {User} _.
Arguments loading {User} _.
Arguments stored_token {User} _.
Arguments stored_user {User} _.
Arguments authorization {User} _.
Arguments page_load {User} _ _.
Arguments logout {User} _.
Arguments consistent {User} _.
Arguments Logout {User}.

End Auth.

(** * Properties *)

Import Model Http.

(** ** The string functions *)

Lemma trimStart_fixed a s :
  Ascii.is_space a = false -> Js.trimStart (String a s) = String a s.
Proof. intros Ha. simpl. by rewrite Ha. Qed.

Lemma trimStart_head s :
  Js.trimStart s = EmptyString \/
  exists a r, Js.trimStart s = String a r /\ Ascii.is_space a = false.
Proof.
  induction s as [|a s IH]; simpl; [by left|].
  destruct (Ascii.is_space a) eqn:Ha; [done|].
  right. by exists a, s.
Qed.

Lemma trimStart_idemp s : Js.trimStart (Js.trimStart s) = Js.trimStart s.
Proof.
  destruct (trimStart_head s) as [-> | (a & r & -> & Ha)]; [done|].
  by apply trimStart_fixed.
Qed.

Lemma trimEnd_idemp s : Js.trimEnd (Js.trimEnd s) = Js.trimEnd s.
Proof.
  induction s as [|a s IH]; simpl; [done|].
  destruct (Js.trimEnd s) as [|b r] eqn:Hr.
  - destruct (Ascii.is_space a) eqn:Ha; simpl; [done|]. by rewrite Ha.
  - simpl in *. by rewrite IH.
Qed.

Lemma trimEnd_head a s :
  Ascii.is_space a = false -> exists r, Js.trimEnd (String a s) = String a r.
Proof.
  intros Ha. simpl. destruct (Js.trimEnd s) as [|b r].
  - rewrite Ha. by eexists.
  - by eexists.
Qed.

Lemma trimStart_trim s : Js.trimStart (Js.trim s) = Js.trim s.
Proof.
  unfold Js.trim.
  destruct (trimStart_head s) as [-> | (a & r & -> & Ha)]; [done|].
  destruct (trimEnd_head a r Ha) as [r' ->]. by apply trimStart_fixed.
Qed.

Lemma trim_idemp s : Js.trim (Js.trim s) = Js.trim s.
Proof.
  unfold Js.trim at 1. rewrite trimStart_trim.
  unfold Js.trim. apply trimEnd_idemp.
Qed.

Lemma is_empty_true s : Js.is_empty s = true <-> s = EmptyString.
Proof. destruct s; simpl; split; congruence. Qed.

Lemma trim_all_idemp (l : list string) :
  Js.trim <$> (Js.trim <$> l) = Js.trim <$> l.
Proof.
  induction l as [|x l IH]; csimpl; [done|].
  f_equal; [apply trim_idemp | exact IH].
Qed.

Example trim_example : Js.trim "  Morning Flow   " = "Morning Flow".
Proof. reflexivity. Qed.

Example split_example :
  Js.split "," "yoga, calm,,breath " = ["yoga"; " calm"; ""; "breath "].
Proof. reflexivity. Qed.

Example payload_example :
  Editor.payload
    {| Editor.title := " Morning Flow ";
       Editor.tags := "yoga, calm,,breath ";
       Editor.json_file_url := "https://example.com/y.json " |} None =
  Sample.request "Morning Flow" (Js.JArr ["yoga"; "calm"; "breath"])
    "https://example.com/y.json" None.
Proof. reflexivity. Qed.

(** ** The server *)

Section Server.
Variable isURL : string -> bool.

Lemma accepted_inv body :
  Api.accepted isURL body = true ->
  (1 <= Js.length (Js.trim (title body)) <= 200) /\
  Js.is_empty (Js.trim (json_file_url body)) = false /\
  isURL (Js.trim (json_file_url body)) = true /\
  (tags body = Js.JUndefined \/ Js.isArray (tags body) = true).
Proof.
  unfold Api.accepted, Routes.sessionValidation. simpl.
  intros H%bool_decide_eq_true.
  destruct (1 <=? Js.length (Js.trim (title body))) eqn:H1;
    destruct (Js.length (Js.trim (title body)) <=? 200) eqn:H2;
    simpl in H; try discriminate.
  destruct (Js.is_empty (Js.trim (json_file_url body))); [discriminate|].
  destruct (isURL (Js.trim (json_file_url body))); [|discriminate].
  simpl in H. repeat split; try lia.
  destruct (tags body); simpl in *; auto; discriminate.
Qed.

Lemma post_save_draft_unfold body user now coll :
  Routes.post_save_draft isURL body user now coll =
  Controller.saveDraft (Routes.sessionValidation isURL body).1
    (Routes.sessionValidation isURL body).2 user now coll.
Proof. unfold Routes.post_save_draft. by destruct (Routes.sessionValidation _ _). Qed.

Lemma rejected body user now coll :
  Api.accepted isURL body = false ->
  Routes.post_save_draft isURL body user now coll =
    (Status400 "Validation failed" (Routes.sessionValidation isURL body).1, coll).
Proof.
  intros H%bool_decide_eq_false. rewrite post_save_draft_unfold.
  unfold Controller.saveDraft.
  by destruct ((Routes.sessionValidation isURL body).1).
Qed.

Lemma validate_title_trimmed t :
  1 <= Js.length t <= 200 -> validate_title t = [].
Proof.
  intros [H1 H2]. unfold validate_title.
  destruct t as [|a t]; [unfold Js.length in H1; simpl in H1; lia|].
  simpl Js.is_empty. cbv iota.
  destruct (200 <? Js.length (String a t)) eqn:E; [lia|done].
Qed.

(** What the schema validators say about the update an accepted request
    turns into: only the bound on tags can still fail. *)
Lemma accepted_update body user now coll id :
  Api.accepted isURL body = true ->
  sessionId body = Some id ->
  Routes.post_save_draft isURL body user now coll =
    if Api.tags_within_bound body then
      match coll !! id with
      | Some d =>
          if decide (user_id d = user)
          then (Json "Draft saved successfully" (Api.revised body now d),
                <[id := Api.revised body now d]> coll)
          else (Status404 "Session not found", coll)
      | None => (Status404 "Session not found", coll)
      end
    else (Status500 "Server error saving draft", coll).
Proof.
  intros Hacc Hid. destruct (accepted_inv _ Hacc) as (Ht & Hu & _ & _).
  rewrite post_save_draft_unfold.
  apply bool_decide_eq_true in Hacc. rewrite Hacc.
  unfold Controller.saveDraft, Routes.sessionValidation. simpl.
  rewrite Hid. unfold findOneAndUpdate, validate_update, cast. simpl.
  unfold set_title, set_json_file_url. rewrite !trim_idemp.
  rewrite (validate_title_trimmed _ Ht). unfold validate_json_file_url.
  rewrite Hu. simpl. unfold validate_tags.
  unfold Api.tags_within_bound, Api.stored_tags.
  destruct (forallb _ _); simpl; [|done].
  destruct (coll !! id) as [d|]; [|done].
  destruct (decide (user_id d = user)); done.
Qed.

Lemma created body user now coll :
  Api.accepted isURL body = true ->
  sessionId body = None ->
  Routes.post_save_draft isURL body user now coll =
    if Api.tags_within_bound body then
      let d := {| _id := fresh (dom coll); user_id := user;
                  Model.title := Js.trim (title body);
                  Model.tags := Api.stored_tags body;
                  Model.json_file_url := Js.trim (json_file_url body);
                  status := draft; created_at := now; updated_at := now |} in
      (Json "Draft saved successfully" d, <[fresh (dom coll) := d]> coll)
    else (Status500 "Server error saving draft", coll).
Proof.
  intros Hacc Hid. destruct (accepted_inv _ Hacc) as (Ht & Hu & _ & _).
  rewrite post_save_draft_unfold.
  apply bool_decide_eq_true in Hacc. rewrite Hacc.
  unfold Controller.saveDraft, Routes.sessionValidation. simpl.
  rewrite Hid. unfold create. simpl.
  unfold set_title, set_json_file_url. rewrite !trim_idemp.
  rewrite (validate_title_trimmed _ Ht). unfold validate_json_file_url.
  rewrite Hu. simpl. unfold validate_tags.
  unfold Api.tags_within_bound, Api.stored_tags.
  destruct (forallb _ _); simpl; done.
Qed.

Lemma publish_result id user now coll :
  Routes.post_publish (Some id) user now coll =
    match coll !! id with
    | Some d =>
        if decide (user_id d = user) then
          let d' := {| _id := _id d; user_id := user_id d;
                       Model.title := Model.title d; Model.tags := Model.tags d;
                       Model.json_file_url := Model.json_file_url d;
                       status := published; created_at := created_at d;
                       updated_at := now |} in
          (Json "Session published successfully" d', <[id := d']> coll)
        else (Status404 "Session not found", coll)
    | None => (Status404 "Session not found", coll)
    end.
Proof.
  unfold Routes.post_publish, Controller.publishSession, findOneAndUpdate.
  simpl. destruct (coll !! id) as [d|]; [|done].
  destruct (decide (user_id d = user)); done.
Qed.

End Server.

Section Lifecycle.
Variable isURL : string -> bool.

Lemma rejected_when_required_field_empty body :
  Js.is_empty (Js.trim (title body)) = true \/
  Js.is_empty (Js.trim (json_file_url body)) = true ->
  Api.accepted isURL body = false.
Proof.
  intros H. destruct (Api.accepted isURL body) eqn:Hacc; [|done].
  destruct (accepted_inv _ _ Hacc) as ((Ht & _) & Hu & _).
  destruct H as [H|H]; [|congruence].
  apply is_empty_true in H. rewrite H in Ht. unfold Js.length in Ht.
  simpl in Ht. lia.
Qed.

(** C8. A save-draft request whose title or content reference is empty once
    trimmed is answered 400 "Validation failed" with a non-empty list of
    errors, and the collection is returned as it was: no document is
    created and none is modified. *)
Theorem C8_empty_required_field_is_rejected body identity now coll :
  Js.is_empty (Js.trim (title body)) = true \/
  Js.is_empty (Js.trim (json_file_url body)) = true ->
  exists errors,
    errors <> [] /\
    Routes.post_save_draft isURL body identity now coll =
      (Status400 "Validation failed" errors, coll).
Proof.
  intros H%rejected_when_required_field_empty.
  exists (Routes.sessionValidation isURL body).1. split.
  - by apply bool_decide_eq_false in H.
  - by apply rejected.
Qed.

(** C4. Publishing a document that is already published, by its owner,
    succeeds again: the response carries the session, its status is still
    [published], [updated_at] is the time of this call, and title, tags,
    content reference, owner, id and creation time are untouched. *)
Theorem C4_publishing_again_succeeds id identity now coll d :
  coll !! id = Some d ->
  user_id d = identity ->
  status d = published ->
  exists d',
    Routes.post_publish (Some id) identity now coll =
      (Json "Session published successfully" d', <[id := d']> coll) /\
    status d' = published /\
    updated_at d' = now /\
    Api.content d' = Api.content d /\
    created_at d' = created_at d /\
    _id d' = _id d.
Proof.
  intros Hd Hu Hs. rewrite publish_result, Hd.
  destruct (decide (user_id d = identity)); [|done].
  eexists. split; [reflexivity|]. simpl. done.
Qed.

Lemma save_draft_foreign_unchanged body identity now coll id d :
  coll !! id = Some d -> identity <> user_id d ->
  sessionId body = Some id ->
  (Routes.post_save_draft isURL body identity now coll).2 = coll.
Proof.
  intros Hd Hne Hid. destruct (Api.accepted isURL body) eqn:Hacc.
  - rewrite (accepted_update _ _ _ _ _ id Hacc Hid), Hd.
    destruct (Api.tags_within_bound body); [|done].
    destruct (decide (user_id d = identity)); [congruence|done].
  - by rewrite rejected.
Qed.

Lemma save_draft_unknown_unchanged body identity now coll id :
  coll !! id = None ->
  sessionId body = Some id ->
  (Routes.post_save_draft isURL body identity now coll).2 = coll.
Proof.
  intros Hd Hid. destruct (Api.accepted isURL body) eqn:Hacc.
  - rewrite (accepted_update _ _ _ _ _ id Hacc Hid), Hd.
    by destruct (Api.tags_within_bound body).
  - by rewrite rejected.
Qed.

Lemma accepted_for_session id body :
  Api.accepted isURL (Api.for_session id body) = Api.accepted isURL body.
Proof. done. Qed.

Lemma save_draft_foreign_like_unknown body identity now coll id d id' :
  coll !! id = Some d -> identity <> user_id d -> coll !! id' = None ->
  Routes.post_save_draft isURL (Api.for_session id body) identity now coll =
  Routes.post_save_draft isURL (Api.for_session id' body) identity now coll.
Proof.
  intros Hd Hne Hd'.
  destruct (Api.accepted isURL body) eqn:Hacc.
  - rewrite (accepted_update _ (Api.for_session id body) _ _ _ id),
      (accepted_update _ (Api.for_session id' body) _ _ _ id'); try done.
    rewrite Hd, Hd'.
    replace (Api.tags_within_bound (Api.for_session id' body))
      with (Api.tags_within_bound (Api.for_session id body)) by done.
    destruct (Api.tags_within_bound _); [|done].
    destruct (decide (user_id d = identity)); [congruence|done].
  - by rewrite !rejected.
Qed.

(** C3. For a stored document and an identity other than its owner:
    publish answers 404 and leaves the collection as it was; so does a
    save-draft sent with the document's id, for every body the validation
    accepts; no save-draft with that id changes the collection, whatever
    its body; and both operations answer exactly as they do for an id no
    document has. *)
Theorem C3_foreign_identity_is_not_found id identity now coll d :
  coll !! id = Some d ->
  identity <> user_id d ->
  Routes.post_publish (Some id) identity now coll =
    (Status404 "Session not found", coll) /\
  (forall body,
     Api.accepted isURL body = true -> Api.tags_within_bound body = true ->
     Routes.post_save_draft isURL (Api.for_session id body) identity now coll =
       (Status404 "Session not found", coll)) /\
  (forall body,
     (Routes.post_save_draft isURL (Api.for_session id body) identity now coll).2
       = coll) /\
  (forall id', coll !! id' = None ->
     Routes.post_publish (Some id') identity now coll =
       Routes.post_publish (Some id) identity now coll /\
     forall body,
       Routes.post_save_draft isURL (Api.for_session id' body) identity now coll =
       Routes.post_save_draft isURL (Api.for_session id body) identity now coll).
Proof.
  intros Hd Hne. repeat split.
  - rewrite publish_result, Hd.
    destruct (decide (user_id d = identity)); [congruence|done].
  - intros body Hacc Htags.
    rewrite (accepted_update _ (Api.for_session id body) _ _ _ id); try done.
    replace (Api.tags_within_bound (Api.for_session id body))
      with (Api.tags_within_bound body) by done.
    rewrite Htags, Hd.
    destruct (decide (user_id d = identity)); [congruence|done].
  - intros body. by eapply save_draft_foreign_unchanged.
  - rewrite !publish_result, Hd, H.
    destruct (decide (user_id d = identity)); [congruence|done].
  - intros body. symmetry. by eapply save_draft_foreign_like_unknown.
Qed.

(** Every call leaves a stored document in place, with its owner and
    creation time, and never takes [published] away from it. *)
Lemma perform_keeps c coll id d :
  coll !! id = Some d ->
  exists d',
    (Api.perform isURL c coll).2 !! id = Some d' /\
    user_id d' = user_id d /\
    created_at d' = created_at d /\
    _id d' = _id d /\
    (status d = published -> status d' = published).
Proof.
  intros Hd. destruct c as [body identity now | [j|] identity now];
    unfold Api.perform.
  - destruct (Api.accepted isURL body) eqn:Hacc;
      [|rewrite rejected by done; by exists d].
    destruct (sessionId body) as [j|] eqn:Hid.
    + rewrite (accepted_update _ _ _ _ _ j Hacc Hid).
      destruct (Api.tags_within_bound body); [|by exists d].
      destruct (coll !! j) as [dj|] eqn:Hj; [|by exists d].
      destruct (decide (user_id dj = identity)); [|by exists d].
      destruct (decide (j = id)) as [->|Hne].
      * simplify_eq. eexists. simpl. rewrite lookup_insert_eq. done.
      * exists d. simpl. by rewrite lookup_insert_ne.
    + rewrite (created _ _ _ _ _ Hacc Hid).
      destruct (Api.tags_within_bound body); [|by exists d].
      exists d. simpl. rewrite lookup_insert_ne; [done|].
      intros Heq. pose proof (is_fresh (dom coll)) as Hf.
      rewrite Heq in Hf. apply Hf, elem_of_dom. eauto.
  - rewrite publish_result.
    destruct (coll !! j) as [dj|] eqn:Hj; [|by exists d].
    destruct (decide (user_id dj = identity)); [|by exists d].
    destruct (decide (j = id)) as [->|Hne].
    + simplify_eq. eexists. simpl. rewrite lookup_insert_eq. done.
    + exists d. simpl. by rewrite lookup_insert_ne.
  - by exists d.
Qed.

(** C2. Whatever save-draft and publish calls are made, by whichever
    identities and with whichever bodies, a document that is published
    stays stored and published (and keeps its owner and creation time). *)
Theorem C2_published_stays_published cs : forall coll id d,
  coll !! id = Some d ->
  status d = published ->
  exists d',
    Api.perform_all isURL cs coll !! id = Some d' /\
    status d' = published /\
    user_id d' = user_id d /\
    created_at d' = created_at d.
Proof.
  induction cs as [|c cs IH]; intros coll id d Hd Hs.
  - by exists d.
  - destruct (perform_keeps c coll id d Hd) as (d1 & H1 & Hu & Hc & _ & Hp).
    destruct (IH _ _ _ H1 (Hp Hs)) as (d2 & H2 & Hs2 & Hu2 & Hc2).
    exists d2. simpl. repeat split; try done; congruence.
Qed.

End Lifecycle.

Section Upsert.
Variable isURL : string -> bool.

(** C5. Saving the same fields twice under the id of a stored document:
    the collection has the same ids after each call as before (no second
    document), the document has the same title, tags, content reference
    and owner after the second call as after the first, the two calls have
    the same outcome, every other document is untouched, and when the
    save succeeds the stored fields are the (trimmed) fields sent and the
    caller is the owner.  The save succeeds exactly when the caller owns
    the document, the route's validation accepts the fields and no tag is
    over the schema's bound; then each call answers with the document it
    has written in place of the stored one, which is the stored document
    with the trimmed fields sent and the time of the call as its update
    time, so that after the second call the collection is what one call at
    that time would have made it. *)
Theorem C5_saving_twice_overwrites body id identity now1 now2 coll d :
  coll !! id = Some d ->
  let r1 := Routes.post_save_draft isURL (Api.for_session id body) identity now1 coll in
  let r2 := Routes.post_save_draft isURL (Api.for_session id body) identity now2 r1.2 in
  dom r1.2 = dom coll /\
  dom r2.2 = dom coll /\
  Api.content <$> r2.2 !! id = Api.content <$> r1.2 !! id /\
  outcome r2.1 = outcome r1.1 /\
  (forall j, j <> id -> r2.2 !! j = coll !! j) /\
  (outcome r1.1 = Success ->
   Api.content <$> r1.2 !! id =
     Some (Js.trim (title body), Api.stored_tags body,
           Js.trim (json_file_url body), identity)) /\
  (outcome r1.1 = Success <->
   user_id d = identity /\ Api.accepted isURL body = true /\
   Api.tags_within_bound body = true) /\
  (user_id d = identity ->
   Api.accepted isURL body = true ->
   Api.tags_within_bound body = true ->
   r1 = (Json "Draft saved successfully" (Api.revised body now1 d),
         <[id := Api.revised body now1 d]> coll) /\
   r2 = (Json "Draft saved successfully" (Api.revised body now2 d),
         <[id := Api.revised body now2 d]> coll)).
Proof.
  intros Hd r1 r2.
  assert (user_id d = identity ->
          Api.accepted isURL body = true ->
          Api.tags_within_bound body = true ->
          r1 = (Json "Draft saved successfully" (Api.revised body now1 d),
                <[id := Api.revised body now1 d]> coll) /\
          r2 = (Json "Draft saved successfully" (Api.revised body now2 d),
                <[id := Api.revised body now2 d]> coll)) as Hwritten.
  { intros Hu Hacc Htags.
    assert (r1 = (Json "Draft saved successfully" (Api.revised body now1 d),
                  <[id := Api.revised body now1 d]> coll)) as Hr1.
    { subst r1 r2.
      rewrite (accepted_update _ (Api.for_session id body) _ now1 _ id)
        by done.
      replace (Api.tags_within_bound (Api.for_session id body))
        with (Api.tags_within_bound body) by done.
      rewrite Htags, Hd. by destruct (decide (user_id d = identity)). }
    split; [exact Hr1|]. subst r2. rewrite Hr1. cbn [snd].
    rewrite (accepted_update _ (Api.for_session id body) _ now2 _ id)
      by done.
    replace (Api.tags_within_bound (Api.for_session id body))
      with (Api.tags_within_bound body) by done.
    rewrite Htags, lookup_insert_eq. cbn [Api.revised user_id].
    destruct (decide (user_id d = identity)); [|done].
    by rewrite insert_insert_eq. }
  assert (outcome r1.1 = Success ->
          user_id d = identity /\ Api.accepted isURL body = true /\
          Api.tags_within_bound body = true) as Honly.
  { subst r1 r2. destruct (Api.accepted isURL body) eqn:Hacc.
    - rewrite (accepted_update _ (Api.for_session id body) _ now1 _ id)
        by done.
      replace (Api.tags_within_bound (Api.for_session id body))
        with (Api.tags_within_bound body) by done.
      destruct (Api.tags_within_bound body); [|done].
      rewrite Hd. by destruct (decide (user_id d = identity)).
    - by rewrite rejected. }
  assert (outcome r1.1 = Success <->
          user_id d = identity /\ Api.accepted isURL body = true /\
          Api.tags_within_bound body = true) as Hiff.
  { split; [exact Honly|]. intros (Hu & Hacc & Htags).
    destruct (Hwritten Hu Hacc Htags) as [-> _]. done. }
  cut (dom r1.2 = dom coll /\
       dom r2.2 = dom coll /\
       Api.content <$> r2.2 !! id = Api.content <$> r1.2 !! id /\
       outcome r2.1 = outcome r1.1 /\
       (forall j, j <> id -> r2.2 !! j = coll !! j) /\
       (outcome r1.1 = Success ->
        Api.content <$> r1.2 !! id =
          Some (Js.trim (title body), Api.stored_tags body,
                Js.trim (json_file_url body), identity))).
  { intros (H1 & H2 & H3 & H4 & H5 & H6). done. }
  clear Hwritten Honly Hiff. subst r1 r2.
  destruct (Api.accepted isURL body) eqn:Hacc.
  - rewrite (accepted_update _ (Api.for_session id body) _ now1 _ id) by done.
    replace (Api.tags_within_bound (Api.for_session id body))
      with (Api.tags_within_bound body) by done.
    destruct (Api.tags_within_bound body) eqn:Htags.
    + rewrite Hd. destruct (decide (user_id d = identity)) as [Hu|Hu].
      * cbn [fst snd].
        rewrite (accepted_update _ (Api.for_session id body) _ now2 _ id) by done.
        replace (Api.tags_within_bound (Api.for_session id body))
          with (Api.tags_within_bound body) by done.
        rewrite Htags, lookup_insert_eq. cbn [Api.revised user_id].
        destruct (decide (user_id d = identity)); [|done].
        cbn [fst snd]. rewrite !lookup_insert_eq.
        rewrite !dom_insert_lookup_L; eauto using lookup_insert_is_Some'.
        2:{ rewrite lookup_insert_eq. eauto. }
        repeat split; try done.
        -- intros j Hj. by rewrite !lookup_insert_ne.
        -- intros _. simpl. unfold Api.content. simpl. by rewrite Hu.
      * cbn [fst snd].
        rewrite (accepted_update _ (Api.for_session id body) _ now2 _ id) by done.
        replace (Api.tags_within_bound (Api.for_session id body))
          with (Api.tags_within_bound body) by done.
        rewrite Htags, Hd.
        destruct (decide (user_id d = identity)); [done|].
        cbn [fst snd]. rewrite ?Hd. repeat split; done.
    + cbn [fst snd].
      rewrite (accepted_update _ (Api.for_session id body) _ now2 _ id) by done.
      replace (Api.tags_within_bound (Api.for_session id body))
          with (Api.tags_within_bound body) by done.
      rewrite Htags. cbn [fst snd]. repeat split; done.
  - rewrite !rejected by done. cbn [fst snd].
    rewrite ?rejected by done. cbn [fst snd]. repeat split; done.
Qed.

(** An accepted request with a tag over the schema's bound reaches the
    schema validators, whose exception the controller answers with its
    catch-all 500. *)
Lemma oversized_tag_out_of_bound body l t :
  tags body = Js.JArr l -> t ∈ l -> 50 < Js.length (Js.trim t) ->
  Api.tags_within_bound body = false.
Proof.
  intros Hl Ht Hlen. unfold Api.tags_within_bound, Api.stored_tags.
  rewrite Hl. simpl. apply not_true_is_false. intros Hall.
  rewrite forallb_forall in Hall.
  specialize (Hall (Js.trim t)). 
  assert ((Js.length (Js.trim t) <=? 50) = true) as Hle.
  { apply Hall. apply list_elem_of_In. unfold set_tags.
    by apply list_elem_of_fmap_2. }
  lia.
Qed.

(** C9, at the requests that break it.  A request the route accepts that
    carries a tag longer than 50 once trimmed is not answered with a
    validation error: the schema validator throws, the controller's
    catch-all answers 500 "Server error saving draft", and nothing is
    written. *)
Theorem C9_oversized_tag_is_a_server_error body identity now coll l t :
  Api.accepted isURL body = true ->
  tags body = Js.JArr l ->
  t ∈ l ->
  50 < Js.length (Js.trim t) ->
  Routes.post_save_draft isURL body identity now coll =
    (Status500 "Server error saving draft", coll).
Proof.
  intros Hacc Hl Ht Hlen.
  pose proof (oversized_tag_out_of_bound _ _ _ Hl Ht Hlen) as Hb.
  destruct (sessionId body) as [id|] eqn:Hid.
  - by rewrite (accepted_update _ _ _ _ _ id Hacc Hid), Hb.
  - by rewrite (created _ _ _ _ _ Hacc Hid), Hb.
Qed.

Lemma oversized_title_is_a_validation_error body identity now coll :
  200 < Js.length (Js.trim (title body)) ->
  exists errors,
    Routes.post_save_draft isURL body identity now coll =
      (Status400 "Validation failed" errors, coll).
Proof.
  intros Hlen. eexists. apply rejected.
  destruct (Api.accepted isURL body) eqn:Hacc; [|done].
  destruct (accepted_inv _ _ Hacc) as (Ht & _). lia.
Qed.

(** C10, amended.  For a stored document, its owner, and a title and
    content reference the route accepts: a save-draft that omits [tags]
    succeeds and stores the empty list of tags in place of the former
    ones; a save-draft that sends any other falsy [tags] (null, false, 0,
    the empty string) is answered with a validation error and the
    collection, stored tags included, is as it was. *)
Theorem C10_omitted_tags_are_overwritten t u v id identity now coll d :
  coll !! id = Some d ->
  user_id d = identity ->
  Api.accepted isURL
    {| title := t; tags := Js.JUndefined; json_file_url := u;
       sessionId := Some id |} = true ->
  Js.truthy v = false ->
  let r := Routes.post_save_draft isURL
             {| title := t; tags := v; json_file_url := u;
                sessionId := Some id |} identity now coll in
  (v = Js.JUndefined ->
     exists d',
       r = (Json "Draft saved successfully" d', <[id := d']> coll) /\
       Model.tags d' = [] /\
       Model.title d' = Js.trim t /\
       Model.json_file_url d' = Js.trim u) /\
  (v <> Js.JUndefined ->
     outcome r.1 = ValidationError /\ r.2 = coll).
Proof.
  intros Hd Hu Hacc Hv r. subst r. split.
  - intros ->.
    rewrite (accepted_update _ _ _ _ _ id Hacc eq_refl).
    cbn. rewrite Hd. destruct (decide (user_id d = identity)); [|done].
    eexists. split; [reflexivity|]. done.
  - intros Hne. rewrite rejected; [done|].
    apply bool_decide_eq_false. unfold Routes.sessionValidation. cbn.
    intros Herr. apply app_eq_nil in Herr as [_ Herr].
    apply app_eq_nil in Herr as [_ Herr].
    apply app_eq_nil in Herr as [_ Herr].
    destruct v as [| | | |s|l]; try done.
Qed.

End Upsert.

(** ** The editor *)

Section EditorFacts.
Variable isURL : string -> bool.
Variable user : ObjectId.

Import Editor.

Lemma autosave_effect_keeps now s :
  formData (autosave_effect now s) = formData s /\
  initialLoad (autosave_effect now s) = initialLoad s /\
  currentSessionId (autosave_effect now s) = currentSessionId s.
Proof.
  unfold autosave_effect. cbn.
  destruct (initialLoad s || _); done.
Qed.

Lemma autosave_effect_timeout now s :
  timeoutId (autosave_effect now s) =
    if initialLoad s || (no_title (formData s) && no_url (formData s))
    then None
    else Some {| fires_at := now + quiet_interval;
                 data := formData s;
                 closure_sessionId := currentSessionId s |}.
Proof.
  unfold autosave_effect. cbn.
  destruct (initialLoad s || _); done.
Qed.

(** The timeout an edit arms, when it arms one. *)
Lemma handleChange_timeout name value now s :
  let s' := handleChange name value now s in
  timeoutId s' =
    if initialLoad s || (no_title (formData s') && no_url (formData s'))
    then None
    else Some {| fires_at := now + quiet_interval;
                 data := formData s';
                 closure_sessionId := currentSessionId s |}.
Proof.
  intros s'. subst s'. unfold handleChange.
  destruct (autosave_effect_keeps now
    (setFormData
       match name with
       | name_title =>
           {| title := value; tags := tags (formData s);
              json_file_url := json_file_url (formData s) |}
       | name_tags =>
           {| title := title (formData s); tags := value;
              json_file_url := json_file_url (formData s) |}
       | name_json_file_url =>
           {| title := title (formData s); tags := tags (formData s);
              json_file_url := value |}
       end s)) as (-> & _ & _).
  by rewrite autosave_effect_timeout.
Qed.

Lemma handleChange_keeps name value now s :
  let s' := handleChange name value now s in
  initialLoad s' = initialLoad s /\
  currentSessionId s' = currentSessionId s.
Proof.
  intros s'. subst s'. unfold handleChange.
  match goal with |- context [autosave_effect now ?x] =>
    destruct (autosave_effect_keeps now x) as (_ & -> & ->) end.
  done.
Qed.

(** [saveDraft] returns at once when a required field is empty. *)
Lemma saveDraft_short_circuit sid d now w :
  (no_title d || no_url d) = true -> saveDraft isURL user sid d now w = w.
Proof. intros H. unfold saveDraft. by rewrite H. Qed.

Lemma advance_fuel_not_due n t w :
  due t w = false -> advance_fuel isURL user n t w = w.
Proof. intros H. destruct n; simpl; [done|]. by rewrite H. Qed.

Lemma advance_not_due t w : due t w = false -> advance isURL user t w = w.
Proof. apply advance_fuel_not_due. Qed.

Lemma due_no_timeout t w : timeoutId (editor w) = None -> due t w = false.
Proof. unfold due. by intros ->. Qed.

(** What a firing leaves pending: nothing, or a timeout one quiet interval
    after the one that fired. *)
Lemma fire_timeout w tm :
  timeoutId (editor w) = Some tm ->
  timeoutId (editor (fire isURL user w)) = None \/
  exists tm', timeoutId (editor (fire isURL user w)) = Some tm' /\
              fires_at tm' = fires_at tm + quiet_interval.
Proof.
  intros Htm. unfold fire. rewrite Htm. unfold saveDraft.
  destruct (no_title (data tm) || no_url (data tm)); [by left|].
  destruct (Routes.post_save_draft _ _ _ _ _) as [response coll].
  cbn [editor with_editor].
  match goal with |- context [decide ?P] => destruct (decide P) end.
  - left. destruct response; [destruct (closure_sessionId tm)|..]; done.
  - unfold autosave_effect.
    match goal with |- context [if ?c then _ else _] => destruct c end.
    + left. done.
    + right. eexists. split; [reflexivity|]. done.
Qed.

(** [advance] has fuel for every firing up to [t]. *)
Lemma advance_fuel_quiescent n : forall t w,
  (forall tm, timeoutId (editor w) = Some tm ->
     (t - fires_at tm) / quiet_interval + 1 <= Z.of_nat n) ->
  due t (advance_fuel isURL user n t w) = false.
Proof.
  induction n as [|n IH]; intros t w Hfuel.
  - simpl. unfold due. destruct (timeoutId (editor w)) as [tm|] eqn:Htm; [|done].
    specialize (Hfuel tm eq_refl). apply Z.leb_gt.
    unfold quiet_interval in *.
    destruct (Z_lt_le_dec t (fires_at tm)) as [Hlt|Hle]; [done|].
    pose proof (Z.div_pos (t - fires_at tm) 5000). lia.
  - simpl. destruct (due t w) eqn:Hdue; [|done].
    apply IH. intros tm' Htm'.
    unfold due in Hdue.
    destruct (timeoutId (editor w)) as [tm|] eqn:Htm; [|done].
    specialize (Hfuel tm eq_refl).
    destruct (fire_timeout w tm Htm) as [Hn | (tm2 & H2 & Hat)]; [congruence|].
    assert (tm' = tm2) as -> by congruence. rewrite Hat.
    unfold quiet_interval in *.
    replace (t - (fires_at tm + 5000)) with ((t - fires_at tm) + (-1) * 5000) by lia.
    rewrite Z.div_add by lia. lia.
Qed.

Theorem advance_quiescent t w : due t (advance isURL user t w) = false.
Proof.
  unfold advance. apply advance_fuel_quiescent. intros tm Htm.
  unfold firings. rewrite Htm. lia.
Qed.

End EditorFacts.

Section EditorClaims.
Variable isURL : string -> bool.
Variable user : ObjectId.

Import Editor.

Lemma fire_short_circuit w tm :
  timeoutId (editor w) = Some tm ->
  (no_title (data tm) || no_url (data tm)) = true ->
  fire isURL user w = with_editor (clearTimeout (editor w)) w.
Proof.
  intros Htm Hempty. unfold fire. rewrite Htm.
  by apply saveDraft_short_circuit.
Qed.

(** A save for a session whose id the editor already knows: one request,
    and nothing armed afterwards. *)
Lemma saveDraft_known_id id d now w :
  (no_title d || no_url d) = false ->
  timeoutId (editor w) = None ->
  currentSessionId (editor w) = Some id ->
  let w' := saveDraft isURL user (Some id) d now w in
  requests w' = requests w ++ [SaveDraft (payload d (Some id))] /\
  timeoutId (editor w') = None /\
  currentSessionId (editor w') = Some id /\
  formData (editor w') = formData (editor w) /\
  sessions w' =
    (Routes.post_save_draft isURL (payload d (Some id)) user now (sessions w)).2.
Proof.
  intros Hfields Htm Hid. unfold saveDraft. rewrite Hfields.
  destruct (Routes.post_save_draft _ _ _ _ _) as [response coll].
  cbn [fst snd]. destruct response; cbn; rewrite ?Hid;
    (destruct (decide _) as [_|Hne]; [done | by destruct Hne]).
Qed.

(** A burst of edits never lets the timeout fall due: the requests and the
    collection are as before, and the last edit's timeout is pending. *)
Lemma run_burst sid es : forall t w,
  settled sid t (editor w) ->
  within_quiet t es ->
  let w' := run isURL user (edit_events es) w in
  settled sid (last_time t es) (editor w') /\
  requests w' = requests w /\
  sessions w' = sessions w.
Proof.
  induction es as [|[[t' name] value] es IH]; intros t w Hs Hq; [done|].
  destruct Hq as [Ht Hq]. destruct Hs as (Hload & Hid & Htm).
  cbn [edit_events fmap list_fmap run last_time].
  rewrite advance_not_due.
  2:{ unfold due. rewrite Htm.
      destruct (no_title _ && no_url _); [done|]. cbn. lia. }
  cbn [handle].
  destruct (IH t' (with_editor (handleChange name value t' (editor w)) w))
    as (Hs' & Hr & Hc); [|done|].
  - cbn [editor with_editor].
    destruct (handleChange_keeps name value t' (editor w)) as [Hl Hi].
    pose proof (handleChange_timeout name value t' (editor w)) as Ht'.
    cbn zeta in *. repeat split; [congruence..|].
    rewrite Ht', Hload, Hid. done.
  - done.
Qed.

(** The same, from any editor whose load is over and whose timeout, if it
    has one, is not yet due at the first edit. *)
Lemma burst_settles sid w t1 name1 value1 es :
  initialLoad (editor w) = false ->
  currentSessionId (editor w) = sid ->
  due t1 w = false ->
  within_quiet t1 es ->
  let w' := run isURL user (edit_events ((t1, name1, value1) :: es)) w in
  settled sid (last_time t1 es) (editor w') /\
  requests w' = requests w /\
  sessions w' = sessions w.
Proof.
  intros Hload Hid Hdue Hq w'. subst w'.
  cbn [edit_events fmap list_fmap run].
  rewrite (advance_not_due isURL user t1 w Hdue). cbn [handle].
  apply (run_burst sid es t1
           (with_editor (handleChange name1 value1 t1 (editor w)) w)); [|done].
  cbn [editor with_editor].
  destruct (handleChange_keeps name1 value1 t1 (editor w)) as [Hl Hi].
  pose proof (handleChange_timeout name1 value1 t1 (editor w)) as Ht'.
  cbn zeta in *. repeat split; [congruence..|].
  rewrite Ht', Hload, Hid. reflexivity.
Qed.

(** X28. Debounce coalescing for a session whose id is known: up to a quiet
    interval after the last edit nothing is sent; from then on exactly one
    request has been, carrying the fields of the last edit. *)
Lemma debounce_coalesces id w t1 name1 value1 es :
  initialLoad (editor w) = false ->
  currentSessionId (editor w) = Some id ->
  due t1 w = false ->
  within_quiet t1 es ->
  let w' := run isURL user (edit_events ((t1, name1, value1) :: es)) w in
  let E := formData (editor w') in
  no_title E = false ->
  no_url E = false ->
  forall t,
    requests (advance isURL user t w') =
      if t <? last_time t1 es + quiet_interval then requests w
      else requests w ++ [SaveDraft (payload E (Some id))].
Proof.
  intros Hload Hid Hdue Hq w' E Htitle Hurl t. subst E.
  destruct (burst_settles (Some id) w t1 name1 value1 es Hload Hid Hdue Hq)
    as ((_ & Hid' & Htm) & Hr & Hc).
  fold w' in Hid', Htm, Hr, Hc.
  rewrite Htitle in Htm. cbn [andb] in Htm.
  destruct (t <? last_time t1 es + quiet_interval) eqn:Hlt.
  - rewrite advance_not_due; [done|]. unfold due. rewrite Htm. cbn. lia.
  - apply Z.ltb_ge in Hlt. unfold advance, firings. rewrite Htm.
    cbn [fires_at].
    pose proof (Z.div_pos (t - (last_time t1 es + quiet_interval))
                  quiet_interval) as Hpos.
    unfold quiet_interval in Hpos at 2.
    destruct (Z.to_nat _) as [|n] eqn:Hn; [lia|].
    cbn [advance_fuel]. unfold due at 1. rewrite Htm. cbn [fires_at].
    replace (last_time t1 es + quiet_interval <=? t) with true by lia.
    unfold fire. rewrite Htm. cbn [closure_sessionId data fires_at].
    destruct (saveDraft_known_id id (formData (editor w'))
                (last_time t1 es + quiet_interval)
                (with_editor (clearTimeout (editor w')) w'))
      as (Hreq & Hnone & _); [by rewrite Htitle, Hurl|done|done|].
    rewrite advance_fuel_not_due by (by apply due_no_timeout).
    rewrite Hreq. cbn [requests with_editor]. by rewrite Hr.
Qed.

(** C7, amended.  After an edit, no timeout is pending exactly when the
    initial load is not over or both the title and the content reference
    are empty once trimmed; otherwise the edit arms a timeout one quiet
    interval ahead, also when one of the two is empty.  While either one
    is empty, though, letting the clock run sends no request and changes
    no document: the firing returns before it saves. *)
Theorem C7_no_save_while_a_required_field_is_empty name value now w :
  let s' := handleChange name value now (editor w) in
  let w' := with_editor s' w in
  timeoutId s' =
    (if initialLoad (editor w)
        || (no_title (formData s') && no_url (formData s'))
     then None
     else Some {| fires_at := now + quiet_interval;
                  data := formData s';
                  closure_sessionId := currentSessionId (editor w) |}) /\
  ((no_title (formData s') || no_url (formData s')) = true ->
   forall t,
     requests (advance isURL user t w') = requests w /\
     sessions (advance isURL user t w') = sessions w).
Proof.
  intros s' w'. split; [apply handleChange_timeout|].
  intros Hempty t. unfold advance.
  destruct (firings t w') as [|n]; [done|]. cbn [advance_fuel].
  destruct (due t w') eqn:Hdue; [|done].
  unfold due in Hdue.
  destruct (timeoutId (editor w')) as [tm|] eqn:Htm; [|done].
  assert (data tm = formData s') as Hdata.
  { subst w'. cbn [editor with_editor] in Htm.
    pose proof (handleChange_timeout name value now (editor w)) as H.
    cbn zeta in H. fold s' in H. rewrite H in Htm.
    destruct (_ || _) in Htm; [done|]. by simplify_eq. }
  rewrite (fire_short_circuit w' tm Htm) by (by rewrite Hdata).
  by rewrite advance_fuel_not_due.
Qed.

End EditorClaims.

Section PublishFacts.
Variable isURL : string -> bool.
Variable user : ObjectId.

Import Editor.

Lemma payload_accepted_fields E sid :
  Api.accepted isURL (payload E sid) = true ->
  (no_title E || no_url E) = false.
Proof.
  intros Hacc. destruct (accepted_inv _ _ Hacc) as ((Ht & _) & Hu & _).
  cbn [payload Http.title Http.json_file_url] in *. rewrite trim_idemp in *.
  unfold no_title, no_url. rewrite Hu.
  destruct (Js.trim (Editor.title E)); [|done].
  unfold Js.length in Ht. simpl in Ht. lia.
Qed.

Lemma trim_filter_trimmed (P : string -> bool) (l : list string) :
  Js.trim <$> List.filter P (Js.trim <$> l) = List.filter P (Js.trim <$> l).
Proof.
  induction l as [|x l IH]; [done|]. csimpl.
  destruct (P (Js.trim x)); csimpl; [|done].
  by rewrite trim_idemp, IH.
Qed.

(** The server stores the tags of a payload as the editor sent them. *)
Lemma stored_tags_payload E sid :
  Http.tags (payload E sid) = Js.JArr (Api.stored_tags (payload E sid)).
Proof.
  unfold Api.stored_tags, payload. cbn. unfold set_tags.
  by rewrite trim_filter_trimmed.
Qed.

(** X29. When the editor knows the session's id and the server takes the
    flush, pressing Publish with unsaved changes sends the flush and then
    the publish request, and the published document carries the edit. *)
Lemma publish_after_successful_flush id d now w :
  currentSessionId (editor w) = Some id ->
  hasUnsavedChanges (editor w) = true ->
  sessions w !! id = Some d ->
  user_id d = user ->
  let body := payload (formData (editor w)) (Some id) in
  Api.accepted isURL body = true ->
  Api.tags_within_bound body = true ->
  let w' := handlePublish isURL user now w in
  requests w' = requests w ++ [SaveDraft body; Publish (Some id)] /\
  exists d',
    sessions w' !! id = Some d' /\
    status d' = published /\
    Model.title d' = Http.title body /\
    Js.JArr (Model.tags d') = Http.tags body /\
    Model.json_file_url d' = Http.json_file_url body.
Proof.
  intros Hid Hunsaved Hd Hu body Hacc Htags w'. subst w'.
  pose proof (payload_accepted_fields _ _ Hacc) as Hfields.
  unfold handlePublish. rewrite Hfields, Hunsaved, Hid.
  unfold saveDraft. rewrite Hfields. cbn [sessions with_editor].
  fold body.
  rewrite (accepted_update isURL body user now (sessions w) id Hacc eq_refl).
  rewrite Htags, Hd. destruct (decide (user_id d = user)); [|done].
  cbn [editor with_editor sessions requests setSaving setPublishing
       setHasUnsavedChanges setLastSaved currentSessionId].
  rewrite Hid. destruct (decide (Some id = Some id)); [|done].
  rewrite publish_result, lookup_insert_eq. cbn [Api.revised user_id].
  destruct (decide (user_id d = user)); [|done].
  cbn [requests sessions]. split.
  - by rewrite <- app_assoc.
  - eexists. rewrite lookup_insert_eq. split; [reflexivity|].
    subst body. cbn. unfold Api.stored_tags, set_tags. cbn.
    rewrite trim_filter_trimmed. repeat split; apply trim_idemp.
Qed.

(** C1, at the states that break it.  The editor knows the session's id
    and has an unsaved edit whose title and content reference are not
    empty, but the server does not take the flush (the route rejects the
    body, or a tag is over the schema's bound).  Pressing publish sends
    the flush and then the publish request all the same, and the document
    is published with the title, tags and content reference it had before
    the edit. *)
Theorem C1_rejected_flush_publishes_the_earlier_revision id d now w :
  currentSessionId (editor w) = Some id ->
  hasUnsavedChanges (editor w) = true ->
  sessions w !! id = Some d ->
  user_id d = user ->
  let E := formData (editor w) in
  let body := payload E (Some id) in
  (no_title E || no_url E) = false ->
  (Api.accepted isURL body && Api.tags_within_bound body) = false ->
  let w' := handlePublish isURL user now w in
  requests w' = requests w ++ [SaveDraft body; Publish (Some id)] /\
  exists d',
    sessions w' !! id = Some d' /\
    status d' = published /\
    Api.content d' = Api.content d.
Proof.
  intros Hid Hunsaved Hd Hu E body Hfields Hrej w'. subst w' E.
  unfold handlePublish. rewrite Hfields, Hunsaved, Hid.
  unfold saveDraft. rewrite Hfields. cbn [sessions with_editor].
  fold body.
  assert (exists response,
            Routes.post_save_draft isURL body user now (sessions w) =
              (response, sessions w) /\ outcome response <> Success)
    as (response & -> & _).
  { destruct (Api.accepted isURL body) eqn:Hacc.
    - rewrite (accepted_update isURL body user now (sessions w) id Hacc
                 eq_refl).
      cbn [andb] in Hrej. rewrite Hrej. by eexists.
    - rewrite rejected by done. by eexists. }
  cbn [editor with_editor sessions requests].
  rewrite publish_result, Hd.
  destruct (decide (user_id d = user)); [|done].
  cbn [requests sessions]. split.
  - by rewrite <- app_assoc.
  - eexists. rewrite lookup_insert_eq. done.
Qed.

End PublishFacts.

Section NewSession.
Variable isURL : string -> bool.
Variable user : ObjectId.

Import Editor.

(** The first save of a new session: the server mints the id, the editor
    learns it, and the render that follows arms the timeout again. *)
Lemma saveDraft_new_session d now w :
  Api.accepted isURL (payload d None) = true ->
  Api.tags_within_bound (payload d None) = true ->
  initialLoad (editor w) = false ->
  currentSessionId (editor w) = None ->
  formData (editor w) = d ->
  let w2 := saveDraft isURL user None d now w in
  let id := fresh (dom (sessions w)) in
  requests w2 = requests w ++ [SaveDraft (payload d None)] /\
  currentSessionId (editor w2) = Some id /\
  timeoutId (editor w2) =
    Some {| fires_at := now + quiet_interval; data := d;
            closure_sessionId := Some id |}.
Proof.
  intros Hacc Htags Hload Hid Hdata w2 id. subst w2 id.
  pose proof (payload_accepted_fields isURL d None Hacc) as Hfields.
  unfold saveDraft. rewrite Hfields.
  rewrite (created isURL (payload d None) user now (sessions w) Hacc eq_refl).
  rewrite Htags. cbn [editor requests fst snd _id currentSessionId
    setSaving setCurrentSessionId setHasUnsavedChanges setLastSaved].
  rewrite Hid. destruct (decide (Some (fresh (dom (sessions w))) = None));
    [done|].
  cbn [editor requests]. split; [done|].
  destruct (autosave_effect_keeps now
    (setSaving false
       (setHasUnsavedChanges false
          (setLastSaved (Some now)
             (setCurrentSessionId (Some (fresh (dom (sessions w))))
                (setSaving true (editor w))))))) as (_ & _ & ->).
  rewrite autosave_effect_timeout.
  cbn [initialLoad formData currentSessionId setSaving setCurrentSessionId
       setHasUnsavedChanges setLastSaved].
  rewrite Hload, Hdata. apply orb_false_elim in Hfields as [-> _]. done.
Qed.

(** C6, at the sessions that break it.  A burst of edits to a new session,
    each less than a quiet interval after the one before, whose last fields
    the server accepts.  Until a quiet interval has passed since the last
    edit nothing is sent, and then the fields of the last edit are sent
    once; but a second quiet interval later, with no edit in between, the
    same fields are sent again, under the id the first save returned: two
    save-draft calls for one burst. *)
Theorem C6_new_session_is_saved_twice w t1 name1 value1 es :
  initialLoad (editor w) = false ->
  currentSessionId (editor w) = None ->
  due t1 w = false ->
  within_quiet t1 es ->
  let w' := run isURL user (edit_events ((t1, name1, value1) :: es)) w in
  let E := formData (editor w') in
  let T := last_time t1 es in
  Api.accepted isURL (payload E None) = true ->
  Api.tags_within_bound (payload E None) = true ->
  forall t,
    requests (advance isURL user t w') =
      if t <? T + quiet_interval then requests w
      else if t <? T + 2 * quiet_interval then
        requests w ++ [SaveDraft (payload E None)]
      else
        requests w ++
          [SaveDraft (payload E None);
           SaveDraft (payload E (Some (fresh (dom (sessions w)))))].
Proof.
  intros Hload Hid Hdue Hq w' E T Hacc Htags t. subst E T.
  pose proof (payload_accepted_fields isURL _ None Hacc) as Hfields.
  destruct (burst_settles isURL user None w t1 name1 value1 es
              Hload Hid Hdue Hq) as ((Hload' & Hid' & Htm) & Hr & Hc).
  fold w' in Hload', Hid', Htm, Hr, Hc.
  apply orb_false_elim in Hfields as [Htitle Hurl].
  rewrite Htitle in Htm. cbn [andb] in Htm.
  set (E := formData (editor w')) in *.
  set (T := last_time t1 es) in *.
  destruct (t <? T + quiet_interval) eqn:Hlt1.
  { rewrite advance_not_due; [done|]. unfold due. rewrite Htm. cbn. lia. }
  apply Z.ltb_ge in Hlt1. unfold advance, firings. rewrite Htm.
  cbn [fires_at].
  pose proof (Z.div_pos (t - (T + quiet_interval)) quiet_interval) as Hpos.
  unfold quiet_interval in Hpos at 2.
  destruct (Z.to_nat _) as [|n] eqn:Hn; [lia|].
  cbn [advance_fuel]. unfold due at 1. rewrite Htm. cbn [fires_at].
  replace (T + quiet_interval <=? t) with true by lia.
  unfold fire at 1. rewrite Htm. cbn [closure_sessionId data fires_at].
  destruct (saveDraft_new_session E (T + quiet_interval)
              (with_editor (clearTimeout (editor w')) w'))
    as (Hreq & Hid2 & Htm2); [done..|].
  cbn [sessions with_editor requests] in Hreq, Hid2, Htm2.
  rewrite Hc in Hid2, Htm2. rewrite Hr in Hreq.
  set (w2 := saveDraft isURL user None E (T + quiet_interval)
               (with_editor (clearTimeout (editor w')) w')) in *.
  destruct (t <? T + 2 * quiet_interval) eqn:Hlt2.
  { rewrite advance_fuel_not_due; [done|].
    unfold due. rewrite Htm2. cbn. unfold quiet_interval in *. lia. }
  apply Z.ltb_ge in Hlt2.
  assert (1 <= (t - (T + quiet_interval)) / quiet_interval) as Hdiv.
  { apply Z.div_le_lower_bound; unfold quiet_interval in *; lia. }
  destruct n as [|m]; [lia|].
  cbn [advance_fuel]. unfold due at 1. rewrite Htm2. cbn [fires_at].
  replace (T + quiet_interval + quiet_interval <=? t) with true
    by (unfold quiet_interval in *; lia).
  unfold fire. rewrite Htm2. cbn [closure_sessionId data fires_at].
  destruct (saveDraft_known_id isURL user (fresh (dom (sessions w))) E
              (T + quiet_interval + quiet_interval)
              (with_editor (clearTimeout (editor w2)) w2))
    as (Hreq3 & Hnone & _); [by rewrite Htitle, Hurl|done|done|].
  rewrite advance_fuel_not_due by (by apply due_no_timeout).
  rewrite Hreq3. cbn [requests with_editor]. rewrite Hreq.
  by rewrite <- app_assoc.
Qed.

End NewSession.

(** ** The editor on concrete timelines *)

Section Timelines.
Import Editor.

Lemma publish_of_new_session_sends_no_id :
  let w := run Sample.url_like Sample.alice
             [(100, Change name_title "Morning Flow");
              (200, Change name_json_file_url "https://example.com/y.json");
              (300, ClickPublish)]
             Sample.new_session in
  requests w =
    [SaveDraft (Sample.request "Morning Flow" (Js.JArr [])
                  "https://example.com/y.json" None);
     Publish None] /\
  status <$> sessions w !! 1%positive = Some draft.
Proof. vm_compute. done. Qed.

Lemma C7_counterexample :
  let s := handleChange name_title "A" 0 (editor Sample.new_session) in
  no_url (formData (editor Sample.new_session)) = true /\
  no_url (formData s) = true /\
  timeoutId s =
    Some {| fires_at := 5000;
            data := {| title := "A"; tags := ""; json_file_url := "" |};
            closure_sessionId := None |}.
Proof. vm_compute. done. Qed.

End Timelines.

(** ** The theorems at sample inputs *)

Lemma C8_witness :
  (Js.is_empty (Js.trim "   ") = true \/
   Js.is_empty (Js.trim "https://example.com/y.json") = true) /\
  exists errors,
    errors <> [] /\
    Routes.post_save_draft Sample.url_like
      (Sample.request "   " Js.JUndefined "https://example.com/y.json" None)
      Sample.alice 5 Sample.one_draft =
    (Status400 "Validation failed" errors, Sample.one_draft).
Proof.
  split; [left; reflexivity|].
  apply (C8_empty_required_field_is_rejected Sample.url_like
           (Sample.request "   " Js.JUndefined "https://example.com/y.json" None)).
  left; reflexivity.
Defined.

Lemma C4_witness :
  Sample.one_published !! Sample.S1 = Some Sample.morning_flow_published /\
  exists d',
    Routes.post_publish (Some Sample.S1) Sample.alice 20 Sample.one_published =
      (Json "Session published successfully" d',
       <[Sample.S1 := d']> Sample.one_published) /\
    status d' = published /\
    updated_at d' = 20 /\
    Api.content d' = Api.content Sample.morning_flow_published /\
    created_at d' = created_at Sample.morning_flow_published /\
    _id d' = _id Sample.morning_flow_published.
Proof.
  split; [reflexivity|].
  apply (C4_publishing_again_succeeds Sample.S1 Sample.alice 20
           Sample.one_published Sample.morning_flow_published);
    reflexivity.
Defined.

Lemma C3_witness :
  Sample.one_draft !! Sample.S1 = Some Sample.morning_flow /\
  Sample.bob <> user_id Sample.morning_flow /\
  Routes.post_publish (Some Sample.S1) Sample.bob 20 Sample.one_draft =
    (Status404 "Session not found", Sample.one_draft) /\
  Routes.post_save_draft Sample.url_like
    (Api.for_session Sample.S1
       (Sample.request "Evening Flow" (Js.JArr []) "https://example.com/z.json" None))
    Sample.bob 20 Sample.one_draft =
    (Status404 "Session not found", Sample.one_draft).
Proof.
  assert (Sample.bob <> user_id Sample.morning_flow) as Hne
    by (vm_compute; discriminate).
  destruct (C3_foreign_identity_is_not_found Sample.url_like Sample.S1
              Sample.bob 20 Sample.one_draft Sample.morning_flow
              eq_refl Hne) as (Hpublish & Hsave & _).
  split; [reflexivity|]. split; [exact Hne|]. split; [exact Hpublish|].
  apply Hsave; reflexivity.
Defined.

Lemma C2_witness :
  Sample.one_published !! Sample.S1 = Some Sample.morning_flow_published /\
  status Sample.morning_flow_published = published /\
  exists d',
    Api.perform_all Sample.url_like
      [Api.save_draft
         (Sample.request "Evening Flow" (Js.JArr []) "https://example.com/z.json"
            (Some Sample.S1)) Sample.alice 20;
       Api.publish (Some Sample.S1) Sample.alice 30;
       Api.save_draft
         (Sample.request "Another" Js.JUndefined "https://example.com/w.json" None)
         Sample.bob 40]
      Sample.one_published !! Sample.S1 = Some d' /\
    status d' = published /\
    user_id d' = user_id Sample.morning_flow_published /\
    created_at d' = created_at Sample.morning_flow_published.
Proof.
  split; [reflexivity|]. split; [reflexivity|].
  apply (C2_published_stays_published Sample.url_like); reflexivity.
Defined.

Lemma C5_witness :
  Sample.one_draft !! Sample.S1 = Some Sample.morning_flow /\
  let body := Sample.request " Evening Flow " (Js.JArr ["calm "])
                "https://example.com/z.json" None in
  let r1 := Routes.post_save_draft Sample.url_like
              (Api.for_session Sample.S1 body) Sample.alice 20
              Sample.one_draft in
  let r2 := Routes.post_save_draft Sample.url_like
              (Api.for_session Sample.S1 body) Sample.alice 30 r1.2 in
  dom r1.2 = dom Sample.one_draft /\
  dom r2.2 = dom Sample.one_draft /\
  Api.content <$> r2.2 !! Sample.S1 = Api.content <$> r1.2 !! Sample.S1 /\
  outcome r2.1 = outcome r1.1 /\
  (forall j, j <> Sample.S1 -> r2.2 !! j = Sample.one_draft !! j) /\
  (outcome r1.1 = Success ->
   Api.content <$> r1.2 !! Sample.S1 =
     Some (Js.trim (title body), Api.stored_tags body,
           Js.trim (json_file_url body), Sample.alice)) /\
  user_id Sample.morning_flow = Sample.alice /\
  Api.accepted Sample.url_like body = true /\
  Api.tags_within_bound body = true /\
  outcome r1.1 = Success /\
  r1 = (Json "Draft saved successfully"
          (Api.revised body 20 Sample.morning_flow),
        <[Sample.S1 := Api.revised body 20 Sample.morning_flow]>
          Sample.one_draft) /\
  r2 = (Json "Draft saved successfully"
          (Api.revised body 30 Sample.morning_flow),
        <[Sample.S1 := Api.revised body 30 Sample.morning_flow]>
          Sample.one_draft) /\
  Api.content (Api.revised body 30 Sample.morning_flow) =
    ("Evening Flow", ["calm"], "https://example.com/z.json", Sample.alice).
Proof.
  split; [reflexivity|]. intros body r1 r2.
  destruct (C5_saving_twice_overwrites Sample.url_like body
              Sample.S1 Sample.alice 20 30 Sample.one_draft
              Sample.morning_flow eq_refl)
    as (H1 & H2 & H3 & H4 & H5 & H6 & H7 & H8).
  destruct (H8 eq_refl eq_refl eq_refl) as [H9 H10].
  split; [exact H1|]. split; [exact H2|]. split; [exact H3|].
  split; [exact H4|]. split; [exact H5|]. split; [exact H6|].
  split; [reflexivity|]. split; [reflexivity|]. split; [reflexivity|].
  split; [apply H7; repeat split; reflexivity|].
  split; [exact H9|]. split; [exact H10|reflexivity].
Defined.

Lemma C9_witness :
  Api.accepted Sample.url_like
    (Sample.request "Morning Flow" (Js.JArr [Js.repeat "a" 51])
       "https://example.com/y.json" None) = true /\
  50 < Js.length (Js.trim (Js.repeat "a" 51)) /\
  Routes.post_save_draft Sample.url_like
    (Sample.request "Morning Flow" (Js.JArr [Js.repeat "a" 51])
       "https://example.com/y.json" None) Sample.alice 5 ∅ =
  (Status500 "Server error saving draft", ∅).
Proof.
  split; [reflexivity|]. split; [reflexivity|].
  apply (C9_oversized_tag_is_a_server_error Sample.url_like
           (Sample.request "Morning Flow" (Js.JArr [Js.repeat "a" 51])
              "https://example.com/y.json" None)
           Sample.alice 5 ∅ [Js.repeat "a" 51] (Js.repeat "a" 51));
    [reflexivity | reflexivity | apply list_elem_of_here | reflexivity].
Defined.

Lemma C10_counterexample :
  let r := Routes.post_save_draft Sample.url_like
             (Sample.request "Morning Flow" Js.JNull "https://example.com/y.json"
                (Some Sample.S1)) Sample.alice 5 Sample.one_draft in
  Js.truthy Js.JNull = false /\
  Sample.one_draft !! Sample.S1 = Some Sample.morning_flow /\
  user_id Sample.morning_flow = Sample.alice /\
  r.1 = Status400 "Validation failed" ["Tags must be an array"] /\
  Model.tags <$> r.2 !! Sample.S1 = Some ["yoga"] /\
  Model.tags <$> r.2 !! Sample.S1 <> Some [].
Proof. vm_compute. repeat split; done. Qed.

Lemma C10_witness :
  Sample.one_draft !! Sample.S1 = Some Sample.morning_flow /\
  Api.accepted Sample.url_like
    (Sample.request "Morning Flow" Js.JUndefined "https://example.com/y.json"
       (Some Sample.S1)) = true /\
  exists d',
    Routes.post_save_draft Sample.url_like
      (Sample.request "Morning Flow" Js.JUndefined "https://example.com/y.json"
         (Some Sample.S1)) Sample.alice 5 Sample.one_draft =
      (Json "Draft saved successfully" d', <[Sample.S1 := d']> Sample.one_draft) /\
    Model.tags d' = [] /\
    Model.title d' = Js.trim "Morning Flow" /\
    Model.json_file_url d' = Js.trim "https://example.com/y.json".
Proof.
  split; [reflexivity|]. split; [reflexivity|].
  apply (C10_omitted_tags_are_overwritten Sample.url_like
           "Morning Flow" "https://example.com/y.json" Js.JUndefined Sample.S1
           Sample.alice 5 Sample.one_draft Sample.morning_flow);
    reflexivity.
Defined.

Lemma C7_witness :
  let w := Sample.new_session in
  let s' := Editor.handleChange Editor.name_title "A" 0 (Editor.editor w) in
  (Editor.no_title (Editor.formData s')
     || Editor.no_url (Editor.formData s')) = true /\
  Editor.requests
    (Editor.advance Sample.url_like Sample.alice 60000
       (Editor.with_editor s' w)) = Editor.requests w /\
  Editor.sessions
    (Editor.advance Sample.url_like Sample.alice 60000
       (Editor.with_editor s' w)) = Editor.sessions w.
Proof.
  split; [reflexivity|].
  apply (C7_no_save_while_a_required_field_is_empty Sample.url_like
           Sample.alice Editor.name_title "A" 0 Sample.new_session).
  reflexivity.
Defined.

Lemma C1_witness :
  let w := Editor.run Sample.url_like Sample.alice
             [(1000, Editor.Change Editor.name_tags (Js.repeat "a" 51))]
             Sample.editing_S1 in
  let body := Editor.payload (Editor.formData (Editor.editor w))
                (Some Sample.S1) in
  let w' := Editor.handlePublish Sample.url_like Sample.alice 2000 w in
  Editor.hasUnsavedChanges (Editor.editor w) = true /\
  Editor.sessions w !! Sample.S1 = Some Sample.morning_flow /\
  tags body = Js.JArr [Js.repeat "a" 51] /\
  Editor.requests w' =
    Editor.requests w ++
      [Editor.SaveDraft body; Editor.Publish (Some Sample.S1)] /\
  exists d',
    Editor.sessions w' !! Sample.S1 = Some d' /\
    status d' = published /\
    Api.content d' = Api.content Sample.morning_flow.
Proof.
  intros w body w'.
  split; [reflexivity|]. split; [reflexivity|]. split; [reflexivity|].
  apply (C1_rejected_flush_publishes_the_earlier_revision Sample.url_like
           Sample.alice Sample.S1 Sample.morning_flow 2000 w);
    reflexivity.
Defined.

Lemma C6_witness :
  let w := Sample.new_session in
  let burst :=
    [(100, Editor.name_title, "Morning Flow");
     (200, Editor.name_json_file_url, "https://example.com/y.json")] in
  let w' := Editor.run Sample.url_like Sample.alice
              (Editor.edit_events burst) w in
  Editor.initialLoad (Editor.editor w) = false /\
  Editor.currentSessionId (Editor.editor w) = None /\
  Editor.within_quiet 100 [(200, Editor.name_json_file_url, "https://example.com/y.json")] /\
  Api.accepted Sample.url_like
    (Editor.payload (Editor.formData (Editor.editor w')) None) = true /\
  Editor.requests (Editor.advance Sample.url_like Sample.alice 60000 w') =
    [Editor.SaveDraft
       (Sample.request "Morning Flow" (Js.JArr []) "https://example.com/y.json" None);
     Editor.SaveDraft
       (Sample.request "Morning Flow" (Js.JArr []) "https://example.com/y.json"
          (Some 1%positive))].
Proof.
  intros w burst w'.
  assert (Editor.within_quiet 100
            [(200, Editor.name_json_file_url, "https://example.com/y.json")]) as Hq.
  { cbn. unfold Editor.quiet_interval. split; [lia | exact I]. }
  split; [reflexivity|]. split; [reflexivity|]. split; [exact Hq|].
  split; [reflexivity|].
  exact (C6_new_session_is_saved_twice Sample.url_like Sample.alice w
           100 Editor.name_title "Morning Flow"
           [(200, Editor.name_json_file_url, "https://example.com/y.json")]
           eq_refl eq_refl eq_refl Hq eq_refl eq_refl 60000).
Defined.

(** Opening a stored session runs the auto-save effect on the loaded
    fields: one quiet interval later they are saved back, unedited. *)
Example opening_a_session_saves_it_back :
  Editor.requests Sample.editing_S1 = [Editor.GetSession Sample.S1] /\
  Editor.requests
    (Editor.advance Sample.url_like Sample.alice 5000 Sample.editing_S1) =
    [Editor.GetSession Sample.S1;
     Editor.SaveDraft
       (Sample.request "Morning Flow" (Js.JArr ["yoga"]) "https://example.com/y.json"
          (Some Sample.S1))].
Proof. vm_compute. done. Qed.

(** The scenario of a first save followed by two publish requests: the
    draft gets an id, the first publish publishes it, the second succeeds
    as well. *)
Example create_then_publish_twice :
  let r1 := Routes.post_save_draft Sample.url_like
              (Sample.request "Morning Flow" (Js.JArr []) "https://example.com/y.json"
                 None) Sample.alice 1 ∅ in
  let r2 := Routes.post_publish (Some 1%positive) Sample.alice 2 r1.2 in
  let r3 := Routes.post_publish (Some 1%positive) Sample.alice 3 r2.2 in
  outcome r1.1 = Success /\
  status <$> r1.2 !! 1%positive = Some draft /\
  outcome r2.1 = Success /\
  status <$> r2.2 !! 1%positive = Some published /\
  outcome r3.1 = Success /\
  status <$> r3.2 !! 1%positive = Some published /\
  size r3.2 = 1%nat.
Proof. vm_compute. done. Qed.

(** * More of the code *)

(** ** The listings *)

Global Instance descending_transitive key : Transitive (Lists.descending key).
Proof. intros a b c. unfold Lists.descending. lia. Qed.

Global Instance descending_total key : Total (Lists.descending key).
Proof. intros a b. unfold Lists.descending. lia. Qed.

Lemma find_spec f coll d :
  d ∈ Lists.find f coll <-> f d = true /\ exists id, coll !! id = Some d.
Proof.
  unfold Lists.find. rewrite list_elem_of_In, filter_In, <- list_elem_of_In.
  rewrite list_elem_of_fmap. split.
  - intros [([id d'] & -> & Hin%elem_of_map_to_list) Hf]. eauto.
  - intros [Hf [id Hd]]. split; [|done].
    exists (id, d). split; [done|]. by apply elem_of_map_to_list.
Qed.

Lemma sort_descending_spec key l :
  Lists.sort_descending key l ≡ₚ l /\
  StronglySorted (Lists.descending key) (Lists.sort_descending key l).
Proof.
  split; [apply merge_sort_Permutation | apply StronglySorted_merge_sort; apply _].
Qed.

Lemma session_populate users (l : list Session) :
  Lists.session <$> (Lists.populate users <$> l) = l.
Proof. induction l as [|x l IH]; csimpl; [done|]. by rewrite IH. Qed.

Lemma elem_of_public_listing users coll d :
  d ∈ Lists.session <$> Lists.getPublishedSessions users coll <->
  status d = published /\ exists id, coll !! id = Some d.
Proof.
  unfold Lists.getPublishedSessions. rewrite session_populate.
  destruct (sort_descending_spec created_at
              (Lists.find (fun d => bool_decide (status d = published)) coll))
    as [Hperm _].
  by rewrite Hperm, find_spec, bool_decide_eq_true.
Qed.

Lemma elem_of_own_listing user coll d :
  d ∈ Lists.getUserSessions user coll <->
  user_id d = user /\ exists id, coll !! id = Some d.
Proof.
  unfold Lists.getUserSessions.
  destruct (sort_descending_spec updated_at
              (Lists.find (fun d => bool_decide (user_id d = user)) coll))
    as [Hperm _].
  by rewrite Hperm, find_spec, bool_decide_eq_true.
Qed.

(** X1. The public listing holds exactly the stored documents that are
    published, each as often as it is stored, newest creation first, and
    each with the e-mail of its owner when that user is stored.  A draft is
    never in it, whoever asks. *)
Theorem public_listing_is_the_published_sessions users coll :
  let listed := Lists.session <$> Lists.getPublishedSessions users coll in
  (forall d, d ∈ listed <->
     status d = published /\ exists id, coll !! id = Some d) /\
  listed ≡ₚ Lists.find (fun d => bool_decide (status d = published)) coll /\
  StronglySorted (fun a b => created_at b <= created_at a) listed /\
  (forall p, p ∈ Lists.getPublishedSessions users coll ->
     Lists.author_email p =
       Users.email <$> users !! user_id (Lists.session p)).
Proof.
  intros listed. subst listed. unfold Lists.getPublishedSessions.
  rewrite session_populate.
  destruct (sort_descending_spec created_at
              (Lists.find (fun d => bool_decide (status d = published)) coll))
    as [Hperm Hsorted].
  split; [|split; [done|split; [done|]]].
  - intros d. by rewrite Hperm, find_spec, bool_decide_eq_true.
  - intros p (d & -> & _)%list_elem_of_fmap. done.
Qed.

(** X2. A user's own listing holds exactly the stored documents that user
    owns, drafts and published alike, each as often as it is stored, most
    recently updated first; no document of another owner is in it. *)
Theorem own_listing_is_the_callers_sessions user coll :
  let listed := Lists.getUserSessions user coll in
  (forall d, d ∈ listed <->
     user_id d = user /\ exists id, coll !! id = Some d) /\
  listed ≡ₚ Lists.find (fun d => bool_decide (user_id d = user)) coll /\
  StronglySorted (fun a b => updated_at b <= updated_at a) listed.
Proof.
  intros listed. subst listed. unfold Lists.getUserSessions.
  destruct (sort_descending_spec updated_at
              (Lists.find (fun d => bool_decide (user_id d = user)) coll))
    as [Hperm Hsorted].
  split; [|split; done].
  intros d. by rewrite Hperm, find_spec, bool_decide_eq_true.
Qed.

(** ** Writes, then reads *)

Section Writes.
Variable isURL : string -> bool.

(** The three ways a save-draft call can end. *)
Lemma save_draft_cases body identity now coll :
  let r := Routes.post_save_draft isURL body identity now coll in
  (r.2 = coll /\ outcome r.1 <> Success) \/
  (exists id d0,
     sessionId body = Some id /\ coll !! id = Some d0 /\
     user_id d0 = identity /\ Api.accepted isURL body = true /\
     Api.tags_within_bound body = true /\
     r = (Json "Draft saved successfully" (Api.revised body now d0),
          <[id := Api.revised body now d0]> coll)) \/
  (exists d,
     sessionId body = None /\ Api.accepted isURL body = true /\
     Api.tags_within_bound body = true /\
     d = {| _id := fresh (dom coll); user_id := identity;
            Model.title := Js.trim (title body);
            Model.tags := Api.stored_tags body;
            Model.json_file_url := Js.trim (json_file_url body);
            status := draft; created_at := now; updated_at := now |} /\
     r = (Json "Draft saved successfully" d, <[fresh (dom coll) := d]> coll)).
Proof.
  intros r. subst r. destruct (Api.accepted isURL body) eqn:Hacc.
  - destruct (sessionId body) as [id|] eqn:Hid.
    + rewrite (accepted_update _ _ _ _ _ id Hacc Hid).
      destruct (Api.tags_within_bound body) eqn:Htags; [|by left].
      destruct (coll !! id) as [d0|] eqn:Hd; [|by left].
      destruct (decide (user_id d0 = identity)); [|by left].
      right; left. by exists id, d0.
    + rewrite (created _ _ _ _ _ Hacc Hid).
      destruct (Api.tags_within_bound body) eqn:Htags; [|by left].
      right; right. eexists. done.
  - rewrite rejected by done. by left.
Qed.

Lemma fresh_is_new (coll : Collection) : coll !! fresh (dom coll) = None.
Proof. apply not_elem_of_dom, is_fresh. Qed.

(** X3. A save-draft without a session id that passes validation stores
    one new document and answers with it: under an id no document had, as a
    draft owned by the caller, created and updated at the time of the call,
    with the trimmed fields of the request.  Every other document is left
    as it was. *)
Theorem first_save_creates_one_draft body identity now coll :
  sessionId body = None ->
  Api.accepted isURL body = true ->
  Api.tags_within_bound body = true ->
  exists d coll',
    Routes.post_save_draft isURL body identity now coll =
      (Json "Draft saved successfully" d, coll') /\
    coll !! _id d = None /\
    coll' !! _id d = Some d /\
    (forall j, j <> _id d -> coll' !! j = coll !! j) /\
    size coll' = S (size coll) /\
    user_id d = identity /\
    status d = draft /\
    created_at d = now /\
    updated_at d = now /\
    Model.title d = Js.trim (title body) /\
    Model.tags d = Api.stored_tags body /\
    Model.json_file_url d = Js.trim (json_file_url body).
Proof.
  intros Hid Hacc Htags. rewrite (created _ _ _ _ _ Hacc Hid), Htags.
  eexists _, _. split; [reflexivity|]. cbn [_id].
  split; [apply fresh_is_new|]. split; [apply lookup_insert_eq|].
  split; [intros j Hj; by rewrite lookup_insert_ne|].
  split; [apply map_size_insert_None, fresh_is_new|]. done.
Qed.

(** Counting the save-draft calls that carry no session id. *)
Lemma perform_dom c coll :
  let coll' := (Api.perform isURL c coll).2 in
  dom coll' = dom coll \/
  (exists body identity now,
     c = Api.save_draft body identity now /\ sessionId body = None /\
     dom coll' = {[fresh (dom coll)]} ∪ dom coll).
Proof.
  intros coll'. subst coll'.
  destruct c as [body identity now | sid identity now]; cbn [Api.perform].
  - destruct (save_draft_cases body identity now coll)
      as [[-> _] | [(id & d0 & Hid & Hd & _ & _ & _ & ->)
                   | (d & Hid & _ & _ & _ & ->)]].
    + by left.
    + left. cbn. apply dom_insert_lookup_L. eauto.
    + right. exists body, identity, now. cbn. by rewrite dom_insert_L.
  - left. destruct sid as [id|]; [|done]. rewrite publish_result.
    destruct (coll !! id) as [d|] eqn:Hd; [|done].
    destruct (decide (user_id d = identity)); [|done].
    cbn. apply dom_insert_lookup_L. eauto.
Qed.

End Writes.

Section Invariants.
Variable isURL : string -> bool.

(** X4. No sequence of save-draft and publish calls removes a document,
    and the collection grows by at most one document for every save-draft
    call that carries no session id. *)
Theorem documents_only_accumulate cs : forall coll,
  dom coll ⊆ dom (Api.perform_all isURL cs coll) /\
  (size (Api.perform_all isURL cs coll) <=
     size coll + List.length (List.filter Store.is_first_save cs))%nat.
Proof.
  induction cs as [|c cs IH]; intros coll; [split; [done|simpl; lia]|].
  change (Api.perform_all isURL (c :: cs) coll)
    with (Api.perform_all isURL cs (Api.perform isURL c coll).2).
  destruct (IH (Api.perform isURL c coll).2) as [Hdom Hsize].
  destruct (perform_dom isURL c coll)
    as [Hsame | (body & identity & now & -> & Hid & Hnew)].
  - assert (size (Api.perform isURL c coll).2 = size coll) as Hsz.
    { apply (f_equal size) in Hsame. by rewrite !size_dom in Hsame. }
    split; [by rewrite <- Hdom, Hsame|].
    cbn [List.filter].
    destruct (Store.is_first_save c); cbn [Datatypes.length]; lia.
  - assert (size (Api.perform isURL (Api.save_draft body identity now) coll).2
            = S (size coll)) as Hsz.
    { apply (f_equal size) in Hnew.
      rewrite size_union, size_singleton, !size_dom in Hnew; [done|].
      apply disjoint_singleton_l, is_fresh. }
    split.
    + etrans; [|exact Hdom]. rewrite Hnew. apply union_subseteq_r.
    + cbn [List.filter Store.is_first_save].
      rewrite bool_decide_eq_true_2 by done. cbn [Datatypes.length]. lia.
Qed.

(** X5. Through any sequence of save-draft and publish calls a stored
    document stays stored under its id and keeps its [_id], its owner and
    its creation time. *)
Theorem documents_keep_owner_and_creation cs : forall coll id d,
  coll !! id = Some d ->
  exists d',
    Api.perform_all isURL cs coll !! id = Some d' /\
    _id d' = _id d /\
    user_id d' = user_id d /\
    created_at d' = created_at d.
Proof.
  induction cs as [|c cs IH]; intros coll id d Hd; [by exists d|].
  destruct (perform_keeps isURL c coll id d Hd) as (d1 & H1 & Hu & Hc & Hi & _).
  destruct (IH _ _ _ H1) as (d2 & H2 & Hi2 & Hu2 & Hc2).
  exists d2. simpl. repeat split; try done; congruence.
Qed.

Lemma forallb_Forall_le (l : list string) :
  forallb (fun t => Js.length t <=? 50) l = true ->
  Forall (fun t => Js.length t <= 50) l.
Proof.
  rewrite forallb_forall, Forall_forall. intros H t Ht.
  apply Z.leb_le, H. by apply list_elem_of_In.
Qed.

Lemma stored_tags_trimmed body :
  Forall (fun t => Js.trim t = t) (Api.stored_tags body).
Proof.
  unfold Api.stored_tags, set_tags. apply Forall_fmap, Forall_forall.
  intros t _. simpl. apply trim_idemp.
Qed.

Lemma written_fields_well_formed body :
  Api.accepted isURL body = true ->
  Api.tags_within_bound body = true ->
  1 <= Js.length (Js.trim (title body)) <= 200 /\
  Forall (fun t => Js.length t <= 50) (Api.stored_tags body) /\
  Js.is_empty (Js.trim (json_file_url body)) = false /\
  isURL (Js.trim (json_file_url body)) = true /\
  Js.trim (Js.trim (title body)) = Js.trim (title body) /\
  Forall (fun t => Js.trim t = t) (Api.stored_tags body) /\
  Js.trim (Js.trim (json_file_url body)) = Js.trim (json_file_url body).
Proof.
  intros Hacc Htags. destruct (accepted_inv _ _ Hacc) as (Ht & Hu & Hurl & _).
  repeat split; try done; try lia; try apply trim_idemp.
  - by apply forallb_Forall_le.
  - apply stored_tags_trimmed.
Qed.

Lemma perform_well_formed c coll :
  Store.all_well_formed isURL coll ->
  Store.all_well_formed isURL (Api.perform isURL c coll).2.
Proof.
  intros Hall j dj.
  destruct c as [body identity now | sid identity now]; cbn [Api.perform].
  - destruct (save_draft_cases isURL body identity now coll)
      as [[-> _] | [(id & d0 & Hid & Hd & _ & Hacc & Htags & ->)
                   | (d & Hid & Hacc & Htags & -> & ->)]]; [apply Hall|..].
    + cbn [snd]. destruct (decide (id = j)) as [->|Hne].
      * rewrite lookup_insert_eq. intros [= <-].
        destruct (Hall _ _ Hd) as (Hkey & _).
        split; [done|]. by apply written_fields_well_formed.
      * rewrite lookup_insert_ne by done. apply Hall.
    + cbn [snd]. destruct (decide (fresh (dom coll) = j)) as [<-|Hne].
      * rewrite lookup_insert_eq. intros [= <-].
        split; [done|]. by apply written_fields_well_formed.
      * rewrite lookup_insert_ne by done. apply Hall.
  - destruct sid as [id|]; [|apply Hall]. rewrite publish_result.
    destruct (coll !! id) as [d|] eqn:Hd; [|apply Hall].
    destruct (decide (user_id d = identity)); [|apply Hall].
    cbn [snd]. destruct (decide (id = j)) as [->|Hne].
    + rewrite lookup_insert_eq. intros [= <-]. apply (Hall _ _ Hd).
    + rewrite lookup_insert_ne by done. apply Hall.
Qed.

(** X6. If every stored document is well formed (stored under its own id,
    trimmed title of 1 to 200 characters, trimmed tags of at most 50, a
    trimmed, non-empty URL the validator accepts), then so is every stored
    document after any sequence of save-draft and publish calls. *)
Theorem stored_documents_stay_well_formed cs : forall coll,
  Store.all_well_formed isURL coll ->
  Store.all_well_formed isURL (Api.perform_all isURL cs coll).
Proof.
  induction cs as [|c cs IH]; intros coll Hall; [done|].
  simpl. by apply IH, perform_well_formed.
Qed.

Lemma perform_timestamps c t coll :
  Store.timestamps_ordered t coll ->
  t <= Store.call_time c ->
  Store.timestamps_ordered (Store.call_time c) (Api.perform isURL c coll).2.
Proof.
  intros Hall Ht j dj.
  assert (forall d, coll !! j = Some d ->
            created_at d <= updated_at d /\
            updated_at d <= Store.call_time c) as Hold.
  { intros d Hd. destruct (Hall _ _ Hd). lia. }
  destruct c as [body identity now | sid identity now];
    cbn [Api.perform Store.call_time] in *.
  - destruct (save_draft_cases isURL body identity now coll)
      as [[-> _] | [(id & d0 & Hid & Hd & _ & Hacc & Htags & ->)
                   | (d & Hid & Hacc & Htags & -> & ->)]]; [apply Hold|..].
    + cbn [snd]. destruct (decide (id = j)) as [->|Hne].
      * rewrite lookup_insert_eq. intros [= <-]. cbn.
        destruct (Hall _ _ Hd). lia.
      * rewrite lookup_insert_ne by done. apply Hold.
    + cbn [snd]. destruct (decide (fresh (dom coll) = j)) as [<-|Hne].
      * rewrite lookup_insert_eq. intros [= <-]. cbn. lia.
      * rewrite lookup_insert_ne by done. apply Hold.
  - destruct sid as [id|]; [|apply Hold]. rewrite publish_result.
    destruct (coll !! id) as [d|] eqn:Hd; [|apply Hold].
    destruct (decide (user_id d = identity)); [|apply Hold].
    cbn [snd]. destruct (decide (id = j)) as [->|Hne].
    + rewrite lookup_insert_eq. intros [= <-]. cbn.
      destruct (Hall _ _ Hd). lia.
    + rewrite lookup_insert_ne by done. apply Hold.
Qed.

Lemma perform_all_timestamps cs : forall t coll,
  Store.timestamps_ordered t coll ->
  Store.chronological t cs ->
  exists t', Store.timestamps_ordered t' (Api.perform_all isURL cs coll).
Proof.
  induction cs as [|c cs IH]; intros t coll Hall Hcs; [by exists t|].
  destruct Hcs as [Ht Hcs]. simpl.
  apply (IH (Store.call_time c)); [by apply (perform_timestamps c t)|done].
Qed.

(** X7. When the calls are made in the order of their clock readings, and
    no document is dated after the first of them, no document is ever
    updated before it was created. *)
Theorem updated_never_before_created cs t coll :
  Store.timestamps_ordered t coll ->
  Store.chronological t cs ->
  forall id d,
    Api.perform_all isURL cs coll !! id = Some d ->
    created_at d <= updated_at d.
Proof.
  intros Hall Hcs id d Hd.
  destruct (perform_all_timestamps cs t coll Hall Hcs) as [t' H'].
  by destruct (H' _ _ Hd).
Qed.

End Invariants.

Section Reads.
Variable isURL : string -> bool.

(** X8. Publishing a stored document as its owner, draft or not, succeeds:
    the document is stored as published with the time of the call as its
    update time, and with its title, tags, URL, owner, id and creation time
    as they were. *)
Theorem publish_by_owner_publishes id identity now coll d :
  coll !! id = Some d ->
  user_id d = identity ->
  exists d',
    Routes.post_publish (Some id) identity now coll =
      (Json "Session published successfully" d', <[id := d']> coll) /\
    status d' = published /\
    updated_at d' = now /\
    Api.content d' = Api.content d /\
    created_at d' = created_at d /\
    _id d' = _id d.
Proof.
  intros Hd Hu. rewrite publish_result, Hd.
  destruct (decide (user_id d = identity)); [|done].
  eexists. split; [reflexivity|]. done.
Qed.

(** X9. A publish call never adds or removes a document and never changes
    a title, tags, URL or owner; it leaves every document other than the
    one it names exactly as it was, leaves the whole collection as it was
    when it does not succeed, and answers 400 when it names no session. *)
Theorem publish_touches_one_document sid identity now coll :
  let r := Routes.post_publish sid identity now coll in
  dom r.2 = dom coll /\
  (outcome r.1 <> Success -> r.2 = coll) /\
  (sid = None -> r.1 = Status400 "Session ID is required" []) /\
  (forall j d, coll !! j = Some d ->
     exists d', r.2 !! j = Some d' /\
                Api.content d' = Api.content d /\
                (sid <> Some j -> d' = d)).
Proof.
  intros r. subst r. destruct sid as [id|].
  - rewrite publish_result. destruct (coll !! id) as [d0|] eqn:Hd.
    + destruct (decide (user_id d0 = identity)).
      * cbn [fst snd]. split; [apply dom_insert_lookup_L; eauto|].
        split; [done|]. split; [done|]. intros j d Hj.
        destruct (decide (id = j)) as [->|Hne].
        -- simplify_eq. eexists. rewrite lookup_insert_eq.
           split; [done|]. split; [done|]. congruence.
        -- exists d. by rewrite lookup_insert_ne.
      * cbn. repeat split; try done. intros j d Hj. by exists d.
    + cbn. repeat split; try done. intros j d Hj. by exists d.
  - cbn. repeat split; try done. intros j d Hj. by exists d.
Qed.

Lemma perform_coherent c coll :
  Store.coherent coll -> Store.coherent (Api.perform isURL c coll).2.
Proof.
  intros Hall j dj Hj.
  destruct c as [body identity now | sid identity now]; cbn [Api.perform] in Hj.
  - destruct (save_draft_cases isURL body identity now coll)
      as [[Heq _] | [(id & d0 & Hid & Hd & _ & Hacc & Htags & Heq)
                    | (d & Hid & Hacc & Htags & -> & Heq)]];
      rewrite Heq in Hj; [by apply Hall|..]; cbn [snd] in Hj.
    + destruct (decide (id = j)) as [->|Hne].
      * rewrite lookup_insert_eq in Hj. simplify_eq. cbn. by apply Hall.
      * rewrite lookup_insert_ne in Hj by done. by apply Hall.
    + destruct (decide (fresh (dom coll) = j)) as [<-|Hne].
      * rewrite lookup_insert_eq in Hj. by simplify_eq.
      * rewrite lookup_insert_ne in Hj by done. by apply Hall.
  - destruct sid as [id|]; [|by apply Hall]. rewrite publish_result in Hj.
    destruct (coll !! id) as [d|] eqn:Hd; [|by apply Hall].
    destruct (decide (user_id d = identity)); [|by apply Hall].
    cbn [snd] in Hj. destruct (decide (id = j)) as [->|Hne].
    + rewrite lookup_insert_eq in Hj. simplify_eq. cbn. by apply Hall.
    + rewrite lookup_insert_ne in Hj by done. by apply Hall.
Qed.

(** X10. In a collection whose documents are stored under their own ids,
    the session a successful save-draft or publish answers with is the one
    [getSessionById] then returns to the same caller under that session's
    id; and the collection stays that way. *)
Theorem written_session_is_read_back c coll message d coll' :
  Store.coherent coll ->
  Api.perform isURL c coll = (Json message d, coll') ->
  Controller.getSessionById (_id d) (Store.caller c) coll' = Json "" d /\
  Store.coherent coll'.
Proof.
  intros Hall Hc.
  split; [|replace coll' with (Api.perform isURL c coll).2
             by (by rewrite Hc); by apply perform_coherent].
  unfold Controller.getSessionById, findOne.
  destruct c as [body identity now | sid identity now];
    cbn [Api.perform Store.caller] in *.
  - destruct (save_draft_cases isURL body identity now coll)
      as [[_ Hfail] | [(id & d0 & Hid & Hd & Hu & _ & _ & Heq)
                      | (d1 & Hid & _ & _ & -> & Heq)]].
    + rewrite Hc in Hfail. by destruct Hfail.
    + rewrite Heq in Hc. simplify_eq. cbn [Api.revised _id user_id].
      pose proof (Hall _ _ Hd) as Hkey. cbn beta in Hkey.
      rewrite Hkey, lookup_insert_eq. cbn [user_id].
      by rewrite decide_True.
    + rewrite Heq in Hc. simplify_eq. cbn [_id].
      rewrite lookup_insert_eq. cbn [user_id]. by rewrite decide_True.
  - destruct sid as [id|]; [|done]. rewrite publish_result in Hc.
    destruct (coll !! id) as [d0|] eqn:Hd; [|done].
    destruct (decide (user_id d0 = identity)) as [Hu|]; [|done].
    cbn zeta in Hc. simplify_eq. cbn [_id user_id].
    pose proof (Hall _ _ Hd) as Hkey. cbn beta in Hkey.
    rewrite Hkey, lookup_insert_eq. cbn [user_id].
    by rewrite decide_True.
Qed.

(** X11. To an identity that does not own it a stored document does not
    exist: [getSessionById] answers 404, exactly as for an id no document
    has, and the document is not in that identity's own listing.  Its owner
    gets the document itself. *)
Theorem reads_are_owner_scoped id identity coll d :
  coll !! id = Some d ->
  identity <> user_id d ->
  Controller.getSessionById id identity coll = Status404 "Session not found" /\
  (forall id', coll !! id' = None ->
     Controller.getSessionById id' identity coll =
     Controller.getSessionById id identity coll) /\
  (d ∉ Lists.getUserSessions identity coll) /\
  Controller.getSessionById id (user_id d) coll = Json "" d.
Proof.
  intros Hd Hne. unfold Controller.getSessionById, findOne. rewrite Hd.
  rewrite decide_False by done. rewrite decide_True by done.
  split; [done|]. split; [by intros id' ->|]. split; [|done].
  intros [Hu _]%elem_of_own_listing. done.
Qed.

(** X12. The draft a first save creates is in its owner's listing, in no
    other user's listing, and not in the public listing. *)
Theorem a_first_save_is_listed_to_its_owner_only
    users body identity now coll message d coll' :
  sessionId body = None ->
  Routes.post_save_draft isURL body identity now coll =
    (Json message d, coll') ->
  d ∈ Lists.getUserSessions identity coll' /\
  (d ∉ Lists.session <$> Lists.getPublishedSessions users coll') /\
  (forall other, other <> identity ->
     d ∉ Lists.getUserSessions other coll').
Proof.
  intros Hid Hr.
  destruct (save_draft_cases isURL body identity now coll)
    as [[_ Hfail] | [(id & d0 & Hid' & _) | (d1 & _ & _ & _ & -> & Heq)]].
  - rewrite Hr in Hfail. by destruct Hfail.
  - congruence.
  - rewrite Heq in Hr. simplify_eq. split; [|split].
    + apply elem_of_own_listing. split; [done|].
      eexists. apply lookup_insert_eq.
    + intros [Hs _]%elem_of_public_listing.
      cbn in Hs. discriminate.
    + intros other Hne [Hu _]%elem_of_own_listing.
      cbn in Hu. congruence.
Qed.

(** X13. The session a successful publish answers with is in the public
    listing and in the caller's own listing. *)
Theorem a_published_session_is_listed_publicly
    users sid identity now coll message d coll' :
  Routes.post_publish sid identity now coll = (Json message d, coll') ->
  d ∈ Lists.session <$> Lists.getPublishedSessions users coll' /\
  d ∈ Lists.getUserSessions identity coll'.
Proof.
  intros Hr. destruct sid as [id|]; [|done]. rewrite publish_result in Hr.
  destruct (coll !! id) as [d0|] eqn:Hd; [|done].
  destruct (decide (user_id d0 = identity)) as [Hu|]; [|done].
  cbn zeta in Hr. simplify_eq. split.
  - apply elem_of_public_listing. split; [done|].
    eexists. apply lookup_insert_eq.
  - apply elem_of_own_listing. split; [done|].
    eexists. apply lookup_insert_eq.
Qed.

Lemma surrounding_white_space_is_ignored b1 b2 identity now coll :
  Js.trim (title b1) = Js.trim (title b2) ->
  Js.trim (json_file_url b1) = Js.trim (json_file_url b2) ->
  tags b1 = tags b2 ->
  sessionId b1 = sessionId b2 ->
  Routes.post_save_draft isURL b1 identity now coll =
  Routes.post_save_draft isURL b2 identity now coll.
Proof.
  intros Ht Hu Htags Hid. rewrite !post_save_draft_unfold.
  unfold Routes.sessionValidation. cbn [fst snd].
  by rewrite Ht, Hu, Htags, Hid.
Qed.

End Reads.

(** ** Splitting and joining tags *)

Lemma rev_app_rev_app x : forall c acc,
  String.rev_app (String.rev_app x c) acc = String.rev_app c (x +:+ acc).
Proof.
  induction x as [|a x IH]; intros c acc; [done|].
  cbn [String.rev_app]. by rewrite IH.
Qed.

Lemma append_empty_r (s : string) : s +:+ EmptyString = s.
Proof.
  induction s as [|a s IH]; [done|].
  change (String a (s +:+ EmptyString) = String a s). by rewrite IH.
Qed.

Lemma rev_rev_app_empty x : String.rev (String.rev_app x EmptyString) = x.
Proof.
  unfold String.rev. rewrite rev_app_rev_app. cbn. apply append_empty_r.
Qed.

Lemma split_go_segment sep x : forall cur rest,
  Text.mentions sep x = false ->
  Js.split_go sep cur (x +:+ rest) =
  Js.split_go sep (String.rev_app x cur) rest.
Proof.
  induction x as [|a x IH]; intros cur rest Hx; [done|].
  cbn in Hx. apply orb_false_elim in Hx as [Ha Hx].
  apply bool_decide_eq_false in Ha.
  change (String a x +:+ rest) with (String a (x +:+ rest)).
  cbn [Js.split_go String.rev_app].
  rewrite decide_False by done. by apply IH.
Qed.

Lemma split_go_last sep x cur :
  Text.mentions sep x = false ->
  Js.split_go sep cur x = [String.rev (String.rev_app x cur)].
Proof.
  intros Hx. rewrite <- (append_empty_r x) at 1.
  by rewrite split_go_segment.
Qed.

Lemma split_go_separator sep cur rest :
  Js.split_go sep cur (String sep rest) =
  String.rev cur :: Js.split_go sep EmptyString rest.
Proof. cbn [Js.split_go]. by rewrite decide_True. Qed.

Lemma join_cons_cons x y (l : list string) :
  Js.join ", " (x :: y :: l) = x +:+ ", " +:+ Js.join ", " (y :: l).
Proof. done. Qed.

Lemma join_leading_space y (l : list string) :
  String " " (Js.join ", " (y :: l)) = Js.join ", " (String " " y :: l).
Proof. destruct l; done. Qed.

Lemma split_join l : forall x cur,
  Text.mentions "," x = false ->
  Forall (fun t => Text.mentions "," t = false) l ->
  Js.split_go "," cur (Js.join ", " (x :: l)) =
  String.rev (String.rev_app x cur) :: (String " " <$> l).
Proof.
  induction l as [|y l IH]; intros x cur Hx Hl.
  - cbn [Js.join]. by apply split_go_last.
  - apply Forall_cons in Hl as [Hy Hl].
    rewrite join_cons_cons, split_go_segment by done.
    change (", " +:+ Js.join ", " (y :: l))
      with (String "," (String " " (Js.join ", " (y :: l)))).
    rewrite split_go_separator, join_leading_space, IH; [|done..].
    by rewrite rev_rev_app_empty.
Qed.

Lemma plain_tag_inv t :
  Text.plain_tag t = true ->
  Js.trim t = t /\ Js.is_empty t = false /\ Text.mentions "," t = false.
Proof.
  unfold Text.plain_tag. intros [[H1 H2]%andb_prop H3]%andb_prop.
  apply bool_decide_eq_true in H1. apply negb_true_iff in H2, H3. done.
Qed.

Lemma trim_leading_space t : Js.trim (String " " t) = Js.trim t.
Proof. done. Qed.

(** Tags shown in the form and read back from it are the tags stored. *)
Lemma tags_round_trip (l : list string) :
  forallb Text.plain_tag l = true ->
  List.filter (fun tag => negb (Js.is_empty tag))
    (Js.trim <$> Js.split "," (Js.join ", " l)) = l.
Proof.
  intros Hl. destruct l as [|x l]; [done|].
  cbn [forallb] in Hl. apply andb_prop in Hl as [Hx Hl].
  apply plain_tag_inv in Hx as (Hx1 & Hx2 & Hx3).
  unfold Js.split. rewrite split_join.
  - rewrite rev_rev_app_empty. csimpl. rewrite Hx1, Hx2. cbn [negb].
    f_equal. clear -Hl. induction l as [|y l IH]; [done|].
    cbn [forallb] in Hl. apply andb_prop in Hl as [Hy Hl].
    apply plain_tag_inv in Hy as (Hy1 & Hy2 & _).
    csimpl. rewrite trim_leading_space, Hy1, Hy2. cbn [negb].
    f_equal. by apply IH.
  - done.
  - apply Forall_forall. intros t Ht.
    rewrite forallb_forall in Hl.
    by apply plain_tag_inv, Hl, list_elem_of_In.
Qed.

Section Opening.
Variable isURL : string -> bool.
Variable user : ObjectId.

Import Editor.

(** What mounting the editor on one's own session leaves in its state. *)
Lemma mount_of_owned_session id d now w :
  sessions w !! id = Some d ->
  user_id d = user ->
  let w' := mount user (Some id) now w in
  formData (editor w') =
    {| title := Model.title d;
       tags := Js.join ", " (Model.tags d);
       json_file_url := Model.json_file_url d |} /\
  currentSessionId (editor w') = Some (_id d) /\
  requests w' = requests w ++ [GetSession id] /\
  sessions w' = sessions w /\
  lastSaved (editor w') = Some (updated_at d) /\
  initialLoad (editor w') = false.
Proof.
  intros Hd Hu w'. subst w'.
  unfold mount, Controller.getSessionById, findOne.
  cbn [sessions log]. rewrite Hd, decide_True by done.
  cbn [with_editor editor requests sessions].
  match goal with |- context [autosave_effect now ?s] =>
    destruct (autosave_effect_keeps now s) as (Hf & Hl & Hi);
    set (s' := autosave_effect now s) in * end.
  assert (lastSaved s' = Some (updated_at d)) as Hsaved.
  { subst s'. unfold autosave_effect. cbn.
    match goal with |- context [if ?c then _ else _] => destruct c end; done. }
  rewrite Hf, Hi, Hl. done.
Qed.

(** X14. Opening the editor on one's own session, whose title and URL are
    trimmed and whose tags are trimmed, non-empty and free of commas: what
    the form would send is exactly what is stored (the tags survive being
    joined with ", " and split again), under the stored id; one request was
    made and nothing was written. *)
Theorem opening_a_session_round_trips id d now w :
  sessions w !! id = Some d ->
  user_id d = user ->
  Js.trim (Model.title d) = Model.title d ->
  Js.trim (Model.json_file_url d) = Model.json_file_url d ->
  forallb Text.plain_tag (Model.tags d) = true ->
  let w' := mount user (Some id) now w in
  payload (formData (editor w')) (currentSessionId (editor w')) =
    {| Http.title := Model.title d;
       Http.tags := Js.JArr (Model.tags d);
       Http.json_file_url := Model.json_file_url d;
       Http.sessionId := Some (_id d) |} /\
  requests w' = requests w ++ [GetSession id] /\
  sessions w' = sessions w /\
  lastSaved (editor w') = Some (updated_at d) /\
  initialLoad (editor w') = false.
Proof.
  intros Hd Hu Ht Hurl Htags w'.
  destruct (mount_of_owned_session id d now w Hd Hu)
    as (Hform & Hid & Hrest).
  fold w' in Hform, Hid, Hrest. split; [|exact Hrest].
  rewrite Hform, Hid. unfold payload. cbn [title tags json_file_url].
  by rewrite Ht, Hurl, tags_round_trip.
Qed.

(** X15. Opening the editor on a session that does not exist or belongs
    to someone else leaves the page: the form is not filled, no id is
    remembered, no timeout is armed, and whatever time passes no further
    request is sent. *)
Theorem opening_a_foreign_session_loads_nothing id now w :
  (forall d, sessions w !! id = Some d -> user_id d <> user) ->
  let w' := mount user (Some id) now w in
  mounted (editor w') = false /\
  timeoutId (editor w') = None /\
  formData (editor w') = formData (editor w) /\
  currentSessionId (editor w') = currentSessionId (editor w) /\
  requests w' = requests w ++ [GetSession id] /\
  sessions w' = sessions w /\
  forall t, advance isURL user t w' = w'.
Proof.
  intros Hforeign w'. subst w'.
  unfold mount, Controller.getSessionById, findOne. cbn [sessions log].
  destruct (sessions w !! id) as [d|] eqn:Hd.
  - rewrite decide_False by (by apply Hforeign).
    repeat split; try done; intros t; by apply advance_not_due.
  - repeat split; try done; intros t; by apply advance_not_due.
Qed.

(** A save for a session whose id the editor knows, whatever is pending. *)
Lemma saveDraft_with_id id d now w :
  (no_title d || no_url d) = false ->
  currentSessionId (editor w) = Some id ->
  let r := Routes.post_save_draft isURL (payload d (Some id)) user now
             (sessions w) in
  let w' := saveDraft isURL user (Some id) d now w in
  requests w' = requests w ++ [SaveDraft (payload d (Some id))] /\
  sessions w' = r.2 /\
  timeoutId (editor w') = timeoutId (editor w) /\
  currentSessionId (editor w') = Some id /\
  formData (editor w') = formData (editor w) /\
  initialLoad (editor w') = initialLoad (editor w) /\
  saving (editor w') = false /\
  (outcome r.1 = Success ->
     hasUnsavedChanges (editor w') = false /\
     lastSaved (editor w') = Some now) /\
  (outcome r.1 <> Success ->
     hasUnsavedChanges (editor w') = hasUnsavedChanges (editor w) /\
     lastSaved (editor w') = lastSaved (editor w)).
Proof.
  intros Hfields Hid r w'. subst r w'. unfold saveDraft. rewrite Hfields.
  destruct (Routes.post_save_draft _ _ _ _ _) as [response coll].
  cbn [fst snd]. destruct response; cbn; rewrite ?Hid;
    (destruct (decide _) as [_|Hne]; [| by destruct Hne]);
    repeat split; done.
Qed.

(** X16. The Save-as-draft button, for a session whose id is known: with
    an empty title or URL it does nothing at all; otherwise it sends the
    form once, at once, and leaves the pending timeout alone.  When the
    server accepts, the form is marked saved at that time; when it does
    not, the unsaved mark and the last-saved time stay as they were. *)
Theorem manual_save_sends_the_form_at_once id now w :
  currentSessionId (editor w) = Some id ->
  let E := formData (editor w) in
  let r := Routes.post_save_draft isURL (payload E (Some id)) user now
             (sessions w) in
  let w' := handleSaveDraft isURL user now w in
  ((no_title E || no_url E) = true -> w' = w) /\
  ((no_title E || no_url E) = false ->
     requests w' = requests w ++ [SaveDraft (payload E (Some id))] /\
     sessions w' = r.2 /\
     timeoutId (editor w') = timeoutId (editor w) /\
     (outcome r.1 = Success ->
        hasUnsavedChanges (editor w') = false /\
        lastSaved (editor w') = Some now) /\
     (outcome r.1 <> Success ->
        hasUnsavedChanges (editor w') = hasUnsavedChanges (editor w) /\
        lastSaved (editor w') = lastSaved (editor w))).
Proof.
  intros Hid E r w'. subst E r w'. unfold handleSaveDraft. split.
  - by intros ->.
  - intros Hfields. rewrite Hfields, Hid.
    destruct (saveDraft_with_id id (formData (editor w)) now w Hfields Hid)
      as (H1 & H2 & H3 & _ & _ & _ & _ & H4 & H5).
    done.
Qed.

(** X17. A manual save does not cancel the pending auto-save: after an
    edit and a manual save within the quiet interval, the timeout of the
    edit still fires, and the same fields are sent a second time. *)
Theorem manual_save_does_not_cancel_the_autosave id t now w :
  settled (Some id) t (editor w) ->
  let E := formData (editor w) in
  no_title E = false ->
  no_url E = false ->
  t <= now < t + quiet_interval ->
  forall t',
    t + quiet_interval <= t' ->
    requests (advance isURL user t' (handleSaveDraft isURL user now w)) =
      requests w ++
        [SaveDraft (payload E (Some id)); SaveDraft (payload E (Some id))].
Proof.
  intros (Hload & Hid & Htm) E Htitle Hurl Hnow t' Ht'. subst E.
  rewrite Htitle in Htm. cbn [andb] in Htm.
  assert ((no_title (formData (editor w)) || no_url (formData (editor w)))
            = false) as Hfields by (by rewrite Htitle, Hurl).
  unfold handleSaveDraft. rewrite Hfields, Hid.
  destruct (saveDraft_with_id id (formData (editor w)) now w Hfields Hid)
    as (Hreq & _ & Htm' & Hid' & Hform & _).
  set (w1 := saveDraft isURL user (Some id) (formData (editor w)) now w) in *.
  rewrite Htm in Htm'.
  unfold advance, firings. rewrite Htm'. cbn [fires_at].
  pose proof (Z.div_pos (t' - (t + quiet_interval)) quiet_interval) as Hpos.
  unfold quiet_interval in Hpos at 2.
  destruct (Z.to_nat _) as [|n] eqn:Hn; [lia|].
  cbn [advance_fuel]. unfold due at 1. rewrite Htm'. cbn [fires_at].
  replace (t + quiet_interval <=? t') with true by lia.
  unfold fire. rewrite Htm'. cbn [closure_sessionId data fires_at].
  destruct (saveDraft_known_id isURL user id (formData (editor w))
              (t + quiet_interval)
              (with_editor (clearTimeout (editor w1)) w1))
    as (Hreq2 & Hnone & _); [done..|].
  rewrite advance_fuel_not_due by (by apply due_no_timeout).
  rewrite Hreq2. cbn [requests with_editor]. rewrite Hreq.
  by rewrite <- app_assoc.
Qed.

End Opening.

Section Sending.
Variable isURL : string -> bool.
Variable user : ObjectId.

Import Editor.

Lemma filter_trimmed_Forall (l : list string) :
  Forall (fun t => Js.trim t = t /\ Js.is_empty t = false)
    (List.filter (fun tag => negb (Js.is_empty tag)) (Js.trim <$> l)).
Proof.
  induction l as [|x l IH]; [constructor|]. csimpl.
  destruct (Js.is_empty (Js.trim x)) eqn:Hx; cbn [negb]; [done|].
  constructor; [|done]. split; [apply trim_idemp|done].
Qed.

(** X18. Whatever the form holds, the body the editor sends carries a
    trimmed title and URL and an array of tags that are trimmed and not
    empty, and the server stores those tags as they were sent. *)
Theorem payload_is_clean d sid :
  exists l,
    Http.tags (payload d sid) = Js.JArr l /\
    Forall (fun t => Js.trim t = t /\ Js.is_empty t = false) l /\
    Api.stored_tags (payload d sid) = l /\
    Js.trim (Http.title (payload d sid)) = Http.title (payload d sid) /\
    Js.trim (Http.json_file_url (payload d sid)) =
      Http.json_file_url (payload d sid) /\
    Http.sessionId (payload d sid) = sid.
Proof.
  eexists. split; [reflexivity|]. split; [apply filter_trimmed_Forall|].
  split; [|split; [apply trim_idemp|split; [apply trim_idemp|done]]].
  pose proof (stored_tags_payload d sid) as H. cbn [payload Http.tags] in H.
  by injection H as <-.
Qed.

Lemma saveDraft_new_session_stores d now w :
  Api.accepted isURL (payload d None) = true ->
  Api.tags_within_bound (payload d None) = true ->
  let w2 := saveDraft isURL user None d now w in
  let id := fresh (dom (sessions w)) in
  sessions w2 =
    <[id := {| _id := id; user_id := user;
               Model.title := Http.title (payload d None);
               Model.tags := Api.stored_tags (payload d None);
               Model.json_file_url := Http.json_file_url (payload d None);
               status := draft; created_at := now; updated_at := now |}]>
      (sessions w).
Proof.
  intros Hacc Htags w2 id. subst w2 id.
  pose proof (payload_accepted_fields isURL d None Hacc) as Hfields.
  unfold saveDraft. rewrite Hfields.
  rewrite (created isURL (payload d None) user now (sessions w) Hacc eq_refl).
  rewrite Htags. cbn [sessions]. f_equal. f_equal; apply trim_idemp.
Qed.

Lemma new_session_final_store w t1 name1 value1 es :
  initialLoad (editor w) = false ->
  currentSessionId (editor w) = None ->
  due t1 w = false ->
  within_quiet t1 es ->
  let w' := run isURL user (edit_events ((t1, name1, value1) :: es)) w in
  let E := formData (editor w') in
  let T := last_time t1 es in
  let id := fresh (dom (sessions w)) in
  Api.accepted isURL (payload E None) = true ->
  Api.tags_within_bound (payload E None) = true ->
  forall t,
    T + quiet_interval <= t ->
    exists d,
      sessions (advance isURL user t w') = <[id := d]> (sessions w) /\
      user_id d = user /\
      status d = draft /\
      created_at d = T + quiet_interval /\
      Model.title d = Http.title (payload E None) /\
      Js.JArr (Model.tags d) = Http.tags (payload E None) /\
      Model.json_file_url d = Http.json_file_url (payload E None).
Proof.
  intros Hload Hid Hdue Hq w' E T id Hacc Htags t Ht.
  subst E T id.
  pose proof (payload_accepted_fields isURL _ None Hacc) as Hfields.
  destruct (burst_settles isURL user None w t1 name1 value1 es
              Hload Hid Hdue Hq) as ((Hload' & Hid' & Htm) & Hr & Hc).
  fold w' in Hload', Hid', Htm, Hr, Hc.
  pose proof Hfields as Hfields'.
  apply orb_false_elim in Hfields as [Htitle Hurl].
  rewrite Htitle in Htm. cbn [andb] in Htm.
  set (E := formData (editor w')) in *.
  set (T := last_time t1 es) in *.
  set (id := fresh (dom (sessions w))) in *.
  unfold advance, firings. rewrite Htm. cbn [fires_at].
  pose proof (Z.div_pos (t - (T + quiet_interval)) quiet_interval) as Hpos.
  unfold quiet_interval in Hpos at 2.
  destruct (Z.to_nat _) as [|n] eqn:Hn; [lia|].
  cbn [advance_fuel]. unfold due at 1. rewrite Htm. cbn [fires_at].
  replace (T + quiet_interval <=? t) with true by lia.
  unfold fire at 1. rewrite Htm. cbn [closure_sessionId data fires_at].
  destruct (saveDraft_new_session isURL user E (T + quiet_interval)
              (with_editor (clearTimeout (editor w')) w'))
    as (_ & Hid2 & Htm2); [done..|].
  pose proof (saveDraft_new_session_stores E (T + quiet_interval)
                (with_editor (clearTimeout (editor w')) w') Hacc Htags)
    as Hstore.
  cbn [sessions with_editor] in Hid2, Htm2, Hstore.
  rewrite Hc in Hid2, Htm2, Hstore. fold id in Hid2, Htm2, Hstore.
  set (w2 := saveDraft isURL user None E (T + quiet_interval)
               (with_editor (clearTimeout (editor w')) w')) in *.
  set (d1 := {| _id := id; user_id := user;
                Model.title := Http.title (payload E None);
                Model.tags := Api.stored_tags (payload E None);
                Model.json_file_url := Http.json_file_url (payload E None);
                status := draft; created_at := T + quiet_interval;
                updated_at := T + quiet_interval |}) in *.
  assert (Js.JArr (Api.stored_tags (payload E None)) =
          Http.tags (payload E None)) as Hsent
    by (symmetry; apply stored_tags_payload).
  destruct n as [|m]; [|destruct (due t w2) eqn:Hdue2].
  - cbn [advance_fuel]. exists d1. by rewrite Hstore.
  - cbn [advance_fuel]. rewrite Hdue2.
    unfold fire. rewrite Htm2. cbn [closure_sessionId data fires_at].
    destruct (saveDraft_with_id isURL user id E
                (T + quiet_interval + quiet_interval)
                (with_editor (clearTimeout (editor w2)) w2))
      as (_ & Hsess & Htm3 & _); [done..|].
    cbn [sessions with_editor editor clearTimeout setTimeout timeoutId]
      in Hsess, Htm3.
    rewrite advance_fuel_not_due by (by apply due_no_timeout).
    rewrite Hsess, Hstore.
    rewrite (accepted_update isURL (payload E (Some id)) user _ _ id Hacc
               eq_refl).
    change (Api.tags_within_bound (payload E (Some id)))
      with (Api.tags_within_bound (payload E None)).
    rewrite Htags, lookup_insert_eq. cbn [d1 user_id].
    rewrite decide_True by done. cbn [snd].
    rewrite insert_insert_eq.
    eexists. split; [reflexivity|].
    cbn [Api.revised user_id status created_at Model.title Model.tags
         Model.json_file_url].
    repeat split; try done; apply trim_idemp.
  - cbn [advance_fuel]. rewrite Hdue2. exists d1. by rewrite Hstore.
Qed.

(** X19. A new session is created once: after a burst of edits whose last
    fields the server accepts, from the first auto-save on and however
    long one waits, the collection holds exactly one more document than
    before, a draft of the user with the fields of the last edit; the
    second auto-save updates that document. *)
Theorem a_new_session_is_created_once w t1 name1 value1 es :
  initialLoad (editor w) = false ->
  currentSessionId (editor w) = None ->
  due t1 w = false ->
  within_quiet t1 es ->
  let w' := run isURL user (edit_events ((t1, name1, value1) :: es)) w in
  let E := formData (editor w') in
  let T := last_time t1 es in
  let id := fresh (dom (sessions w)) in
  Api.accepted isURL (payload E None) = true ->
  Api.tags_within_bound (payload E None) = true ->
  forall t,
    T + quiet_interval <= t ->
    let final := sessions (advance isURL user t w') in
    dom final = {[id]} ∪ dom (sessions w) /\
    size final = S (size (sessions w)) /\
    (forall j, j <> id -> final !! j = sessions w !! j) /\
    exists d,
      final !! id = Some d /\
      user_id d = user /\
      status d = draft /\
      created_at d = T + quiet_interval /\
      Model.title d = Http.title (payload E None) /\
      Js.JArr (Model.tags d) = Http.tags (payload E None) /\
      Model.json_file_url d = Http.json_file_url (payload E None).
Proof.
  intros Hload Hid Hdue Hq w' E T id Hacc Htags t Ht final.
  destruct (new_session_final_store w t1 name1 value1 es Hload Hid Hdue Hq
              Hacc Htags t Ht) as (d & Hfinal & Hd).
  fold w' id in Hfinal. fold final in Hfinal. rewrite Hfinal.
  split; [by rewrite dom_insert_L|].
  split; [apply map_size_insert_None, fresh_is_new|].
  split; [intros j Hj; by rewrite lookup_insert_ne|].
  exists d. by rewrite lookup_insert_eq.
Qed.

End Sending.

Section Reopening.
Variable isURL : string -> bool.
Variable user : ObjectId.

Import Editor.

Lemma trim_fixed_all (l : list string) :
  Forall (fun t => Js.trim t = t) l -> Js.trim <$> l = l.
Proof.
  induction 1 as [|x l Hx _ IH]; [done|]. csimpl. by rewrite Hx, IH.
Qed.

Lemma Forall_forallb_le (l : list string) :
  Forall (fun t => Js.length t <= 50) l ->
  forallb (fun t => Js.length t <=? 50) l = true.
Proof.
  intros H. apply forallb_forall. intros t Ht%list_elem_of_In.
  rewrite Forall_forall in H. apply Z.leb_le. by apply H.
Qed.

(** The body a well-formed document turns into is one the server takes. *)
Lemma well_formed_body_accepted id d sid :
  Store.well_formed isURL id d ->
  let body := {| Http.title := Model.title d;
                 Http.tags := Js.JArr (Model.tags d);
                 Http.json_file_url := Model.json_file_url d;
                 Http.sessionId := sid |} in
  Api.accepted isURL body = true /\
  Api.tags_within_bound body = true /\
  Js.trim (Http.title body) = Model.title d /\
  Api.stored_tags body = Model.tags d /\
  Js.trim (Http.json_file_url body) = Model.json_file_url d.
Proof.
  intros (Hkey & Hlen & Hbound & Hurl & Hvalid & Ht & Htags & Hu) body.
  subst body.
  assert (Api.stored_tags
            {| Http.title := Model.title d;
               Http.tags := Js.JArr (Model.tags d);
               Http.json_file_url := Model.json_file_url d;
               Http.sessionId := sid |} = Model.tags d) as Hstored.
  { unfold Api.stored_tags. cbn. by apply trim_fixed_all. }
  split; [|split; [|done]].
  - apply bool_decide_eq_true. unfold Routes.sessionValidation.
    cbn [fst Http.title Http.json_file_url Http.tags Js.isArray].
    rewrite Ht, Hu, Hurl, Hvalid.
    replace (1 <=? Js.length (Model.title d)) with true by lia.
    replace (Js.length (Model.title d) <=? 200) with true by lia.
    done.
  - unfold Api.tags_within_bound. rewrite Hstored.
    by apply Forall_forallb_le.
Qed.

(** X20. Opening one's own well-formed session, with tags free of commas,
    and touching nothing: a quiet interval later the editor saves the
    stored fields back, and the document changes in its update time
    only. *)
Theorem opening_and_waiting_rewrites_the_same_fields id d now w :
  sessions w !! id = Some d ->
  user_id d = user ->
  Store.well_formed isURL id d ->
  forallb Text.plain_tag (Model.tags d) = true ->
  let w' := mount user (Some id) now w in
  let body := {| Http.title := Model.title d;
                 Http.tags := Js.JArr (Model.tags d);
                 Http.json_file_url := Model.json_file_url d;
                 Http.sessionId := Some id |} in
  forall t,
    now + quiet_interval <= t ->
    requests (advance isURL user t w') =
      requests w ++ [GetSession id; SaveDraft body] /\
    sessions (advance isURL user t w') =
      <[id := {| _id := _id d; user_id := user_id d;
                 Model.title := Model.title d; Model.tags := Model.tags d;
                 Model.json_file_url := Model.json_file_url d;
                 status := status d; created_at := created_at d;
                 updated_at := now + quiet_interval |}]> (sessions w).
Proof.
  intros Hd Hu Hwf Hplain w' body t Ht.
  pose proof Hwf as (Hkey & Hlen & _ & Hurl & _ & Htrim & _ & Hutrim).
  destruct (mount_of_owned_session user id d now w Hd Hu)
    as (Hform & Hsid & Hreq & Hsess & _ & Hload).
  fold w' in Hform, Hsid, Hreq, Hsess, Hload.
  assert (payload (formData (editor w')) (currentSessionId (editor w')) =
          {| Http.title := Model.title d;
             Http.tags := Js.JArr (Model.tags d);
             Http.json_file_url := Model.json_file_url d;
             Http.sessionId := Some (_id d) |}) as Hpayload.
  { rewrite Hform, Hsid. unfold payload. cbn [title tags json_file_url].
    by rewrite Htrim, Hutrim, tags_round_trip. }
  destruct (well_formed_body_accepted id d (Some id) Hwf)
    as (Hacc & Hbound & Ht1 & Ht2 & Ht3).
  fold body in Hacc, Hbound, Ht1, Ht2, Ht3.
  rewrite Hkey in Hpayload. fold body in Hpayload.
  pose proof (payload_accepted_fields isURL (formData (editor w'))
                (currentSessionId (editor w'))) as Hfields.
  rewrite Hpayload in Hfields. specialize (Hfields Hacc).
  assert (currentSessionId (editor w') = Some id) as Hid.
  { apply (f_equal Http.sessionId) in Hpayload. exact Hpayload. }
  assert (timeoutId (editor w') =
          Some {| fires_at := now + quiet_interval;
                  data := formData (editor w');
                  closure_sessionId := Some id |}) as Htm.
  { subst w'. unfold mount, Controller.getSessionById, findOne in *.
    cbn [sessions log] in *. rewrite Hd, decide_True in * by done.
    cbn [with_editor editor] in *.
    match goal with |- context [autosave_effect now ?s] =>
      set (X := s) in * end.
    destruct (autosave_effect_keeps now X) as (Hf & _ & _).
    rewrite Hf in Hfields |- *. rewrite autosave_effect_timeout.
    apply orb_false_elim in Hfields as [-> _].
    subst X. cbn [initialLoad currentSessionId setInitialLoad setLoading
      setLastSaved setCurrentSessionId setFormData orb andb].
    by rewrite Hkey. }
  destruct (saveDraft_with_id isURL user id (formData (editor w'))
              (now + quiet_interval)
              (with_editor (clearTimeout (editor w')) w'))
    as (Hreq2 & Hsess2 & Htm2 & _); [done..|].
  cbn [sessions with_editor editor requests clearTimeout setTimeout
       timeoutId] in Hreq2, Hsess2, Htm2.
  assert (advance isURL user t w' =
          saveDraft isURL user (Some id) (formData (editor w'))
            (now + quiet_interval)
            (with_editor (clearTimeout (editor w')) w')) as ->.
  { unfold advance, firings. rewrite Htm. cbn [fires_at].
    pose proof (Z.div_pos (t - (now + quiet_interval)) quiet_interval)
      as Hpos.
    unfold quiet_interval in Hpos at 2.
    destruct (Z.to_nat _) as [|n] eqn:Hn; [lia|].
    cbn [advance_fuel]. unfold due at 1. rewrite Htm. cbn [fires_at].
    replace (now + quiet_interval <=? t) with true by lia.
    unfold fire. rewrite Htm. cbn [closure_sessionId data fires_at].
    by rewrite advance_fuel_not_due by (by apply due_no_timeout). }
  rewrite Hreq2, Hsess2, Hreq, Hsess. rewrite Hid in Hpayload.
  rewrite Hpayload. split; [by rewrite <- app_assoc|].
  rewrite (accepted_update isURL body user _ _ id Hacc eq_refl).
  rewrite Hbound, Hd, decide_True by done. cbn [snd].
  unfold Api.revised. by rewrite Ht1, Ht2, Ht3.
Qed.

End Reopening.

Section PublishingUnsaved.
Variable isURL : string -> bool.
Variable user : ObjectId.

Import Editor.

(** A save from the editor never publishes: a document that is published
    afterwards was stored, as it is, before. *)
Lemma saveDraft_publishes_nothing sid d now w :
  let w2 := saveDraft isURL user sid d now w in
  mounted (editor w2) = mounted (editor w) /\
  (sid = None ->
   forall id s, sessions w2 !! id = Some s -> status s = published ->
                sessions w !! id = Some s).
Proof.
  intros w2. subst w2. unfold saveDraft.
  destruct (no_title d || no_url d); [done|].
  pose proof (save_draft_cases isURL (payload d sid) user now (sessions w))
    as Hcases. cbn zeta in Hcases.
  destruct (Routes.post_save_draft isURL (payload d sid) user now (sessions w))
    as [response coll].
  cbn [editor sessions]. split.
  - destruct (decide _) as [|_].
    + by destruct response, sid.
    + unfold autosave_effect. cbn [initialLoad formData clearTimeout].
      destruct (_ || _); by destruct response, sid.
  - intros -> id s Hs Hpub. cbn [fst snd] in Hcases.
    destruct Hcases as [[-> _]|[(id0 & d0 & Hid & _)|(d1 & _ & _ & _ & -> & Hr)]];
      [done|done|].
    injection Hr as _ ->.
    destruct (decide (id = fresh (dom (sessions w)))) as [->|Hne].
    + rewrite lookup_insert_eq in Hs. by injection Hs as <-.
    + by rewrite lookup_insert_ne in Hs.
Qed.

(** X30. Pressing Publish while the editor knows no session id, as on a
    new session that was never saved, publishes nothing: after the flush,
    if the form has unsaved changes, the publish request carries no id
    although the flush may just have created the draft; the page is not
    left, and every document that is published afterwards was stored as it
    is before. *)
Theorem publish_without_an_id_publishes_nothing now w :
  currentSessionId (editor w) = None ->
  let E := formData (editor w) in
  no_title E = false ->
  no_url E = false ->
  let w' := handlePublish isURL user now w in
  requests w' =
    requests w ++
      (if hasUnsavedChanges (editor w) then [SaveDraft (payload E None)]
       else []) ++ [Publish None] /\
  mounted (editor w') = mounted (editor w) /\
  (forall id s, sessions w' !! id = Some s -> status s = published ->
                sessions w !! id = Some s).
Proof.
  intros Hid E Htitle Hurl w'. subst w' E. unfold handlePublish.
  rewrite Htitle, Hurl, Hid. cbn [orb].
  set (w1 := with_editor (setPublishing true (editor w)) w).
  set (w2 := if hasUnsavedChanges (editor w)
             then saveDraft isURL user None (formData (editor w)) now w1
             else w1).
  assert (mounted (editor w2) = mounted (editor w) /\
          (forall id s, sessions w2 !! id = Some s -> status s = published ->
                        sessions w !! id = Some s) /\
          requests w2 =
            requests w ++
              (if hasUnsavedChanges (editor w)
               then [SaveDraft (payload (formData (editor w)) None)]
               else [])) as (Hm & Hs & Hr).
  { subst w2. destruct (hasUnsavedChanges (editor w)).
    - destruct (saveDraft_publishes_nothing None (formData (editor w)) now w1)
        as [Hm Hs].
      split; [exact Hm|]. split; [exact (Hs eq_refl)|].
      unfold saveDraft. rewrite Htitle, Hurl. cbn [orb].
      by destruct (Routes.post_save_draft _ _ _ _ _).
    - split; [done|]. split; [done|]. cbn. by rewrite app_nil_r. }
  unfold Routes.post_publish, Controller.publishSession.
  cbn [editor sessions requests setPublishing mounted].
  split; [by rewrite Hr, <- app_assoc|]. split; done.
Qed.

End PublishingUnsaved.

(** ** The pages' filters *)

Section PageFacts.
Import Model.

Lemma prefix_append sub : forall b, String.prefix sub (sub +:+ b) = true.
Proof.
  induction sub as [|a sub IH]; intros b; [by destruct b|].
  change (String a sub +:+ b) with (String a (sub +:+ b)).
  cbn [String.prefix]. destruct (ascii_dec a a); [apply IH|done].
Qed.

Lemma includes_fragment a : forall sub b,
  Text.includes (a +:+ sub +:+ b) sub = true.
Proof.
  induction a as [|c a IH]; intros sub b.
  - change (EmptyString +:+ sub +:+ b) with (sub +:+ b).
    destruct (sub +:+ b) eqn:E; cbn [Text.includes];
      rewrite <- E, prefix_append; done.
  - change (String c a +:+ sub +:+ b) with (String c (a +:+ sub +:+ b)).
    cbn [Text.includes]. rewrite IH. apply orb_true_r.
Qed.

Lemma List_filter_sublist {A} (f : A -> bool) (l : list A) :
  sublist (List.filter f l) l.
Proof.
  induction l as [|x l IH]; [done|]. cbn.
  destruct (f x); [by apply sublist_skip | by apply sublist_cons].
Qed.

Lemma elem_of_List_filter {A} (f : A -> bool) (l : list A) x :
  x ∈ List.filter f l <-> x ∈ l /\ f x = true.
Proof. by rewrite !list_elem_of_In, filter_In. Qed.

Section Filters.
Variable toLowerCase : string -> string.

Lemma search_sublist term sessions :
  sublist (Pages.search toLowerCase term sessions) sessions.
Proof.
  unfold Pages.search. destruct (Js.is_empty term); [done|].
  apply List_filter_sublist.
Qed.

Lemma elem_of_search term sessions session :
  session ∈ Pages.search toLowerCase term sessions <->
  session ∈ sessions /\
  (Js.is_empty term = true \/ Pages.matches toLowerCase term session = true).
Proof.
  unfold Pages.search. destruct (Js.is_empty term).
  - split; [intros H; split; [exact H | by left] | by intros [H _]].
  - rewrite elem_of_List_filter. split.
    + intros [H1 H2]. split; [exact H1 | by right].
    + intros [H1 [H2|H2]]; [discriminate | by split].
Qed.

(** X21. The list My Sessions shows is a selection of the fetched sessions
    in their order: a session is shown exactly when it was fetched, the
    search term is empty or matches it, and the status filter is "all" or
    its status.  With the filters cleared the whole list is shown. *)
Theorem my_sessions_filter_selects sessions term statusFilter :
  let shown := Pages.mySessions_filtered toLowerCase sessions term
                 statusFilter in
  sublist shown sessions /\
  (List.length shown <= List.length sessions)%nat /\
  (forall session, session ∈ shown <->
     session ∈ sessions /\
     (Js.is_empty term = true \/
      Pages.matches toLowerCase term session = true) /\
     (statusFilter = Pages.all \/
      statusFilter = Pages.only (status session))) /\
  Pages.mySessions_filtered toLowerCase sessions "" Pages.all = sessions.
Proof.
  intros shown. subst shown.
  assert (sublist (Pages.mySessions_filtered toLowerCase sessions term
                     statusFilter) sessions) as Hsub.
  { unfold Pages.mySessions_filtered. destruct statusFilter as [|st].
    - apply search_sublist.
    - etrans; [apply List_filter_sublist | apply search_sublist]. }
  split; [done|]. split; [by apply sublist_length|]. split; [|done].
  intros session. unfold Pages.mySessions_filtered.
  destruct statusFilter as [|st].
  - rewrite elem_of_search. intuition (auto; congruence).
  - rewrite elem_of_List_filter, elem_of_search, bool_decide_eq_true.
    intuition (auto; congruence).
Qed.

(** A session whose lower-cased title, or one of whose lower-cased tags,
    has the lower-cased term inside it is shown. *)
Lemma matching_session_is_shown sessions session term a b :
  session ∈ sessions ->
  toLowerCase (title session) = a +:+ toLowerCase term +:+ b \/
  (exists tag, tag ∈ tags session /\
               toLowerCase tag = a +:+ toLowerCase term +:+ b) ->
  session ∈ Pages.mySessions_filtered toLowerCase sessions term Pages.all /\
  session ∈ Pages.mySessions_filtered toLowerCase sessions term
              (Pages.only (status session)) /\
  session ∈ Pages.dashboard_filtered toLowerCase sessions term "".
Proof.
  intros Hin Hfrag.
  assert (Pages.matches toLowerCase term session = true) as Hm.
  { unfold Pages.matches. destruct Hfrag as [-> | (tag & Htag & Hlow)].
    - by rewrite includes_fragment.
    - apply orb_true_iff. right. apply existsb_exists. exists tag.
      split; [by apply list_elem_of_In|]. by rewrite Hlow, includes_fragment. }
  assert (session ∈ Pages.search toLowerCase term sessions) as Hs.
  { apply elem_of_search. eauto. }
  unfold Pages.mySessions_filtered, Pages.dashboard_filtered. cbn.
  split; [done|]. split; [|done].
  apply elem_of_List_filter. split; [done|]. by apply bool_decide_eq_true.
Qed.

(** X23. With no search term, choosing a tag on the dashboard shows
    exactly the sessions that carry it; for a tag taken from the list of
    all tags there is at least one. *)
Theorem choosing_a_tag_shows_its_sessions sessions tag :
  Js.is_empty tag = false ->
  (forall session,
     session ∈ Pages.dashboard_filtered toLowerCase sessions "" tag <->
     session ∈ sessions /\ tag ∈ tags session) /\
  (tag ∈ Pages.allTags sessions ->
   Pages.dashboard_filtered toLowerCase sessions "" tag <> []).
Proof.
  intros Htag.
  assert (forall session,
            session ∈ Pages.dashboard_filtered toLowerCase sessions "" tag <->
            session ∈ sessions /\ tag ∈ tags session) as Hiff.
  { intros session. unfold Pages.dashboard_filtered. rewrite Htag.
    cbn [Pages.search Js.is_empty].
    by rewrite elem_of_List_filter, bool_decide_eq_true. }
  split; [done|]. intros Hin. unfold Pages.allTags in Hin.
  rewrite merge_sort_Permutation, elem_of_remove_dups in Hin.
  apply list_elem_of_In, in_flat_map in Hin as (session & Hs & Ht).
  intros Hnil.
  assert (session ∈ Pages.dashboard_filtered toLowerCase sessions "" tag)
    as Hshown by (apply Hiff; split; by apply list_elem_of_In).
  rewrite Hnil in Hshown. by apply not_elem_of_nil in Hshown.
Qed.

End Filters.

Lemma toLowerCase_app x y :
  Js.toLowerCase (x +:+ y) = Js.toLowerCase x +:+ Js.toLowerCase y.
Proof.
  induction x as [|c x IH]; [done|].
  change (String c x +:+ y) with (String c (x +:+ y)).
  cbn [Js.toLowerCase]. rewrite IH. done.
Qed.

(** X22. Searching for any fragment of a session's title, or of one of its
    tags, typed in any letter case, finds the session: when the title or a
    tag has [fragment] inside it and the search term is [fragment] up to
    the case of its letters, the session is shown on My Sessions with the
    status filter at "all" or at the session's status, and on the
    dashboard with no tag selected. *)
Theorem a_session_is_found_by_a_fragment sessions session term fragment a b :
  session ∈ sessions ->
  Js.toLowerCase term = Js.toLowerCase fragment ->
  title session = a +:+ fragment +:+ b \/
  (exists tag, tag ∈ tags session /\ tag = a +:+ fragment +:+ b) ->
  session ∈ Pages.mySessions_filtered Js.toLowerCase sessions term
              Pages.all /\
  session ∈ Pages.mySessions_filtered Js.toLowerCase sessions term
              (Pages.only (status session)) /\
  session ∈ Pages.dashboard_filtered Js.toLowerCase sessions term "".
Proof.
  intros Hin Hterm Hfrag.
  apply (matching_session_is_shown Js.toLowerCase sessions session term
           (Js.toLowerCase a) (Js.toLowerCase b) Hin).
  rewrite Hterm. destruct Hfrag as [Htitle | (tag & Htag & Heq)].
  - left. by rewrite Htitle, !toLowerCase_app.
  - right. exists tag. split; [done|]. by rewrite Heq, !toLowerCase_app.
Qed.

(** X24. The two counters of My Sessions add up to the number of
    sessions, and each is the length of the list shown under the matching
    status filter with no search term. *)
Theorem statistics_add_up sessions :
  (Pages.draftCount sessions + Pages.publishedCount sessions)%nat =
    List.length sessions /\
  forall toLowerCase,
    List.length
      (Pages.mySessions_filtered toLowerCase sessions "" (Pages.only draft)) =
      Pages.draftCount sessions /\
    List.length
      (Pages.mySessions_filtered toLowerCase sessions ""
         (Pages.only published)) = Pages.publishedCount sessions.
Proof.
  split; [|done]. unfold Pages.draftCount, Pages.publishedCount.
  induction sessions as [|s l IH]; [done|]. cbn [List.filter].
  destruct (status s); repeat case_bool_decide; try done;
    cbn [Datatypes.length]; lia.
Qed.

(** X25. The dashboard's list of tags has every tag of every session
    exactly once, and nothing else, in ascending order. *)
Theorem all_tags_are_sorted_and_unique sessions :
  NoDup (Pages.allTags sessions) /\
  StronglySorted String.le (Pages.allTags sessions) /\
  forall tag,
    tag ∈ Pages.allTags sessions <->
    exists session, session ∈ sessions /\ tag ∈ tags session.
Proof.
  unfold Pages.allTags. split; [|split].
  - rewrite merge_sort_Permutation. apply NoDup_remove_dups.
  - apply StronglySorted_merge_sort; apply _.
  - intros tag. rewrite merge_sort_Permutation, elem_of_remove_dups.
    rewrite list_elem_of_In, in_flat_map.
    split; intros (session & Hs & Ht); exists session;
      by rewrite ?list_elem_of_In in *.
Qed.

End PageFacts.

(** ** The auth provider *)

Section AuthFacts.
Variable User : Type.
Variable stringify : User -> string.
Variable parse : string -> Js.Completion (option User).

(** X26. What a successful sign-in stores is what a reload restores: the
    same user, token and Authorization header, provided the token and the
    encoded user are not empty and the user decodes from its encoding.
    After a logout a reload restores nothing. *)
Theorem sign_in_survives_a_reload newToken newUser s :
  Js.is_empty newToken = false ->
  Js.is_empty (stringify newUser) = false ->
  parse (stringify newUser) = Js.Returned (Some newUser) ->
  let s' := (Auth.login User stringify (Some (newToken, newUser)) s).2 in
  Auth.initialize User parse
    (Auth.page_load (Auth.stored_token s') (Auth.stored_user s')) =
  Js.Returned
    {| Auth.user := Some newUser; Auth.token := Some newToken;
       Auth.loading := false;
       Auth.stored_token := Some newToken;
       Auth.stored_user := Some (stringify newUser);
       Auth.authorization := Some (Auth.bearer newToken) |} /\
  Auth.initialize User parse
    (Auth.page_load (Auth.stored_token (Auth.logout s'))
       (Auth.stored_user (Auth.logout s'))) =
  Js.Returned
    {| Auth.user := None; Auth.token := None; Auth.loading := false;
       Auth.stored_token := None; Auth.stored_user := None;
       Auth.authorization := None |}.
Proof.
  intros Ht Hu Hparse s'. subst s'. split; [|done].
  unfold Auth.initialize. cbn. by rewrite Ht, Hu, Hparse.
Qed.

Lemma act_consistent s a :
  Auth.consistent s -> Auth.consistent (Auth.act User stringify s a).
Proof.
  intros Hs.
  assert (forall t u,
            Auth.consistent
              (Auth.signed_in User stringify (Some (t, u)) s).2) as Hin.
  { intros t u. split; [done|]. split; [eauto|].
    cbn. by intros ? [= <-]. }
  assert (Auth.consistent (Auth.logout s)) as Hout.
  { split; [done|]. split; [intros [? [=]]|]. by intros ? [=]. }
  destruct a as [[[t u]|] | [[t u]|] |]; cbn [Auth.act]; try done; apply Hin.
Qed.

(** X27. From a page load on, through any sequence of logins,
    registrations (failed or not) and logouts, the default Authorization
    header is "Bearer " followed by the token when there is one and absent
    when there is none; a user is known only when a token is; and the
    token is the stored one. *)
Theorem header_follows_the_token storedToken storedUser s actions :
  Auth.initialize User parse (Auth.page_load storedToken storedUser) =
    Js.Returned s ->
  Auth.consistent (foldl (Auth.act User stringify) s actions) /\
  Auth.loading (foldl (Auth.act User stringify) s actions) = false.
Proof.
  intros Hinit.
  assert (Auth.consistent s /\ Auth.loading s = false) as Hs.
  { assert (Auth.consistent (Auth.page_load (User:=User) storedToken storedUser))
      as (H1 & H2 & H3).
    { split; [done|]. split; [intros [? [=]]|]. by intros ? [=]. }
    unfold Auth.initialize in Hinit.
    cbn [Auth.stored_token Auth.stored_user Auth.page_load] in Hinit.
    destruct storedToken as [t|]; [destruct storedUser as [u|]|].
    - destruct (Auth.present (Some t) && Auth.present (Some u)).
      + destruct (parse u); [|done]. injection Hinit as <-.
        split; [|done]. split; [done|]. split; [eauto|].
        cbn. by intros ? [= <-].
      + injection Hinit as <-. done.
    - injection Hinit as <-. done.
    - injection Hinit as <-. done. }
  clear Hinit. revert s Hs.
  induction actions as [|a actions IH]; intros s [Hc Hl]; [done|].
  cbn [foldl]. apply IH. split; [by apply act_consistent|].
  destruct a as [[[t u]|] | [[t u]|] |]; done.
Qed.

End AuthFacts.

(** ** The further theorems at sample inputs *)

Lemma first_save_creates_one_draft_witness :
  let body := Sample.request "Evening Flow" (Js.JArr ["calm"])
                "https://example.com/z.json" None in
  Api.accepted Sample.url_like body = true /\
  Api.tags_within_bound body = true /\
  exists d coll',
    Routes.post_save_draft Sample.url_like body Sample.bob 7
      Sample.one_draft = (Json "Draft saved successfully" d, coll') /\
    Sample.one_draft !! _id d = None /\
    size coll' = 2%nat /\
    user_id d = Sample.bob /\
    status d = draft.
Proof.
  intros body. split; [reflexivity|]. split; [reflexivity|].
  destruct (first_save_creates_one_draft Sample.url_like body Sample.bob 7
              Sample.one_draft eq_refl eq_refl eq_refl)
    as (d & coll' & H1 & H2 & _ & _ & H3 & H4 & H5 & _).
  exists d, coll'. auto.
Defined.

Lemma sample_is_well_formed :
  Store.all_well_formed Sample.url_like Sample.one_draft.
Proof.
  intros id d Hd. unfold Sample.one_draft in Hd.
  apply lookup_singleton_Some in Hd as [<- <-].
  repeat split; try reflexivity; try discriminate;
    repeat constructor; discriminate.
Defined.

Lemma sample_timestamps : Store.timestamps_ordered 0 Sample.one_draft.
Proof.
  intros id d Hd. unfold Sample.one_draft in Hd.
  apply lookup_singleton_Some in Hd as [<- <-].
  split; discriminate.
Defined.

Lemma sample_coherent : Store.coherent Sample.one_draft.
Proof.
  intros id d Hd. unfold Sample.one_draft in Hd.
  by apply lookup_singleton_Some in Hd as [<- <-].
Defined.

Lemma documents_keep_owner_and_creation_witness :
  Sample.one_draft !! Sample.S1 = Some Sample.morning_flow /\
  exists d',
    Api.perform_all Sample.url_like
      [Api.save_draft
         (Sample.request "Evening Flow" (Js.JArr []) "https://example.com/z.json"
            (Some Sample.S1)) Sample.alice 20;
       Api.publish (Some Sample.S1) Sample.alice 30]
      Sample.one_draft !! Sample.S1 = Some d' /\
    _id d' = _id Sample.morning_flow /\
    user_id d' = user_id Sample.morning_flow /\
    created_at d' = created_at Sample.morning_flow.
Proof.
  split; [reflexivity|].
  apply (documents_keep_owner_and_creation Sample.url_like). reflexivity.
Defined.

Lemma stored_documents_stay_well_formed_witness :
  Store.all_well_formed Sample.url_like Sample.one_draft /\
  Store.all_well_formed Sample.url_like
    (Api.perform_all Sample.url_like
       [Api.save_draft
          (Sample.request "  Evening Flow " (Js.JArr [" calm "])
             " https://example.com/z.json" None) Sample.bob 20;
        Api.publish (Some Sample.S1) Sample.alice 30]
       Sample.one_draft).
Proof.
  split; [exact sample_is_well_formed|].
  apply (stored_documents_stay_well_formed Sample.url_like).
  exact sample_is_well_formed.
Defined.

Lemma updated_never_before_created_witness :
  let calls :=
    [Api.save_draft
       (Sample.request "Evening Flow" (Js.JArr []) "https://example.com/z.json" None)
       Sample.bob 20;
     Api.publish (Some Sample.S1) Sample.alice 30] in
  Store.timestamps_ordered 0 Sample.one_draft /\
  Store.chronological 0 calls /\
  forall id d,
    Api.perform_all Sample.url_like calls Sample.one_draft !! id = Some d ->
    created_at d <= updated_at d.
Proof.
  intros calls.
  assert (Store.chronological 0 calls) as Hcalls.
  { cbn. split; [lia|]. split; [lia|exact I]. }
  split; [exact sample_timestamps|]. split; [exact Hcalls|].
  exact (updated_never_before_created Sample.url_like calls 0
           Sample.one_draft sample_timestamps Hcalls).
Defined.

Lemma publish_by_owner_publishes_witness :
  Sample.one_draft !! Sample.S1 = Some Sample.morning_flow /\
  user_id Sample.morning_flow = Sample.alice /\
  exists d',
    Routes.post_publish (Some Sample.S1) Sample.alice 20 Sample.one_draft =
      (Json "Session published successfully" d',
       <[Sample.S1 := d']> Sample.one_draft) /\
    status d' = published /\
    updated_at d' = 20 /\
    Api.content d' = Api.content Sample.morning_flow /\
    created_at d' = created_at Sample.morning_flow /\
    _id d' = _id Sample.morning_flow.
Proof.
  split; [reflexivity|]. split; [reflexivity|].
  apply (publish_by_owner_publishes Sample.S1 Sample.alice 20
           Sample.one_draft Sample.morning_flow); reflexivity.
Defined.

Lemma written_session_is_read_back_witness :
  let call := Api.publish (Some Sample.S1) Sample.alice 20 in
  let r := Api.perform Sample.url_like call Sample.one_draft in
  exists d,
    Store.coherent Sample.one_draft /\
    r = (Json "Session published successfully" d, r.2) /\
    Controller.getSessionById (_id d) Sample.alice r.2 = Json "" d /\
    Store.coherent r.2.
Proof.
  intros call r. eexists.
  split; [exact sample_coherent|].
  assert (r = (Json "Session published successfully"
                 {| _id := Sample.S1; user_id := Sample.alice;
                    Model.title := "Morning Flow"; Model.tags := ["yoga"];
                    Model.json_file_url := "https://example.com/y.json";
                    status := published; created_at := 0;
                    updated_at := 20 |}, r.2)) as Hr by reflexivity.
  split; [exact Hr|].
  exact (written_session_is_read_back Sample.url_like call Sample.one_draft
           _ _ _ sample_coherent Hr).
Defined.

Lemma reads_are_owner_scoped_witness :
  Sample.one_draft !! Sample.S1 = Some Sample.morning_flow /\
  Sample.bob <> user_id Sample.morning_flow /\
  Controller.getSessionById Sample.S1 Sample.bob Sample.one_draft =
    Status404 "Session not found" /\
  (Sample.morning_flow ∉ Lists.getUserSessions Sample.bob Sample.one_draft) /\
  Controller.getSessionById Sample.S1 Sample.alice Sample.one_draft =
    Json "" Sample.morning_flow.
Proof.
  assert (Sample.bob <> user_id Sample.morning_flow) as Hne
    by (vm_compute; discriminate).
  destruct (reads_are_owner_scoped Sample.S1 Sample.bob Sample.one_draft
              Sample.morning_flow eq_refl Hne) as (H1 & _ & H3 & H4).
  split; [reflexivity|]. split; [exact Hne|]. split; [exact H1|].
  split; [exact H3|exact H4].
Defined.

Lemma a_first_save_is_listed_to_its_owner_only_witness :
  let body := Sample.request "Evening Flow" (Js.JArr ["calm"])
                "https://example.com/z.json" None in
  let r := Routes.post_save_draft Sample.url_like body Sample.bob 7
             Sample.one_draft in
  exists d,
    sessionId body = None /\
    r = (Json "Draft saved successfully" d, r.2) /\
    d ∈ Lists.getUserSessions Sample.bob r.2 /\
    (d ∉ Lists.session <$> Lists.getPublishedSessions ∅ r.2) /\
    (d ∉ Lists.getUserSessions Sample.alice r.2).
Proof.
  intros body r. eexists. split; [reflexivity|].
  assert (r = (Json "Draft saved successfully"
                 {| _id := 2%positive; user_id := Sample.bob;
                    Model.title := "Evening Flow"; Model.tags := ["calm"];
                    Model.json_file_url := "https://example.com/z.json";
                    status := draft; created_at := 7;
                    updated_at := 7 |}, r.2)) as Hr by reflexivity.
  split; [exact Hr|].
  destruct (a_first_save_is_listed_to_its_owner_only Sample.url_like ∅ body
              Sample.bob 7 Sample.one_draft _ _ _ eq_refl Hr)
    as (H1 & H2 & H3).
  split; [exact H1|]. split; [exact H2|].
  apply H3. vm_compute. discriminate.
Defined.

Lemma a_published_session_is_listed_publicly_witness :
  let r := Routes.post_publish (Some Sample.S1) Sample.alice 20
             Sample.one_draft in
  exists d,
    r = (Json "Session published successfully" d, r.2) /\
    d ∈ Lists.session <$> Lists.getPublishedSessions ∅ r.2 /\
    d ∈ Lists.getUserSessions Sample.alice r.2.
Proof.
  intros r. eexists.
  assert (r = (Json "Session published successfully"
                 {| _id := Sample.S1; user_id := Sample.alice;
                    Model.title := "Morning Flow"; Model.tags := ["yoga"];
                    Model.json_file_url := "https://example.com/y.json";
                    status := published; created_at := 0;
                    updated_at := 20 |}, r.2)) as Hr by reflexivity.
  split; [exact Hr|].
  exact (a_published_session_is_listed_publicly ∅ (Some Sample.S1)
           Sample.alice 20 Sample.one_draft _ _ _ Hr).
Defined.

Lemma opening_a_session_round_trips_witness :
  let w := {| Editor.editor := Editor.initial;
              Editor.sessions := Sample.one_draft;
              Editor.requests := [] |} in
  let w' := Editor.mount Sample.alice (Some Sample.S1) 0 w in
  forallb Text.plain_tag (Model.tags Sample.morning_flow) = true /\
  Editor.payload (Editor.formData (Editor.editor w'))
    (Editor.currentSessionId (Editor.editor w')) =
    Sample.request "Morning Flow" (Js.JArr ["yoga"]) "https://example.com/y.json"
      (Some Sample.S1) /\
  Editor.requests w' = [Editor.GetSession Sample.S1].
Proof.
  intros w w'. split; [reflexivity|].
  destruct (opening_a_session_round_trips Sample.alice Sample.S1
              Sample.morning_flow 0 w eq_refl eq_refl eq_refl eq_refl
              eq_refl) as (H1 & H2 & _).
  split; [exact H1|exact H2].
Defined.

Lemma sample_is_foreign_to_bob d :
  Sample.one_draft !! Sample.S1 = Some d -> user_id d <> Sample.bob.
Proof.
  intros Hd. unfold Sample.one_draft in Hd.
  apply lookup_singleton_Some in Hd as [_ <-]. discriminate.
Defined.

Lemma opening_a_foreign_session_loads_nothing_witness :
  let w := {| Editor.editor := Editor.initial;
              Editor.sessions := Sample.one_draft;
              Editor.requests := [] |} in
  let w' := Editor.mount Sample.bob (Some Sample.S1) 0 w in
  (forall d, Editor.sessions w !! Sample.S1 = Some d ->
             user_id d <> Sample.bob) /\
  Editor.mounted (Editor.editor w') = false /\
  Editor.requests w' = [Editor.GetSession Sample.S1] /\
  Editor.advance Sample.url_like Sample.bob 60000 w' = w'.
Proof.
  intros w w'. split; [exact sample_is_foreign_to_bob|].
  destruct (opening_a_foreign_session_loads_nothing Sample.url_like
              Sample.bob Sample.S1 0 w sample_is_foreign_to_bob)
    as (H1 & _ & _ & _ & H2 & _ & H3).
  split; [exact H1|]. split; [exact H2|exact (H3 60000)].
Defined.

Lemma manual_save_sends_the_form_at_once_witness :
  let w := Sample.editing_S1 in
  let body := Sample.request "Morning Flow" (Js.JArr ["yoga"])
                "https://example.com/y.json" (Some Sample.S1) in
  let w' := Editor.handleSaveDraft Sample.url_like Sample.alice 10 w in
  Editor.currentSessionId (Editor.editor w) = Some Sample.S1 /\
  Editor.requests w' = Editor.requests w ++ [Editor.SaveDraft body] /\
  Editor.timeoutId (Editor.editor w') = Editor.timeoutId (Editor.editor w) /\
  Editor.hasUnsavedChanges (Editor.editor w') = false /\
  Editor.lastSaved (Editor.editor w') = Some 10.
Proof.
  intros w body w'. split; [reflexivity|].
  destruct (manual_save_sends_the_form_at_once Sample.url_like Sample.alice
              Sample.S1 10 w eq_refl) as [_ H].
  destruct (H eq_refl) as (H1 & _ & H2 & H3 & _).
  split; [exact H1|]. split; [exact H2|].
  apply H3. reflexivity.
Defined.

Lemma manual_save_does_not_cancel_the_autosave_witness :
  let w := Sample.editing_S1 in
  let body := Sample.request "Morning Flow" (Js.JArr ["yoga"])
                "https://example.com/y.json" (Some Sample.S1) in
  Editor.settled (Some Sample.S1) 0 (Editor.editor w) /\
  0 <= 1000 < 0 + Editor.quiet_interval /\
  Editor.requests
    (Editor.advance Sample.url_like Sample.alice 5000
       (Editor.handleSaveDraft Sample.url_like Sample.alice 1000 w)) =
    [Editor.GetSession Sample.S1; Editor.SaveDraft body;
     Editor.SaveDraft body].
Proof.
  intros w body.
  assert (Editor.settled (Some Sample.S1) 0 (Editor.editor w)) as Hs.
  { split; [reflexivity|]. split; reflexivity. }
  assert (0 <= 1000 < 0 + Editor.quiet_interval) as Ht.
  { unfold Editor.quiet_interval. lia. }
  split; [exact Hs|]. split; [exact Ht|].
  apply (manual_save_does_not_cancel_the_autosave Sample.url_like
           Sample.alice Sample.S1 0 1000 w Hs eq_refl eq_refl Ht 5000).
  unfold Editor.quiet_interval. lia.
Defined.

Lemma a_new_session_is_created_once_witness :
  let w := Sample.new_session in
  let burst :=
    [(100, Editor.name_title, "Morning Flow");
     (200, Editor.name_json_file_url, "https://example.com/y.json")] in
  let w' := Editor.run Sample.url_like Sample.alice
              (Editor.edit_events burst) w in
  let final :=
    Editor.sessions (Editor.advance Sample.url_like Sample.alice 60000 w') in
  Editor.within_quiet 100
    [(200, Editor.name_json_file_url, "https://example.com/y.json")] /\
  Api.accepted Sample.url_like
    (Editor.payload (Editor.formData (Editor.editor w')) None) = true /\
  size final = 1%nat /\
  exists d,
    final !! 1%positive = Some d /\
    user_id d = Sample.alice /\
    status d = draft /\
    Model.title d = "Morning Flow".
Proof.
  intros w burst w' final.
  assert (Editor.within_quiet 100
            [(200, Editor.name_json_file_url, "https://example.com/y.json")]) as Hq.
  { cbn. unfold Editor.quiet_interval. split; [lia | exact I]. }
  split; [exact Hq|]. split; [reflexivity|].
  assert (200 + Editor.quiet_interval <= 60000) as Ht
    by (unfold Editor.quiet_interval; lia).
  destruct (a_new_session_is_created_once Sample.url_like Sample.alice w
              100 Editor.name_title "Morning Flow"
              [(200, Editor.name_json_file_url, "https://example.com/y.json")]
              eq_refl eq_refl eq_refl Hq eq_refl eq_refl 60000 Ht)
    as (_ & H2 & _ & d & H4 & H5 & H6 & _ & H7 & _).
  split; [exact H2|]. exists d. split; [exact H4|]. split; [exact H5|].
  split; [exact H6|exact H7].
Defined.

Lemma morning_flow_is_well_formed :
  Store.well_formed Sample.url_like Sample.S1 Sample.morning_flow.
Proof.
  repeat split; try reflexivity; try discriminate;
    repeat constructor; discriminate.
Defined.

Lemma opening_and_waiting_rewrites_the_same_fields_witness :
  let w := {| Editor.editor := Editor.initial;
              Editor.sessions := Sample.one_draft;
              Editor.requests := [] |} in
  let w' := Editor.mount Sample.alice (Some Sample.S1) 0 w in
  Store.well_formed Sample.url_like Sample.S1 Sample.morning_flow /\
  Editor.requests (Editor.advance Sample.url_like Sample.alice 5000 w') =
    [Editor.GetSession Sample.S1;
     Editor.SaveDraft
       (Sample.request "Morning Flow" (Js.JArr ["yoga"]) "https://example.com/y.json"
          (Some Sample.S1))] /\
  (updated_at <$>
     Editor.sessions (Editor.advance Sample.url_like Sample.alice 5000 w')
       !! Sample.S1) = Some 5000.
Proof.
  intros w w'. split; [exact morning_flow_is_well_formed|].
  assert (0 + Editor.quiet_interval <= 5000) as Ht
    by (unfold Editor.quiet_interval; lia).
  destruct (opening_and_waiting_rewrites_the_same_fields Sample.url_like
              Sample.alice Sample.S1 Sample.morning_flow 0 w eq_refl eq_refl
              morning_flow_is_well_formed eq_refl 5000 Ht) as [H1 H2].
  split; [exact H1|]. unfold w'. rewrite H2. reflexivity.
Defined.

Lemma a_session_is_found_by_a_fragment_witness :
  Js.toLowerCase "nING fL" = Js.toLowerCase "ning Fl" /\
  Model.title Sample.morning_flow = "Mor" +:+ "ning Fl" +:+ "ow" /\
  Sample.morning_flow ∈
    Pages.mySessions_filtered Js.toLowerCase
      [Sample.morning_flow_published; Sample.morning_flow] "nING fL"
      (Pages.only draft) /\
  Sample.morning_flow ∈
    Pages.dashboard_filtered Js.toLowerCase
      [Sample.morning_flow_published; Sample.morning_flow] "nING fL" "".
Proof.
  split; [reflexivity|]. split; [reflexivity|].
  destruct (a_session_is_found_by_a_fragment
              [Sample.morning_flow_published; Sample.morning_flow]
              Sample.morning_flow "nING fL" "ning Fl" "Mor" "ow")
    as (_ & H2 & H3).
  - apply list_elem_of_further, list_elem_of_here.
  - reflexivity.
  - left. reflexivity.
  - split; [exact H2|exact H3].
Defined.

Lemma choosing_a_tag_shows_its_sessions_witness :
  let lower := fun s : string => s in
  Js.is_empty "yoga" = false /\
  ("yoga" ∈ Pages.allTags [Sample.morning_flow]) /\
  Pages.dashboard_filtered lower [Sample.morning_flow] "" "yoga" <> [].
Proof.
  intros lower. split; [reflexivity|].
  assert ("yoga" ∈ Pages.allTags [Sample.morning_flow]) as Hin
    by (vm_compute; apply list_elem_of_here).
  split; [exact Hin|].
  destruct (choosing_a_tag_shows_its_sessions lower [Sample.morning_flow]
              "yoga" eq_refl) as [_ H].
  exact (H Hin).
Defined.

Lemma sign_in_survives_a_reload_witness :
  let stringify := fun u : string => u in
  let parse := fun s : string => Js.Returned (Some s) in
  let s' := (Auth.login string stringify (Some ("t0", "alice"))
               (Auth.page_load None None)).2 in
  parse (stringify "alice") = Js.Returned (Some "alice") /\
  Auth.initialize string parse
    (Auth.page_load (Auth.stored_token s') (Auth.stored_user s')) =
  Js.Returned
    {| Auth.user := Some "alice"; Auth.token := Some "t0";
       Auth.loading := false;
       Auth.stored_token := Some "t0";
       Auth.stored_user := Some "alice";
       Auth.authorization := Some "Bearer t0" |}.
Proof.
  intros stringify parse s'. split; [reflexivity|].
  destruct (sign_in_survives_a_reload string stringify parse "t0" "alice"
              (Auth.page_load None None) eq_refl eq_refl eq_refl) as [H _].
  exact H.
Defined.

Lemma header_follows_the_token_witness :
  let stringify := fun u : string => u in
  let parse := fun s : string => Js.Returned (Some s) in
  let s := {| Auth.user := Some "alice"; Auth.token := Some "t0";
              Auth.loading := false;
              Auth.stored_token := Some "t0";
              Auth.stored_user := Some "alice";
              Auth.authorization := Some "Bearer t0" |} in
  let actions := [Auth.Logout; Auth.Login string None;
                  Auth.Register string (Some ("t1", "bob"))] in
  Auth.initialize string parse (Auth.page_load (Some "t0") (Some "alice")) =
    Js.Returned s /\
  Auth.consistent (foldl (Auth.act string stringify) s actions) /\
  Auth.authorization (foldl (Auth.act string stringify) s actions) =
    Some "Bearer t1".
Proof.
  intros stringify parse s actions. split; [reflexivity|].
  destruct (header_follows_the_token string stringify parse (Some "t0")
              (Some "alice") s actions eq_refl) as [H _].
  split; [exact H|reflexivity].
Defined.

Lemma debounce_coalesces_witness :
  let w := Sample.editing_S1 in
  let burst :=
    [(100, Editor.name_title, "Evening Flow");
     (200, Editor.name_tags, "calm, slow")] in
  let w' := Editor.run Sample.url_like Sample.alice
              (Editor.edit_events burst) w in
  Editor.within_quiet 100 [(200, Editor.name_tags, "calm, slow")] /\
  Editor.requests (Editor.advance Sample.url_like Sample.alice 5199 w') =
    [Editor.GetSession Sample.S1] /\
  Editor.requests (Editor.advance Sample.url_like Sample.alice 60000 w') =
    [Editor.GetSession Sample.S1;
     Editor.SaveDraft
       (Sample.request "Evening Flow" (Js.JArr ["calm"; "slow"])
          "https://example.com/y.json" (Some Sample.S1))].
Proof.
  intros w burst w'.
  assert (Editor.within_quiet 100 [(200, Editor.name_tags, "calm, slow")])
    as Hq.
  { cbn. unfold Editor.quiet_interval. split; [lia | exact I]. }
  split; [exact Hq|].
  pose proof (debounce_coalesces Sample.url_like Sample.alice Sample.S1 w
                100 Editor.name_title "Evening Flow"
                [(200, Editor.name_tags, "calm, slow")]
                eq_refl eq_refl eq_refl Hq eq_refl eq_refl) as H.
  split; [exact (H 5199)|exact (H 60000)].
Defined.

Lemma publish_after_successful_flush_witness :
  let w := Editor.run Sample.url_like Sample.alice
             [(1000, Editor.Change Editor.name_title "Evening Flow")]
             Sample.editing_S1 in
  let body := Editor.payload (Editor.formData (Editor.editor w))
                (Some Sample.S1) in
  let w' := Editor.handlePublish Sample.url_like Sample.alice 2000 w in
  Editor.hasUnsavedChanges (Editor.editor w) = true /\
  Api.accepted Sample.url_like body = true /\
  Editor.requests w' =
    Editor.requests w ++
      [Editor.SaveDraft body; Editor.Publish (Some Sample.S1)] /\
  exists d',
    Editor.sessions w' !! Sample.S1 = Some d' /\
    status d' = published /\
    Model.title d' = "Evening Flow".
Proof.
  intros w body w'. split; [reflexivity|]. split; [reflexivity|].
  destruct (publish_after_successful_flush Sample.url_like Sample.alice
              Sample.S1 Sample.morning_flow 2000 w eq_refl eq_refl eq_refl
              eq_refl eq_refl eq_refl) as (H1 & d' & H2 & H3 & H4 & _).
  split; [exact H1|]. exists d'. split; [exact H2|]. split; [exact H3|].
  exact H4.
Defined.

Lemma publish_without_an_id_publishes_nothing_witness :
  let w := Editor.run Sample.url_like Sample.alice
             [(100, Editor.Change Editor.name_title "Morning Flow");
              (200, Editor.Change Editor.name_json_file_url
                      "https://example.com/y.json")]
             Sample.new_session in
  let w' := Editor.handlePublish Sample.url_like Sample.alice 300 w in
  Editor.currentSessionId (Editor.editor w) = None /\
  Editor.requests w' =
    [Editor.SaveDraft
       (Sample.request "Morning Flow" (Js.JArr []) "https://example.com/y.json" None);
     Editor.Publish None] /\
  Editor.mounted (Editor.editor w') = true /\
  (forall id s, Editor.sessions w' !! id = Some s -> status s = published ->
                Editor.sessions w !! id = Some s).
Proof.
  intros w w'. split; [reflexivity|].
  destruct (publish_without_an_id_publishes_nothing Sample.url_like
              Sample.alice 300 w eq_refl eq_refl eq_refl) as (H1 & H2 & H3).
  split; [exact H1|]. split; [exact H2|exact H3].
Defined.
